(** * Simple-gpx-analysis: the browser client of the 49er GPX race analyzer

    A shallow embedding of the JavaScript client:
    - [state.js]      (class [AppState]),
    - [apiClient.js]  (class [ApiClient]),
    - [utils.js]      ([formatDateTimeLocal]),
    - [ui.js]         (class [UIController]),
    - [frontend/main.js] (the earlier single-file client, module [Legacy]).

    JavaScript values are modelled by an inductive type of primitives; a
    finite Number is modelled by the rational it denotes (every double is a
    dyadic rational, and the client only compares and prints numbers, it
    never computes with fractions).  The built-ins the client calls
    ([Number.prototype.toFixed], [String.prototype.padStart], [Date], [Set],
    [URLSearchParams]) follow ECMA-262 and the URL standard.  What the
    language leaves to the host (the time zone, [Date.parse] on a string, the
    digits of a non-integral Number, the text of a built-in error, the HTTP
    server) is a field of the class [Host]. *)

From Stdlib Require Import ZArith QArith Qround Qabs List String Ascii Bool Lia Lqa.
From Stdlib Require Import Decimal DecimalString DecimalFacts DecimalN.
Import ListNotations.
Local Open Scope string_scope.
Local Open Scope Z_scope.

Set Implicit Arguments.

(* ===================================================================== *)
(** ** JavaScript primitives *)
(* ===================================================================== *)

Module JS.

(** A Number: NaN, an infinity, or a finite value. *)
Inductive number : Type :=
| NaN
| Infinity (negative : bool)
| Finite (q : Q).

Inductive value : Type :=
| VUndefined
| VNull
| VBool (b : bool)
| VNumber (n : number)
| VString (s : string).

Definition num (z : Z) : value := VNumber (Finite (inject_Z z)).

(** Errors are values of the built-in classes; [Error] is the one the
    client constructs itself, with its message. *)
Inductive error : Type :=
| TypeError
| RangeError
| Error (message : string).

Inductive completion (A : Type) : Type :=
| Normal (a : A)
| Throw (e : error).
Arguments Normal {A} a.
Arguments Throw {A} e.

(** ToBoolean *)
Definition truthy (v : value) : bool :=
  match v with
  | VUndefined | VNull => false
  | VBool b => b
  | VNumber NaN => false
  | VNumber (Infinity _) => true
  | VNumber (Finite q) => negb (Qeq_bool q 0)
  | VString s => negb (String.eqb s "")
  end.

(** [a || b] *)
Definition or_else (a b : value) : value := if truthy a then a else b.

(** [a ?? b] *)
Definition nullish (a b : value) : value :=
  match a with VUndefined | VNull => b | _ => a end.

Definition number_equal (a b : number) : bool :=
  match a, b with
  | Finite p, Finite q => Qeq_bool p q
  | Infinity s, Infinity t => Bool.eqb s t
  | _, _ => false
  end.

(** [a === b] *)
Definition strict_equals (a b : value) : bool :=
  match a, b with
  | VUndefined, VUndefined => true
  | VNull, VNull => true
  | VBool x, VBool y => Bool.eqb x y
  | VNumber x, VNumber y => number_equal x y
  | VString x, VString y => String.eqb x y
  | _, _ => false
  end.

(** SameValueZero, the equality of [Set] and [Array.prototype.includes]:
    as [===], but NaN equals NaN. *)
Definition same_value_zero (a b : value) : bool :=
  match a, b with
  | VNumber NaN, VNumber NaN => true
  | _, _ => strict_equals a b
  end.

(** *** Decimal digits *)

Definition digits (n : N) : string := NilZero.string_of_uint (N.to_uint n).

Definition is_digit (c : ascii) : bool :=
  let n := nat_of_ascii c in (48 <=? n)%nat && (n <=? 57)%nat.


Fixpoint repeat_char (c : ascii) (n : nat) : string :=
  match n with
  | O => ""
  | S k => String c (repeat_char c k)
  end.

(** [s.padStart(width, "0")] *)
Definition padStart0 (width : nat) (s : string) : string :=
  repeat_char "0"%char (width - String.length s) ++ s.

(** The decimal rendering of an integer Number. *)
Definition integer_string (z : Z) : string :=
  if z <? 0 then "-" ++ digits (Z.to_N (- z)) else digits (Z.to_N z).

Definition pow10 (k : nat) : Z := 10 ^ Z.of_nat k.


(** [matches pat s]: [s] has the shape [pat], where a [d] of the pattern
    stands for one decimal digit and every other character for itself. *)
Fixpoint matches (pat s : string) : bool :=
  match pat, s with
  | EmptyString, EmptyString => true
  | String p pat', String c s' =>
      (if Ascii.eqb p "d" then is_digit c else Ascii.eqb p c)
      && matches pat' s'
  | _, _ => false
  end.

Definition is_integer (q : Q) : bool := (Qnum q mod Zpos (Qden q) =? 0).

End JS.
Import JS.

(* ===================================================================== *)
(** ** The host environment *)
(* ===================================================================== *)

(** Bodies of the three endpoints the client queries. *)
Module Stat.
(** One element of the [/stats] response (a WindowStat). A property the
    JSON object lacks reads as [VUndefined]. *)
Record t : Type := mk {
  boat_id : value;
  avg_sog : value;
  avg_vmg : value;
  avg_heading : value;
  heading_std : value;
  distance_sailed : value;
  height_gain : value;
  tack_count : value;
  gybe_count : value
}.
End Stat.

Module Track.
Record point : Type := mkPoint { lat : value; lon : value }.
Record t : Type := mk { boat_id : value; points : list point }.
End Track.

Module Race.
Record t : Type := mk { id : value; name : value; start_time : value }.
End Race.

Module Boat.
Record t : Type := mk { id : value; sail_no : value; label_color : value }.
End Boat.

(** An HTTP exchange: [response.ok] with its decoded body, a failure with
    the [detail] the server gave (or the status text), or no response at
    all, when [fetch] rejects. *)
Inductive response (A : Type) : Type :=
| HttpOk (body : A)
| HttpError (detail : string)
| NetworkError.
Arguments HttpOk {A} body.
Arguments HttpError {A} detail.
Arguments NetworkError {A}.

(** [URLSearchParams]: the ordered list of name/value pairs. *)
Definition query : Type := list (string * string).

Definition blob : Type := string.

Class Host : Type := {
  (** [Date.parse] of a string: the time value in ms, [None] for NaN. *)
  Date_parse : string -> option Z;
  (** offset of local time from UTC at a UTC instant, in ms *)
  LocalTZA : Z -> Z;
  (** Number::toString of a Number that is not a small integer *)
  Number_toString_other : number -> string;
  (** [error.message] of a built-in error *)
  builtin_message : error -> string;
  (** the backend *)
  GET_stats : query -> response (list Stat.t);
  GET_tracks : query -> response (list Track.t);
  GET_export_csv : query -> response blob
}.

(* ===================================================================== *)
(** ** Number and Date built-ins (ECMA-262) *)
(* ===================================================================== *)

Module Builtin.
Section WithHost.
Context {host : Host}.

(** Number::toString(x, 10) prints the shortest digits that read back as
    the same double.  For an integral Number of magnitude at most 2^53,
    where every integer is a double of its own, these are all its decimal
    digits; for the other finite Numbers (a fraction, or an integer above
    2^53, whose last digits print as zeros) the host supplies them. *)
Definition Number_toString (x : number) : string :=
  match x with
  | NaN => "NaN"
  | Infinity false => "Infinity"
  | Infinity true => "-Infinity"
  | Finite q =>
      if is_integer q && Qle_bool (Qabs q) (inject_Z (2 ^ 53))
      then integer_string (Qfloor q)
      else Number_toString_other x
  end.

(** ToString *)
Definition ToString (v : value) : string :=
  match v with
  | VUndefined => "undefined"
  | VNull => "null"
  | VBool true => "true"
  | VBool false => "false"
  | VNumber n => Number_toString n
  | VString s => s
  end.

Definition message (e : error) : string :=
  match e with
  | Error m => m
  | _ => builtin_message e
  end.

(** The integer n for which n / 10^f - x is as close to zero as
    possible, the larger one when there are two (x >= 0). *)
Definition nearest_scaled (x : Q) (f : nat) : Z :=
  Qfloor (x * inject_Z (pow10 f) + (1 # 2)).

(** Steps 9-11 of Number.prototype.toFixed for 0 <= x < 10^21. *)
Definition fixed_digits (n : Z) (f : nat) : string :=
  let m := digits (Z.to_N n) in
  match f with
  | O => m
  | _ =>
      let m := padStart0 (f + 1) m in
      let k := String.length m in
      substring 0 (k - f) m ++ "." ++ substring (k - f) f m
  end.

(** [x.toFixed(f)] for a Number x and 0 <= f <= 100. *)
Definition Number_toFixed (x : number) (f : nat) : string :=
  match x with
  | Finite q =>
      let s := if Qle_bool 0 q then "" else "-" in
      let a := Qabs q in
      if Qle_bool (inject_Z (10 ^ 21)) a
      then s ++ Number_toString (Finite a)
      else s ++ fixed_digits (nearest_scaled a f) f
  | _ => Number_toString x
  end.

(** [v.toFixed(f)]: only a Number has the method. *)
Definition toFixed (v : value) (f : nat) : completion value :=
  match v with
  | VNumber x => Normal (VString (Number_toFixed x f))
  | _ => Throw TypeError
  end.

(** *** Time values (21.4.1) *)

Definition msPerDay : Z := 86400000.
Definition msPerHour : Z := 3600000.
Definition msPerMinute : Z := 60000.
Definition msPerSecond : Z := 1000.

Definition Day (t : Z) : Z := t / msPerDay.
Definition TimeWithinDay (t : Z) : Z := t mod msPerDay.

Definition DayFromYear (y : Z) : Z :=
  365 * (y - 1970) + (y - 1969) / 4 - (y - 1901) / 100 + (y - 1601) / 400.

Definition DaysInYear (y : Z) : Z :=
  if negb (y mod 4 =? 0) then 365
  else if negb (y mod 100 =? 0) then 366
  else if negb (y mod 400 =? 0) then 365
  else 366.

(** The largest y with DayFromYear(y) <= Day(t): the mean year of
    146097/400 days gives an estimate that is off by one at most. *)
Definition YearFromTime (t : Z) : Z :=
  let d := Day t in
  let y := 1970 + (400 * d) / 146097 in
  if d <? DayFromYear y then y - 1
  else if DayFromYear (y + 1) <=? d then y + 1
  else y.

Definition InLeapYear (t : Z) : Z :=
  if DaysInYear (YearFromTime t) =? 366 then 1 else 0.

Definition DayWithinYear (t : Z) : Z := Day t - DayFromYear (YearFromTime t).

Definition MonthFromTime (t : Z) : Z :=
  let d := DayWithinYear t in
  let l := InLeapYear t in
  if d <? 31 then 0
  else if d <? 59 + l then 1
  else if d <? 90 + l then 2
  else if d <? 120 + l then 3
  else if d <? 151 + l then 4
  else if d <? 181 + l then 5
  else if d <? 212 + l then 6
  else if d <? 243 + l then 7
  else if d <? 273 + l then 8
  else if d <? 304 + l then 9
  else if d <? 334 + l then 10
  else 11.

Definition DateFromTime (t : Z) : Z :=
  let d := DayWithinYear t in
  let l := InLeapYear t in
  match MonthFromTime t with
  | 0 => d + 1
  | 1 => d - 30
  | 2 => d - 58 - l
  | 3 => d - 89 - l
  | 4 => d - 119 - l
  | 5 => d - 150 - l
  | 6 => d - 180 - l
  | 7 => d - 211 - l
  | 8 => d - 242 - l
  | 9 => d - 272 - l
  | 10 => d - 303 - l
  | _ => d - 333 - l
  end.

Definition HourFromTime (t : Z) : Z := (t / msPerHour) mod 24.
Definition MinFromTime (t : Z) : Z := (t / msPerMinute) mod 60.
Definition SecFromTime (t : Z) : Z := (t / msPerSecond) mod 60.
Definition msFromTime (t : Z) : Z := t mod msPerSecond.

Definition LocalTime (t : Z) : Z := t + LocalTZA t.

(** ToIntegerOrInfinity of a finite Number: truncation towards zero. *)
Definition truncate (q : Q) : Z := Z.quot (Qnum q) (Zpos (Qden q)).

(** TimeClip *)
Definition maxTime : Z := 8640000000000000.

Definition TimeClip (n : number) : option Z :=
  match n with
  | Finite q =>
      if Qle_bool (Qabs q) (inject_Z maxTime) then Some (truncate q) else None
  | _ => None
  end.

(** A Date object is its time value; [None] is the invalid date. *)
Definition date : Type := option Z.

(** [new Date(value)] for a primitive [value]. *)
Definition new_Date (v : value) : date :=
  match v with
  | VString s =>
      match Date_parse s with
      | Some t => if Z.abs t <=? maxTime then Some t else None
      | None => None
      end
  | VNumber n => TimeClip n
  | VBool true => Some 1
  | VBool false | VNull => Some 0
  | VUndefined => None
  end.

Definition pad (width : nat) (z : Z) : string :=
  padStart0 width (integer_string z).

(** [Date.prototype.toISOString] (21.4.4.36, 21.4.1.32). *)
Definition iso_year (y : Z) : string :=
  if (0 <=? y) && (y <=? 9999) then pad 4 y
  else (if y <? 0 then "-" else "+") ++ pad 6 (Z.abs y).

Definition iso_string (t : Z) : string :=
  iso_year (YearFromTime t) ++ "-" ++ pad 2 (MonthFromTime t + 1) ++ "-"
    ++ pad 2 (DateFromTime t) ++ "T" ++ pad 2 (HourFromTime t) ++ ":"
    ++ pad 2 (MinFromTime t) ++ ":" ++ pad 2 (SecFromTime t) ++ "."
    ++ pad 3 (msFromTime t) ++ "Z".

Definition toISOString (d : date) : completion string :=
  match d with
  | Some t => Normal (iso_string t)
  | None => Throw RangeError
  end.

(** The two shapes of an ISO-8601 UTC instant that ECMA-262 writes: a
    four-digit year, or a sign and a six-digit year. *)
Definition is_iso_utc (s : string) : bool :=
  matches "dddd-dd-ddTdd:dd:dd.dddZ" s
  || matches "+dddddd-dd-ddTdd:dd:dd.dddZ" s
  || matches "-dddddd-dd-ddTdd:dd:dd.dddZ" s.

(** [new Date(s).toISOString()] *)
Definition iso_of (s : string) : completion string :=
  toISOString (new_Date (VString s)).

End WithHost.
End Builtin.
Import Builtin.

(* ===================================================================== *)
(** ** Collections *)
(* ===================================================================== *)

(** A [Set] keeps its elements in insertion order and compares them with
    SameValueZero; [Array.from(set)] lists them in that order. *)
Module JSSet.
Definition t : Type := list value.

Definition empty : t := [].

Definition has (s : t) (v : value) : bool := existsb (same_value_zero v) s.

Definition add (s : t) (v : value) : t := if has s v then s else (s ++ [v])%list.

Definition delete (s : t) (v : value) : t :=
  filter (fun x => negb (same_value_zero v x)) s.

Definition clear (s : t) : t := [].

Definition size (s : t) : nat := List.length s.

Definition to_array (s : t) : list value := s.
End JSSet.

(** A [Map] with string keys: [set] on a present key replaces the value in
    place, on a new key appends the entry. *)
Module JSMap.
Section WithValues.
Variable V : Type.

Definition t : Type := list (string * V).

Fixpoint get (m : t) (k : string) : option V :=
  match m with
  | [] => None
  | (k', v) :: r => if String.eqb k k' then Some v else get r k
  end.

Fixpoint set (m : t) (k : string) (v : V) : t :=
  match m with
  | [] => [(k, v)]
  | (k', v') :: r =>
      if String.eqb k k' then (k', v) :: r else (k', v') :: set r k v
  end.
End WithValues.
End JSMap.

(** [array.find(p) || null] on an array of objects *)
Definition find_or_null {A : Type} (p : A -> bool) (l : list A) : option A :=
  List.find p l.

(* ===================================================================== *)
(** ** state.js: class AppState *)
(* ===================================================================== *)

Module AppState.

(** A registered handler is known by its identity.  This module gives
    each method by what it does itself: the state it leaves when the
    handlers it calls return without touching the state, and, from [emit],
    the calls made then, in order.  What the handlers do when they run,
    a throw or a call back into the state included, is the matter of
    [Live] below, where [emit] runs them. *)
Definition handler : Type := nat.

Inductive payload : Type :=
| Races (races : list Race.t)
| Boats (boats : list Boat.t)
| Id (raceId : value)
| Ids (boatIds : list value).

Definition call : Type := (handler * payload)%type.

Record t : Type := mk {
  races : list Race.t;
  boats : list Boat.t;
  selectedRaceId : value;
  selectedBoats : JSSet.t;
  listeners : JSMap.t (list handler)
}.

Definition constructor : t :=
  {| races := []; boats := []; selectedRaceId := VNull;
     selectedBoats := JSSet.empty; listeners := [] |}.

Definition on (this : t) (event : string) (h : handler) : t :=
  let current :=
    match JSMap.get (listeners this) event with
    | Some l => l
    | None => []
    end in
  {| races := races this; boats := boats this;
     selectedRaceId := selectedRaceId this;
     selectedBoats := selectedBoats this;
     listeners := JSMap.set (listeners this) event (current ++ [h])%list |}.

Definition emit (this : t) (event : string) (p : payload) : list call :=
  let handlers :=
    match JSMap.get (listeners this) event with
    | Some l => l
    | None => []
    end in
  map (fun h => (h, p)) handlers.

Definition getSelectedBoats (this : t) : list value :=
  JSSet.to_array (selectedBoats this).

Definition setRaces (this : t) (rs : list Race.t) : t * list call :=
  let this := {| races := rs; boats := boats this;
                 selectedRaceId := selectedRaceId this;
                 selectedBoats := selectedBoats this;
                 listeners := listeners this |} in
  (this, emit this "races" (Races rs)).

Definition setSelectedRace (this : t) (raceId : value) : t * list call :=
  if strict_equals (selectedRaceId this) raceId then (this, [])
  else
    let this := {| races := races this; boats := boats this;
                   selectedRaceId := raceId;
                   selectedBoats := JSSet.clear (selectedBoats this);
                   listeners := listeners this |} in
    (this, (emit this "selectedRace" (Id raceId)
              ++ emit this "boatSelection" (Ids (getSelectedBoats this)))%list).

Definition setBoats (this : t) (bs : list Boat.t) : t * list call :=
  let this := {| races := races this; boats := bs;
                 selectedRaceId := selectedRaceId this;
                 selectedBoats := JSSet.clear (selectedBoats this);
                 listeners := listeners this |} in
  (this, (emit this "boats" (Boats bs)
            ++ emit this "boatSelection" (Ids (getSelectedBoats this)))%list).

Definition toggleBoat (this : t) (boatId : value) (enabled : bool)
  : t * list call :=
  let sel := if enabled then JSSet.add (selectedBoats this) boatId
             else JSSet.delete (selectedBoats this) boatId in
  let this := {| races := races this; boats := boats this;
                 selectedRaceId := selectedRaceId this;
                 selectedBoats := sel;
                 listeners := listeners this |} in
  (this, emit this "boatSelection" (Ids (getSelectedBoats this))).

Definition getRaceById (this : t) (id : value) : option Race.t :=
  find_or_null (fun race => strict_equals (Race.id race) id) (races this).

Definition getBoatById (this : t) (id : value) : option Boat.t :=
  find_or_null (fun boat => strict_equals (Boat.id boat) id) (boats this).

End AppState.

(* ===================================================================== *)
(** ** The page: what the client reads, writes and does *)
(* ===================================================================== *)

(** What the client does to the outside, in order. *)
Inductive effect : Type :=
| Alert (text : string)
| Fetch (url : string) (search : query)
| SaveAs (download : string) (content : blob)
| UpdateTracks (tracks : list Track.t).

(** The elements of the page the modelled code touches: the two window
    pickers and the body of the statistics table, a list of rows, each the
    list of the values assigned to its cells. *)
Record page : Type := mkPage {
  windowStart : string;
  windowEnd : string;
  statsTableBody : list (list value);
  trace : list effect
}.

(** Code that reads and writes the page, records its effects and may
    throw. *)
Definition M (A : Type) : Type := page -> page * completion A.

Definition ret {A : Type} (a : A) : M A := fun w => (w, Normal a).

Definition bind {A B : Type} (c : M A) (k : A -> M B) : M B :=
  fun w =>
    match c w with
    | (w', Normal a) => k a w'
    | (w', Throw e) => (w', Throw e)
    end.

Definition throw {A : Type} (e : error) : M A := fun w => (w, Throw e).

(** [try { c } catch (error) { h(error) }] *)
Definition try_catch {A : Type} (c : M A) (h : error -> M A) : M A :=
  fun w =>
    match c w with
    | (w', Normal a) => (w', Normal a)
    | (w', Throw e) => h e w'
    end.

Definition lift {A : Type} (c : completion A) : M A := fun w => (w, c).

Definition perform (e : effect) : M unit :=
  fun w => ({| windowStart := windowStart w; windowEnd := windowEnd w;
               statsTableBody := statsTableBody w;
               trace := (trace w ++ [e])%list |}, Normal tt).

Definition read {A : Type} (f : page -> A) : M A := fun w => (w, Normal (f w)).

Definition set_rows (rows : list (list value)) : M unit :=
  fun w => ({| windowStart := windowStart w; windowEnd := windowEnd w;
               statsTableBody := rows; trace := trace w |}, Normal tt).

Declare Scope js_scope.
Delimit Scope js_scope with js.
Notation "x <- c ;; k" := (bind c (fun x => k))
  (at level 61, c at next level, right associativity) : js_scope.
Notation "c ;; k" := (bind c (fun _ => k))
  (at level 61, right associativity) : js_scope.
Local Open Scope js_scope.

(** [array.forEach(f)] *)
Fixpoint forEach {A : Type} (f : A -> M unit) (l : list A) : M unit :=
  match l with
  | [] => ret tt
  | a :: r => f a ;; forEach f r
  end.

(** The argument objects of the [ApiClient] calls; an absent property is
    [VUndefined]. *)
Record params : Type := mkParams {
  boats : list value;
  t0 : value;
  t1 : value;
  ref : value;
  legId : value;
  downsample : value
}.

Module URLSearchParams.
Section WithHost.
Context {host : Host}.

(** [search.append(name, value)]: the value is converted to a string. *)
Definition append (search : query) (name : string) (v : value) : query :=
  (search ++ [(name, ToString v)])%list.

(** [ids.forEach((boatId) => search.append("boats", boatId))] *)
Definition append_boats (search : query) (ids : list value) : query :=
  fold_left (fun s boatId => append s "boats" boatId) ids search.

(** [search.getAll(name)] *)
Definition getAll (search : query) (name : string) : list string :=
  map snd (filter (fun nv => String.eqb (fst nv) name) search).

(** [search.has(name)] *)
Definition has (search : query) (name : string) : bool :=
  existsb (fun nv => String.eqb (fst nv) name) search.
End WithHost.
End URLSearchParams.

(* ===================================================================== *)
(** ** apiClient.js: class ApiClient *)
(* ===================================================================== *)

Module ApiClient.
Section WithHost.
Context {host : Host}.
Import URLSearchParams.

Record t : Type := mk { baseUrl : string }.

(** [request(path)] for a GET: the body of an ok response, the server's
    detail thrown as an [Error] otherwise. *)
Definition request {A : Type} (this : t) (endpoint : query -> response A)
    (path : string) (search : query) : M A :=
  perform (Fetch (baseUrl this ++ path) search) ;;
  match endpoint search with
  | HttpOk body => ret body
  | HttpError detail => throw (Error detail)
  | NetworkError => throw TypeError
  end.

(** [params.boats] is an array whenever it is given, and an array is
    truthy. *)
Definition getTracks_search (p : params) : query :=
  let search := append_boats [] (boats p) in
  let search := if truthy (t0 p) then append search "t0" (t0 p) else search in
  let search := if truthy (t1 p) then append search "t1" (t1 p) else search in
  if truthy (downsample p) then append search "downsample" (downsample p)
  else search.

Definition getTracks (this : t) (p : params) : M (list Track.t) :=
  request this GET_tracks "/tracks" (getTracks_search p).

Definition getStats_search (p : params) : query :=
  let search := append_boats [] (boats p) in
  let search := append search "t0" (t0 p) in
  let search := append search "t1" (t1 p) in
  let search := append search "ref" (nullish (ref p) (VString "twd")) in
  if truthy (legId p) then append search "legId" (legId p) else search.

Definition getStats (this : t) (p : params) : M (list Stat.t) :=
  request this GET_stats "/stats" (getStats_search p).

Definition downloadCsv_search (p : params) : query :=
  let search := append_boats [] (boats p) in
  let search := append search "t0" (t0 p) in
  let search := append search "t1" (t1 p) in
  if truthy (ref p) then append search "ref" (ref p) else search.

Definition downloadCsv (this : t) (p : params) : M blob :=
  let search := downloadCsv_search p in
  perform (Fetch (baseUrl this ++ "/export/csv") search) ;;
  match GET_export_csv search with
  | HttpOk body => ret body
  | HttpError _ => throw (Error "Failed to download CSV")
  | NetworkError => throw TypeError
  end.

End WithHost.
End ApiClient.

(* ===================================================================== *)
(** ** utils.js *)
(* ===================================================================== *)

Section Utils.
Context {host : Host}.

Definition formatDateTimeLocal (value : JS.value) : string :=
  if negb (truthy value) then ""
  else
    match new_Date value with
    | None => ""
    | Some tv =>
        let t := LocalTime tv in
        let yyyy := YearFromTime t in
        let mm := pad 2 (MonthFromTime t + 1) in
        let dd := pad 2 (DateFromTime t) in
        let hh := pad 2 (HourFromTime t) in
        let min := pad 2 (MinFromTime t) in
        ToString (num yyyy) ++ "-" ++ mm ++ "-" ++ dd ++ "T" ++ hh ++ ":" ++ min
    end.
End Utils.

(* ===================================================================== *)
(** ** The rows of the statistics table *)
(* ===================================================================== *)

Section Rows.
Context {host : Host}.

Definition and_then {A B : Type} (c : completion A) (k : A -> completion B)
  : completion B :=
  match c with
  | Normal a => k a
  | Throw e => Throw e
  end.

(** The array literal [cells] of [renderStatsTable] and of the earlier
    [refreshStats]; [boat] is the boat found for [stat.boat_id], if any.
    Its elements are evaluated left to right. *)
Definition cells (boat : option Boat.t) (stat : Stat.t)
  : completion (list value) :=
  let sail_no := match boat with
                 | Some b => Boat.sail_no b
                 | None => VUndefined
                 end in
  let who := or_else sail_no (Stat.boat_id stat) in
  and_then (toFixed (Stat.avg_sog stat) 2) (fun sog =>
  and_then (toFixed (Stat.avg_vmg stat) 2) (fun vmg =>
  and_then (toFixed (Stat.avg_heading stat) 1) (fun heading =>
  and_then (toFixed (Stat.heading_std stat) 1) (fun std =>
  and_then (toFixed (Stat.distance_sailed stat) 0) (fun distance =>
  and_then (toFixed (Stat.height_gain stat) 1) (fun height =>
  Normal [who; sog; vmg; heading; std; distance; height;
          Stat.tack_count stat; Stat.gybe_count stat])))))).

(** [tbody.appendChild(row)] *)
Definition appendRow (row : list value) : M unit :=
  rows <- read statsTableBody ;; set_rows (rows ++ [row])%list.
End Rows.

(* ===================================================================== *)
(** ** ui.js: class UIController *)
(* ===================================================================== *)

Module UIController.
Section WithHost.
Context {host : Host}.

Record t : Type := mk { api : ApiClient.t; state : AppState.t }.

Definition getWindowRange : M (option (string * string)) :=
  start <- read windowStart ;;
  end_ <- read windowEnd ;;
  if negb (truthy (VString start)) || negb (truthy (VString end_))
  then ret None
  else
    startIso <- lift (iso_of start) ;;
    endIso <- lift (iso_of end_) ;;
    ret (Some (startIso, endIso)).

(** [range?.startIso], [range?.endIso] *)
Definition startIso (range : option (string * string)) : value :=
  match range with Some (s, _) => VString s | None => VUndefined end.
Definition endIso (range : option (string * string)) : value :=
  match range with Some (_, e) => VString e | None => VUndefined end.

Definition clearStatsTable : M unit := set_rows [].

Definition renderStatsTable (this : t) (stats : list Stat.t) : M unit :=
  set_rows [] ;;
  forEach (fun stat =>
    let boat := AppState.getBoatById (state this) (Stat.boat_id stat) in
    row <- lift (cells boat stat) ;;
    appendRow row) stats.

Definition refreshTracks (this : t) : M unit :=
  let boatIds := AppState.getSelectedBoats (state this) in
  match boatIds with
  | [] => ret tt
  | _ =>
      range <- getWindowRange ;;
      let p := {| boats := boatIds;
                  t0 := if truthy (startIso range) then startIso range
                        else VUndefined;
                  t1 := if truthy (endIso range) then endIso range
                        else VUndefined;
                  ref := VUndefined; legId := VUndefined;
                  downsample := VUndefined |} in
      tracks <- ApiClient.getTracks (api this) p ;;
      perform (UpdateTracks tracks)
  end.

Definition refreshStats (this : t) : M unit :=
  let boatIds := AppState.getSelectedBoats (state this) in
  range <- getWindowRange ;;
  match boatIds, range with
  | _ :: _, Some (s, e) =>
      stats <- ApiClient.getStats (api this)
                 {| boats := boatIds; t0 := VString s; t1 := VString e;
                    ref := VString "twd"; legId := VUndefined;
                    downsample := VUndefined |} ;;
      renderStatsTable this stats
  | _, _ => clearStatsTable
  end.

Definition downloadCsv (this : t) : M unit :=
  let boatIds := AppState.getSelectedBoats (state this) in
  range <- getWindowRange ;;
  match boatIds, range with
  | _ :: _, Some (s, e) =>
      try_catch
        (content <- ApiClient.downloadCsv (api this)
                      {| boats := boatIds; t0 := VString s; t1 := VString e;
                         ref := VUndefined; legId := VUndefined;
                         downsample := VUndefined |} ;;
         perform (SaveAs "window_stats.csv" content))
        (fun error => perform (Alert (message error)))
  | _, _ => perform (Alert "Select boats and a valid time window first")
  end.

End WithHost.
End UIController.

(* ===================================================================== *)
(** ** frontend/main.js: the earlier single-file client *)
(* ===================================================================== *)

Module Legacy.
Section WithHost.
Context {host : Host}.
Import URLSearchParams.

(** The module-level variables. *)
Record t : Type := mk {
  API_BASE : string;
  races : list Race.t;
  boats : list Boat.t;
  selectedRaceId : value;
  selectedBoats : JSSet.t
}.

Definition fetchJSON {A : Type} (endpoint : query -> response A)
    (url : string) (search : query) : M A :=
  perform (Fetch url search) ;;
  match endpoint search with
  | HttpOk body => ret body
  | HttpError detail => throw (Error detail)
  | NetworkError => throw TypeError
  end.

(** [selectedBoats.forEach((boatId) => params.append("boats", boatId))] *)
Definition boats_params (this : t) : query :=
  append_boats [] (JSSet.to_array (selectedBoats this)).

Definition refreshTracks (this : t) : M unit :=
  if (JSSet.size (selectedBoats this) =? 0)%nat then ret tt
  else
    let search := boats_params this in
    start <- read windowStart ;;
    end_ <- read windowEnd ;;
    search <- (if truthy (VString start)
               then iso <- lift (iso_of start) ;;
                    ret (append search "t0" (VString iso))
               else ret search) ;;
    search <- (if truthy (VString end_)
               then iso <- lift (iso_of end_) ;;
                    ret (append search "t1" (VString iso))
               else ret search) ;;
    tracks <- fetchJSON GET_tracks (API_BASE this ++ "/tracks") search ;;
    perform (UpdateTracks tracks).

Definition refreshStats (this : t) : M unit :=
  if (JSSet.size (selectedBoats this) =? 0)%nat then ret tt
  else
    start <- read windowStart ;;
    end_ <- read windowEnd ;;
    if negb (truthy (VString start)) || negb (truthy (VString end_))
    then ret tt
    else
      let search := boats_params this in
      iso0 <- lift (iso_of start) ;;
      let search := append search "t0" (VString iso0) in
      iso1 <- lift (iso_of end_) ;;
      let search := append search "t1" (VString iso1) in
      let search := append search "ref" (VString "twd") in
      stats <- fetchJSON GET_stats (API_BASE this ++ "/stats") search ;;
      set_rows [] ;;
      forEach (fun stat =>
        let boat := List.find
                      (fun b => strict_equals (Boat.id b) (Stat.boat_id stat))
                      (boats this) in
        row <- lift (cells boat stat) ;;
        appendRow row) stats.

Definition downloadCSV (this : t) : M unit :=
  if (JSSet.size (selectedBoats this) =? 0)%nat then ret tt
  else
    start <- read windowStart ;;
    end_ <- read windowEnd ;;
    if negb (truthy (VString start)) || negb (truthy (VString end_))
    then ret tt
    else
      let search := boats_params this in
      iso0 <- lift (iso_of start) ;;
      let search := append search "t0" (VString iso0) in
      iso1 <- lift (iso_of end_) ;;
      let search := append search "t1" (VString iso1) in
      perform (Fetch (API_BASE this ++ "/export/csv") search) ;;
      match GET_export_csv search with
      | NetworkError => throw TypeError
      | HttpError _ => perform (Alert "Failed to download CSV")
      | HttpOk content => perform (SaveAs "window_stats.csv" content)
      end.

End WithHost.
End Legacy.

(* ===================================================================== *)
(** ** Vocabulary of the properties *)
(* ===================================================================== *)

(** The requests among a list of effects, in order. *)
Fixpoint requests (fx : list effect) : list (string * query) :=
  match fx with
  | [] => []
  | Fetch url search :: r => (url, search) :: requests r
  | _ :: r => requests r
  end.

(** The files saved among a list of effects, in order. *)
Fixpoint downloads (fx : list effect) : list (string * blob) :=
  match fx with
  | [] => []
  | SaveAs name content :: r => (name, content) :: downloads r
  | _ :: r => downloads r
  end.

(** The alerts among a list of effects, in order. *)
Fixpoint alerts (fx : list effect) : list string :=
  match fx with
  | [] => []
  | Alert text :: r => text :: alerts r
  | _ :: r => alerts r
  end.


(** The query has every one of the parameters [names]. *)
Definition carries (names : list string) (q : query) : bool :=
  forallb (URLSearchParams.has q) names.

Definition is_number (v : value) : bool :=
  match v with VNumber _ => true | _ => false end.

(** A WindowStat proper: its six measures are Numbers. *)
Definition measured (stat : Stat.t) : bool :=
  is_number (Stat.avg_sog stat) && is_number (Stat.avg_vmg stat)
  && is_number (Stat.avg_heading stat) && is_number (Stat.heading_std stat)
  && is_number (Stat.distance_sailed stat) && is_number (Stat.height_gain stat).


Section Vocabulary.
Context {host : Host}.

(** The picker value [s] is not empty and [new Date(s)] is the valid
    date with time value [t]. *)
Definition parseable (s : string) (t : Z) : Prop :=
  s <> "" /\ new_Date (VString s) = Some t.

(** The ISO renderings of the two pickers, when neither is empty and
    both are dates. *)
Definition window (w : page) : option (string * string) :=
  if truthy (VString (windowStart w)) && truthy (VString (windowEnd w))
  then match iso_of (windowStart w), iso_of (windowEnd w) with
       | Normal s, Normal e => Some (s, e)
       | _, _ => None
       end
  else None.

(** One [boats] entry for each id, in the order of the list. *)
Definition boats_query (ids : list value) : query :=
  map (fun boatId => ("boats", ToString boatId)) ids.




(** The query asks for the window from [ts] to [te], both written as
    ISO-8601 instants in UTC. *)
Definition iso_window (ts te : Z) (q : query) : Prop :=
  URLSearchParams.getAll q "t0" = [iso_string ts]
  /\ URLSearchParams.getAll q "t1" = [iso_string te]
  /\ is_iso_utc (iso_string ts) = true
  /\ is_iso_utc (iso_string te) = true.

End Vocabulary.

(** [P] holds of [from], [from + 1], ..., [count] numbers in all. *)
Fixpoint check_range (P : Z -> bool) (from : Z) (count : nat) : bool :=
  match count with
  | O => true
  | S k => P from && check_range P (from + 1) k
  end.

(* ===================================================================== *)
(** ** A host to run the client on *)
(* ===================================================================== *)

(** A browser two hours east of Greenwich.  [Date.parse] reads the value
    of a [datetime-local] input, [YYYY-MM-DDTHH:mm], as local time, and the
    string [toISOString] writes; every other string is not a date. *)
Module Sample.

Definition digit_value (c : ascii) : option Z :=
  if is_digit c then Some (Z.of_nat (nat_of_ascii c) - 48) else None.

Fixpoint read_digits (acc : Z) (s : string) : option Z :=
  match s with
  | EmptyString => Some acc
  | String c r =>
      match digit_value c with
      | Some d => read_digits (10 * acc + d) r
      | None => None
      end
  end.

Definition field (s : string) (from len : nat) : option Z :=
  read_digits 0 (substring from len s).

Definition char_at (s : string) (i : nat) : string := substring i 1 s.

(** MakeDay for a month in 0..11 *)
Definition MakeDay (year month date : Z) : Z :=
  let l := if DaysInYear year =? 366 then 1 else 0 in
  let before :=
    match month with
    | 0 => 0 | 1 => 31 | 2 => 59 + l | 3 => 90 + l | 4 => 120 + l
    | 5 => 151 + l | 6 => 181 + l | 7 => 212 + l | 8 => 243 + l
    | 9 => 273 + l | 10 => 304 + l | _ => 334 + l
    end in
  DayFromYear year + before + date - 1.

Definition MakeTime (hour min sec ms : Z) : Z :=
  hour * msPerHour + min * msPerMinute + sec * msPerSecond + ms.

Definition offset : Z := 2 * msPerHour.

Definition in_range (lo hi : Z) (o : option Z) : option Z :=
  match o with
  | Some z => if (lo <=? z) && (z <=? hi) then Some z else None
  | None => None
  end.

Definition parse_date_time (s : string) : option (Z * Z) :=
  match field s 0 4, in_range 1 12 (field s 5 2), in_range 1 31 (field s 8 2),
        in_range 0 23 (field s 11 2), in_range 0 59 (field s 14 2) with
  | Some y, Some mo, Some d, Some h, Some mi =>
      if String.eqb (char_at s 4) "-" && String.eqb (char_at s 7) "-"
         && String.eqb (char_at s 10) "T" && String.eqb (char_at s 13) ":"
      then Some (MakeDay y (mo - 1) d, MakeTime h mi 0 0)
      else None
  | _, _, _, _, _ => None
  end.

Definition parse (s : string) : option Z :=
  match String.length s with
  | 16%nat =>
      match parse_date_time s with
      | Some (day, time) => Some (day * msPerDay + time - offset)
      | None => None
      end
  | 24%nat =>
      match parse_date_time s, in_range 0 59 (field s 17 2), field s 20 3 with
      | Some (day, time), Some sec, Some ms =>
          if String.eqb (char_at s 16) ":" && String.eqb (char_at s 19) "."
             && String.eqb (char_at s 23) "Z"
          then Some (day * msPerDay + time + sec * msPerSecond + ms)
          else None
      | _, _, _ => None
      end
  | _ => None
  end.

Definition stat (boat sog vmg heading std distance height : Q)
    (tacks gybes : Z) : Stat.t :=
  {| Stat.boat_id := VNumber (Finite boat);
     Stat.avg_sog := VNumber (Finite sog);
     Stat.avg_vmg := VNumber (Finite vmg);
     Stat.avg_heading := VNumber (Finite heading);
     Stat.heading_std := VNumber (Finite std);
     Stat.distance_sailed := VNumber (Finite distance);
     Stat.height_gain := VNumber (Finite height);
     Stat.tack_count := num tacks;
     Stat.gybe_count := num gybes |}.

(** The backend answers for boats 7 and 3 only. *)
Definition stats : list Stat.t :=
  [ stat 7 (25 # 4) (-33 # 8) (625 # 2) (29 # 4) (1975 # 2) (-193 # 16) 3 0;
    stat 3 (5 # 1) (1 # 8) (45 # 2) (0 # 1) (1 # 2) (1 # 1024) 0 2 ].

#[export] Instance host : Host := {|
  Date_parse := parse;
  LocalTZA := fun _ => offset;
  Number_toString_other := fun _ => "0.5";  (* not reached below *)
  builtin_message := fun e =>
    match e with
    | RangeError => "Invalid time value"
    | _ => "Failed to fetch"
    end;
  GET_stats := fun _ => HttpOk stats;
  GET_tracks := fun _ => HttpOk [];
  GET_export_csv := fun _ => HttpOk "boat,avg_sog"
|}.

(** The same browser with a backend that refuses every request. *)
Definition offline : Host := {|
  Date_parse := parse;
  LocalTZA := fun _ => offset;
  Number_toString_other := fun _ => "0.5";
  builtin_message := fun _ => "Failed to fetch";
  GET_stats := fun _ => HttpError "Service Unavailable";
  GET_tracks := fun _ => HttpError "Service Unavailable";
  GET_export_csv := fun _ => HttpError "Service Unavailable"
|}.



Definition boats : list Boat.t :=
  [ {| Boat.id := num 3; Boat.sail_no := VString "GBR 49";
       Boat.label_color := VString "#1f77b4" |};
    {| Boat.id := num 5; Boat.sail_no := VString "NZL 7";
       Boat.label_color := VString "#ff7f0e" |};
    {| Boat.id := num 7; Boat.sail_no := VString "";
       Boat.label_color := VString "#2ca02c" |} ].

(** Boats loaded, then 7, 3 and 5 ticked in that order. *)
Definition state : AppState.t :=
  let s := AppState.constructor in
  let s := fst (AppState.setSelectedRace s (num 1)) in
  let s := fst (AppState.setBoats s boats) in
  let s := fst (AppState.toggleBoat s (num 7) true) in
  let s := fst (AppState.toggleBoat s (num 3) true) in
  fst (AppState.toggleBoat s (num 5) true).

Definition ui : UIController.t :=
  {| UIController.api := {| ApiClient.baseUrl := "/api" |};
     UIController.state := state |}.

Definition legacy : Legacy.t :=
  {| Legacy.API_BASE := "http://localhost:8000";
     Legacy.races := [];
     Legacy.boats := boats;
     Legacy.selectedRaceId := num 1;
     Legacy.selectedBoats :=
       JSSet.add (JSSet.add (JSSet.add JSSet.empty (num 7)) (num 3)) (num 5) |}.

Definition page0 : page :=
  {| windowStart := "2024-06-01T12:00"; windowEnd := "2024-06-01T12:05";
     statsTableBody := [[VString "stale"]]; trace := [] |}.

End Sample.

(* ===================================================================== *)
(** ** Proof steps *)
(* ===================================================================== *)

(** Unfold one layer of the page monad. *)
Ltac run :=
  unfold bind, ret, lift, read, perform, throw, try_catch, set_rows,
    appendRow in *;
  cbn [fst snd trace windowStart windowEnd statsTableBody] in *.

(** A run that has ended: read the final page and completion off it. *)
Ltac done_run :=
  match goal with
  | H : (_, _) = (_, _) |- _ => injection H as <- <-
  end;
  cbn [fst snd trace windowStart windowEnd statsTableBody].

(* ===================================================================== *)
(** ** More vocabulary: the selection and the loaded lists *)
(* ===================================================================== *)

(** No two elements of the list are the same value (SameValueZero). *)
Fixpoint distinct (s : list value) : bool :=
  match s with
  | [] => true
  | v :: r => negb (JSSet.has r v) && distinct r
  end.

(** No two of the ids are [===], and none is NaN. *)
Fixpoint ids_unique (ids : list value) : bool :=
  match ids with
  | [] => true
  | v :: r =>
      strict_equals v v
      && negb (existsb (fun x => strict_equals x v) r)
      && ids_unique r
  end.

(** The states the methods of [AppState] lead to from a new one. *)
Inductive reachable : AppState.t -> Prop :=
| reach_new : reachable AppState.constructor
| reach_on st event h :
    reachable st -> reachable (AppState.on st event h)
| reach_setRaces st rs :
    reachable st -> reachable (fst (AppState.setRaces st rs))
| reach_setSelectedRace st raceId :
    reachable st -> reachable (fst (AppState.setSelectedRace st raceId))
| reach_setBoats st bs :
    reachable st -> reachable (fst (AppState.setBoats st bs))
| reach_toggleBoat st boatId enabled :
    reachable st -> reachable (fst (AppState.toggleBoat st boatId enabled)).

(* ===================================================================== *)
(** ** state.js: [emit] with the handlers run *)
(* ===================================================================== *)

(** [handlers.forEach((handler) => handler(payload))] calls the handlers
    of the event one after the other, each on the state and the rest of the
    client as the one before left them, and stops at the first that throws:
    the throw leaves [emit] and the method that emitted.  What a handler
    does is a parameter: any change of the state and of the rest of the
    client, methods of the state called back included, and any throw. *)
Module Live.
Section WithHandlers.
(** The rest of the client, which the handlers read and write. *)
Variable W : Type.
Variable behave :
  AppState.handler -> AppState.payload -> AppState.t * W ->
  (AppState.t * W) * completion unit.

(** State and rest of the client after a step, the calls the step itself
    has made, the last of them the one that threw if one did, and how the
    step ended. *)
Definition outcome : Type :=
  ((AppState.t * W) * list AppState.call * completion unit)%type.

(** [this.listeners.get(event) || []] *)
Definition handlers (this : AppState.t) (event : string)
  : list AppState.handler :=
  match JSMap.get (AppState.listeners this) event with
  | Some l => l
  | None => []
  end.

Fixpoint call_each (hs : list AppState.handler) (p : AppState.payload)
    (s : AppState.t * W) : outcome :=
  match hs with
  | [] => (s, [], Normal tt)
  | h :: r =>
      match behave h p s with
      | (s', Normal _) =>
          match call_each r p s' with
          | (s'', log, c) => (s'', (h, p) :: log, c)
          end
      | (s', Throw e) => (s', [(h, p)], Throw e)
      end
  end.

(** [forEach] visits the handlers the array holds when it starts. *)
Definition emit (event : string) (p : AppState.payload)
    (s : AppState.t * W) : outcome :=
  call_each (handlers (fst s) event) p s.

(** One step after another. *)
Definition and_next (r : outcome) (k : AppState.t * W -> outcome) : outcome :=
  match r with
  | (s, log, Normal _) =>
      match k s with
      | (s', log', c) => (s', (log ++ log')%list, c)
      end
  | (s, log, Throw e) => (s, log, Throw e)
  end.

Definition setRaces (rs : list Race.t) (s : AppState.t * W) : outcome :=
  let (this, w) := s in
  let this := {| AppState.races := rs; AppState.boats := AppState.boats this;
                 AppState.selectedRaceId := AppState.selectedRaceId this;
                 AppState.selectedBoats := AppState.selectedBoats this;
                 AppState.listeners := AppState.listeners this |} in
  emit "races" (AppState.Races rs) (this, w).

Definition setSelectedRace (raceId : value) (s : AppState.t * W) : outcome :=
  let (this, w) := s in
  if strict_equals (AppState.selectedRaceId this) raceId
  then (s, [], Normal tt)
  else
    let this := {| AppState.races := AppState.races this;
                   AppState.boats := AppState.boats this;
                   AppState.selectedRaceId := raceId;
                   AppState.selectedBoats :=
                     JSSet.clear (AppState.selectedBoats this);
                   AppState.listeners := AppState.listeners this |} in
    and_next (emit "selectedRace" (AppState.Id raceId) (this, w))
      (fun s =>
         emit "boatSelection"
           (AppState.Ids (AppState.getSelectedBoats (fst s))) s).

Definition setBoats (bs : list Boat.t) (s : AppState.t * W) : outcome :=
  let (this, w) := s in
  let this := {| AppState.races := AppState.races this; AppState.boats := bs;
                 AppState.selectedRaceId := AppState.selectedRaceId this;
                 AppState.selectedBoats :=
                   JSSet.clear (AppState.selectedBoats this);
                 AppState.listeners := AppState.listeners this |} in
  and_next (emit "boats" (AppState.Boats bs) (this, w))
    (fun s =>
       emit "boatSelection"
         (AppState.Ids (AppState.getSelectedBoats (fst s))) s).

Definition toggleBoat (boatId : value) (enabled : bool)
    (s : AppState.t * W) : outcome :=
  let (this, w) := s in
  let sel := if enabled then JSSet.add (AppState.selectedBoats this) boatId
             else JSSet.delete (AppState.selectedBoats this) boatId in
  let this := {| AppState.races := AppState.races this;
                 AppState.boats := AppState.boats this;
                 AppState.selectedRaceId := AppState.selectedRaceId this;
                 AppState.selectedBoats := sel;
                 AppState.listeners := AppState.listeners this |} in
  emit "boatSelection"
    (AppState.Ids (AppState.getSelectedBoats this)) (this, w).

End WithHandlers.
End Live.



Module SampleHandlers.




End SampleHandlers.

(** The page with its statistics table emptied. *)
Definition cleared (w : page) : page :=
  {| windowStart := windowStart w; windowEnd := windowEnd w;
     statsTableBody := []; trace := trace w |}.

(** The page after some more effects. *)
Definition after (w : page) (fx : list effect) : page :=
  {| windowStart := windowStart w; windowEnd := windowEnd w;
     statsTableBody := statsTableBody w; trace := (trace w ++ fx)%list |}.

(* ===================================================================== *)
(** ** ui.js: the window pickers *)
(* ===================================================================== *)

Definition set_windowStart (s : string) : M unit :=
  fun w => ({| windowStart := s; windowEnd := windowEnd w;
               statsTableBody := statsTableBody w; trace := trace w |},
            Normal tt).

Definition set_windowEnd (s : string) : M unit :=
  fun w => ({| windowStart := windowStart w; windowEnd := s;
               statsTableBody := statsTableBody w; trace := trace w |},
            Normal tt).

Section Pickers.
Context {host : Host}.

(** [new Date(date.getTime() + ms)] for a valid [date] with time value
    [t]: both are integers below 2^53, the sum is exact. *)
Definition later (t ms : Z) : date := TimeClip (Finite (inject_Z (t + ms))).

(** [input.value = formatDateTimeLocal(date.toISOString())] *)
Definition fill (set : string -> M unit) (d : date) : M unit :=
  iso <- lift (toISOString d) ;;
  set (formatDateTimeLocal (VString iso)).

(** [now] is the time value of [new Date()]. *)
Definition initWindowDefaults (now : Z) : M unit :=
  fill set_windowStart (Some now) ;;
  fill set_windowEnd (later now (10 * 60 * 1000)).

Definition prefillWindow (this : UIController.t) (raceId : value) : M unit :=
  match AppState.getRaceById (UIController.state this) raceId with
  | None => ret tt
  | Some race =>
      let start := new_Date (Race.start_time race) in
      fill set_windowStart start ;;
      match start with
      | Some t => fill set_windowEnd (later t (5 * 60 * 1000))
      | None => throw RangeError  (* not reached: [fill] has thrown *)
      end
  end.

(** The local date and time of the instant [t], to the minute, as the
    pickers hold it. *)
Definition local_minute (t : Z) : string :=
  let l := LocalTime t in
  ToString (num (YearFromTime l)) ++ "-" ++ pad 2 (MonthFromTime l + 1)
    ++ "-" ++ pad 2 (DateFromTime l) ++ "T" ++ pad 2 (HourFromTime l)
    ++ ":" ++ pad 2 (MinFromTime l).

(** [Date.parse] reads the ISO string of [t] back as [t], as ECMA-262
    asks of every host. *)
Definition reads_back (t : Z) : Prop := Date_parse (iso_string t) = Some t.

End Pickers.

(* ===================================================================== *)
(** ** frontend/main.js: [formatDateTimeLocal] *)
(* ===================================================================== *)

Module Main.
Section WithHost.
Context {host : Host}.

(** Without the test of [utils.js] for an invalid date: its getters
    return NaN, [String(NaN)] is longer than two characters and
    [padStart] leaves it as it is. *)
Definition formatDateTimeLocal (value : JS.value) : string :=
  if negb (truthy value) then ""
  else
    match new_Date value with
    | Some tv =>
        let t := LocalTime tv in
        let yyyy := YearFromTime t in
        let mm := pad 2 (MonthFromTime t + 1) in
        let dd := pad 2 (DateFromTime t) in
        let hh := pad 2 (HourFromTime t) in
        let min := pad 2 (MinFromTime t) in
        ToString (num yyyy) ++ "-" ++ mm ++ "-" ++ dd ++ "T" ++ hh ++ ":" ++ min
    | None =>
        let yyyy := VNumber NaN in
        let pad := fun n : JS.value => padStart0 2 (ToString n) in
        ToString yyyy ++ "-" ++ pad (VNumber NaN) ++ "-" ++ pad (VNumber NaN)
          ++ "T" ++ pad (VNumber NaN) ++ ":" ++ pad (VNumber NaN)
    end.

End WithHost.
End Main.

(* ===================================================================== *)
(** ** mapView.js: class MapView *)
(* ===================================================================== *)

(** [array.includes(v)] compares with SameValueZero. *)
Definition includes (l : list value) (v : value) : bool :=
  existsb (same_value_zero v) l.

(** A [Map] whose keys are any values: the entries in insertion order,
    the keys compared with SameValueZero; [set] on a present key replaces
    the value in place, on a new key appends the entry. *)
Module ValueMap.
Section WithValues.
Variable V : Type.

Definition t : Type := list (value * V).

Definition get (m : t) (k : value) : option V :=
  match List.find (fun e => same_value_zero k (fst e)) m with
  | Some e => Some (snd e)
  | None => None
  end.

Fixpoint set (m : t) (k : value) (v : V) : t :=
  match m with
  | [] => [(k, v)]
  | (k', v') :: r =>
      if same_value_zero k k' then (k', v) :: r else (k', v') :: set r k v
  end.

Definition delete (m : t) (k : value) : t :=
  filter (fun e => negb (same_value_zero k (fst e))) m.

Definition keys (m : t) : list value := map fst m.
End WithValues.
End ValueMap.

(** What the map view needs to know of Leaflet: where it throws.
    [L.polyline] throws for a list of coordinates it does not accept,
    before there is a polyline; [addTo] can throw while it draws the
    polyline, after the map has taken it as one of its layers;
    [fitBounds] can throw for the bounds it is given.  [removeLayer] of a
    polyline that [addTo] has added, [getBounds], [extend] and [pad]
    return. *)
Class Leaflet : Type := {
  polyline_error : list (value * value) -> option error;
  addTo_error : list (value * value) -> option error;
  fitBounds_error : list (value * value) -> option error
}.

Module MapView.

(** A polyline is an object: two polylines made by two calls of
    [L.polyline] are two layers, whatever they hold. *)
Record polyline : Type := mkPolyline {
  ident : nat;
  latlngs : list (value * value);
  color : value;
  weight : Z
}.

(** A [LatLngBounds], by the points it was made to contain. *)
Definition bounds : Type := list (value * value).

(** [this.layers]; the polylines that are layers of [this.map], in the
    order the map took them; how many polylines have been made; the
    bounds [fitBounds] was called with, in order. *)
Record t : Type := mk {
  layers : ValueMap.t polyline;
  on_map : list polyline;
  created : nat;
  fits : list bounds
}.

Definition constructor : t :=
  {| layers := []; on_map := []; created := 0; fits := [] |}.

(** [this.map.removeLayer(layer)] *)
Definition removeLayer (this : t) (layer : polyline) : t :=
  {| layers := layers this;
     on_map := filter (fun l => negb (ident l =? ident layer)%nat)
                 (on_map this);
     created := created this; fits := fits this |}.

(** [this.layers.delete(boatId)] *)
Definition delete_layer (this : t) (boatId : value) : t :=
  {| layers := ValueMap.delete (layers this) boatId;
     on_map := on_map this; created := created this; fits := fits this |}.

(** [array.forEach(f)] for an [f] that works on a state and may throw. *)
Fixpoint each {S A : Type} (f : S -> A -> S * completion unit) (s : S)
    (l : list A) : S * completion unit :=
  match l with
  | [] => (s, Normal tt)
  | a :: r =>
      match f s a with
      | (s', Normal _) => each f s' r
      | (s', Throw e) => (s', Throw e)
      end
  end.

Section WithLeaflet.
Context {leaflet : Leaflet}.

(** The body of the loop of [updateTracks]; [bounds] is the local
    variable. *)
Definition draw (boatLookup : value -> option Boat.t)
    (s : t * option bounds) (track : Track.t)
  : (t * option bounds) * completion unit :=
  let (this, bounds) := s in
  let latlngs := map (fun point => (Track.lat point, Track.lon point))
                   (Track.points track) in
  let existing := ValueMap.get (layers this) (Track.boat_id track) in
  let this := match existing with
              | Some layer =>
                  delete_layer (removeLayer this layer) (Track.boat_id track)
              | None => this
              end in
  match latlngs with
  | [] => ((this, bounds), Normal tt)
  | _ :: _ =>
      let color := or_else (match boatLookup (Track.boat_id track) with
                            | Some boat => Boat.label_color boat
                            | None => VUndefined
                            end) (VString "#1f77b4") in
      match polyline_error latlngs with
      | Some e => ((this, bounds), Throw e)
      | None =>
          let polyline := {| ident := created this; latlngs := latlngs;
                             color := color; weight := 3 |} in
          (* [addTo]: the map takes the layer, then draws it *)
          let this :=
            {| layers := layers this;
               on_map := (on_map this ++ [polyline])%list;
               created := S (created this); fits := fits this |} in
          match addTo_error latlngs with
          | Some e => ((this, bounds), Throw e)
          | None =>
              let this :=
                {| layers := ValueMap.set (layers this)
                               (Track.boat_id track) polyline;
                   on_map := on_map this;
                   created := created this; fits := fits this |} in
              let trackBounds := latlngs in
              ((this, Some (match bounds with
                            | Some b => (b ++ trackBounds)%list
                            | None => trackBounds
                            end)), Normal tt)
          end
      end
  end.

Definition updateTracks (this : t) (tracks : list Track.t)
    (boatLookup : value -> option Boat.t) : t * completion unit :=
  match each (draw boatLookup) (this, None) tracks with
  | ((this, Some b), Normal _) =>
      ({| layers := layers this; on_map := on_map this;
          created := created this; fits := (fits this ++ [b])%list |},
       match fitBounds_error b with
       | Some e => Throw e
       | None => Normal tt
       end)
  | ((this, None), Normal _) => (this, Normal tt)
  | ((this, _), Throw e) => (this, Throw e)
  end.

End WithLeaflet.

Definition clearMissing (this : t) (activeBoatIds : list value) : t :=
  fold_left
    (fun this boatId =>
       if negb (includes activeBoatIds boatId) then
         let this := match ValueMap.get (layers this) boatId with
                     | Some layer => removeLayer this layer
                     | None => this
                     end in
         delete_layer this boatId
       else this)
    (ValueMap.keys (layers this)) this.

End MapView.

(** The map views the client can come to have, the calls that threw
    included. *)
Inductive drawn {leaflet : Leaflet} : MapView.t -> Prop :=
| drawn_new : drawn MapView.constructor
| drawn_update mv tracks boatLookup :
    drawn mv -> drawn (fst (MapView.updateTracks mv tracks boatLookup))
| drawn_clear mv activeBoatIds :
    drawn mv -> drawn (MapView.clearMissing mv activeBoatIds).

(** The map views the client has as long as every [updateTracks] has
    returned. *)
Inductive undisturbed {leaflet : Leaflet} : MapView.t -> Prop :=
| undisturbed_new : undisturbed MapView.constructor
| undisturbed_update mv tracks boatLookup :
    undisturbed mv ->
    snd (MapView.updateTracks mv tracks boatLookup) = Normal tt ->
    undisturbed (fst (MapView.updateTracks mv tracks boatLookup))
| undisturbed_clear mv activeBoatIds :
    undisturbed mv -> undisturbed (MapView.clearMissing mv activeBoatIds).

(** The coordinates of the points of a track. *)
Definition coordinates (track : Track.t) : list (value * value) :=
  map (fun point => (Track.lat point, Track.lon point)) (Track.points track).

(** The colour a boat's track is drawn in. *)
Definition track_color (boat : option Boat.t) : value :=
  or_else (match boat with
           | Some b => Boat.label_color b
           | None => VUndefined
           end) (VString "#1f77b4").

Module SampleMap.

(** A Leaflet that takes Numbers for coordinates and nothing else, and
    cannot draw a polyline that has an infinite coordinate. *)
Definition is_finite (v : value) : bool :=
  match v with VNumber (Finite _) => true | _ => false end.

#[export] Instance leaflet : Leaflet := {|
  polyline_error := fun latlngs =>
    if forallb (fun ll => is_number (fst ll) && is_number (snd ll)) latlngs
    then None else Some (Error "Invalid LatLng object");
  addTo_error := fun latlngs =>
    if forallb (fun ll => is_finite (fst ll) && is_finite (snd ll)) latlngs
    then None else Some (Error "Invalid LatLng object: (NaN, NaN)");
  fitBounds_error := fun _ => None
|}.

Definition at_ (lat lon : Q) : Track.point :=
  {| Track.lat := VNumber (Finite lat); Track.lon := VNumber (Finite lon) |}.

(** Boat 7 with two points, boat 3 with none, boat 5 with one. *)
Definition tracks : list Track.t :=
  [ {| Track.boat_id := num 7;
       Track.points := [at_ (601 # 10) (249 # 10); at_ (602 # 10) (25 # 1)] |};
    {| Track.boat_id := num 3; Track.points := [] |};
    {| Track.boat_id := num 5; Track.points := [at_ (60 # 1) (24 # 1)] |} ].

Definition view : MapView.t :=
  fst (MapView.updateTracks MapView.constructor tracks
         (AppState.getBoatById Sample.state)).

(** A later answer in which a point of boat 5 has an infinite latitude. *)
Definition adrift : list Track.t :=
  [ {| Track.boat_id := num 5;
       Track.points :=
         [at_ (60 # 1) (24 # 1);
          {| Track.lat := VNumber (Infinity false);
             Track.lon := VNumber (Finite (24 # 1)) |}] |} ].

End SampleMap.

(** Every polyline of [layers] is a layer of the map; no two entries have
    the same key, no two polylines are the same object. *)
Definition consistent (mv : MapView.t) : Prop :=
  NoDup (map MapView.ident (MapView.on_map mv))
  /\ Forall (fun p => (MapView.ident p < MapView.created mv)%nat)
       (MapView.on_map mv)
  /\ distinct (ValueMap.keys (MapView.layers mv)) = true
  /\ NoDup (map MapView.ident (map snd (MapView.layers mv)))
  /\ incl (map snd (MapView.layers mv)) (MapView.on_map mv).

(** The layers of the map are the polylines of [layers] and no other. *)
Definition tidy (mv : MapView.t) : Prop :=
  MapView.on_map mv = map snd (MapView.layers mv).

(** What both loops do to the layer of the boat [k]: off the map and out
    of [layers], when there is one. *)
Definition forgotten (this : MapView.t) (k : value) : MapView.t :=
  match ValueMap.get (MapView.layers this) k with
  | Some layer => MapView.delete_layer (MapView.removeLayer this layer) k
  | None => this
  end.

(** The polyline made for [track]. *)
Definition polyline_of (this : MapView.t) (boat : option Boat.t)
    (track : Track.t) : MapView.polyline :=
  {| MapView.ident := MapView.created this;
     MapView.latlngs := coordinates track;
     MapView.color := track_color boat;
     MapView.weight := 3 |}.

(** The view after the map has taken the polyline made for [track]. *)
Definition placed (this : MapView.t) (boat : option Boat.t)
    (track : Track.t) : MapView.t :=
  {| MapView.layers := MapView.layers this;
     MapView.on_map :=
       (MapView.on_map this ++ [polyline_of this boat track])%list;
     MapView.created := S (MapView.created this);
     MapView.fits := MapView.fits this |}.

(** The view after the polyline made for [track] is on the map and in
    [layers]. *)
Definition with_track (this : MapView.t) (boat : option Boat.t)
    (track : Track.t) : MapView.t :=
  {| MapView.layers :=
       (MapView.layers this
        ++ [(Track.boat_id track, polyline_of this boat track)])%list;
     MapView.on_map :=
       (MapView.on_map this ++ [polyline_of this boat track])%list;
     MapView.created := S (MapView.created this);
     MapView.fits := MapView.fits this |}.

(** The tracks that have points. *)
Definition has_points (track : Track.t) : bool :=
  match Track.points track with [] => false | _ :: _ => true end.

Unset Implicit Arguments.

(* ===================================================================== *)
(** ** The built-ins on known values *)
(* ===================================================================== *)

(** Ties go to the larger magnitude, a fraction that rounds to zero keeps
    its sign, and a short integer part is padded with one zero. *)
Example toFixed_known :
  Number_toFixed (host := Sample.host) (Finite (5 # 2)) 0 = "3"
  /\ Number_toFixed (host := Sample.host) (Finite (-5 # 2)) 0 = "-3"
  /\ Number_toFixed (host := Sample.host) (Finite (1 # 8)) 2 = "0.13"
  /\ Number_toFixed (host := Sample.host) (Finite (-1 # 1024)) 2 = "-0.00"
  /\ Number_toFixed (host := Sample.host) (Finite 0) 1 = "0.0"
  /\ Number_toFixed (host := Sample.host) (Finite (1234567 # 2)) 1
     = "617283.5"
  /\ Number_toFixed (host := Sample.host) NaN 2 = "NaN"
  /\ toFixed (host := Sample.host) VNull 2 = Throw TypeError
  /\ toFixed (host := Sample.host) (VString "6.25") 2 = Throw TypeError.
Proof. repeat split; reflexivity. Qed.

(** The epoch, a leap day, the last millisecond of a year, a year before
    the common era and the two ends of the range of a Date. *)
Example toISOString_known :
  iso_string 0 = "1970-01-01T00:00:00.000Z"
  /\ iso_string 951782400000 = "2000-02-29T00:00:00.000Z"
  /\ iso_string 1704067199999 = "2023-12-31T23:59:59.999Z"
  /\ iso_string (-1) = "1969-12-31T23:59:59.999Z"
  /\ iso_string (-62198755200000) = "-000001-01-01T00:00:00.000Z"
  /\ iso_string maxTime = "+275760-09-13T00:00:00.000Z"
  /\ iso_string (- maxTime) = "-271821-04-20T00:00:00.000Z"
  /\ toISOString None = Throw RangeError.
Proof. repeat split; reflexivity. Qed.

(** A [Set] lists its elements in the order they were first added. *)
Example set_order_known :
  JSSet.to_array
    (JSSet.add (JSSet.add (JSSet.add (JSSet.add JSSet.empty (num 7)) (num 3))
                  (num 7)) (num 5))
  = [num 7; num 3; num 5]
  /\ JSSet.to_array
       (JSSet.add (JSSet.delete [num 7; num 3; num 5] (num 7)) (num 7))
     = [num 3; num 5; num 7].
Proof. split; reflexivity. Qed.

(** The sample browser reads a picker value as local time, two hours east
    of Greenwich, and shows an instant back in local time. *)
Example local_time_known :
  iso_of (host := Sample.host) "2024-06-01T12:00"
  = Normal "2024-06-01T10:00:00.000Z"
  /\ iso_of (host := Sample.host) "tomorrow" = Throw RangeError
  /\ formatDateTimeLocal (host := Sample.host)
       (VString "2024-06-01T10:00:00.000Z") = "2024-06-01T12:00"
  /\ formatDateTimeLocal (host := Sample.host) (VString "2023-12-31T23:30:00.000Z")
     = "2024-01-01T01:30"
  /\ formatDateTimeLocal (host := Sample.host) VNull = ""
  /\ formatDateTimeLocal (host := Sample.host) (VString "tomorrow") = "".
Proof. repeat split; reflexivity. Qed.

(* ===================================================================== *)
(** ** Strings and digits *)
(* ===================================================================== *)

Section Strings.

Lemma length_append (a b : string) :
  String.length (a ++ b) = (String.length a + String.length b)%nat.
Proof. induction a as [|c a IH]; simpl; [reflexivity | now rewrite IH]. Qed.



Lemma matches_app p1 p2 s1 s2 :
  matches p1 s1 = true -> matches p2 s2 = true ->
  matches (p1 ++ p2) (s1 ++ s2) = true.
Proof.
  revert s1. induction p1 as [|p p1 IH]; intros [|c s1] H1 H2; simpl in *;
    try discriminate; [assumption|].
  apply andb_true_iff in H1 as [Hc H1]. rewrite Hc. simpl. now apply IH.
Qed.













Lemma check_range_sound P count : forall from,
  check_range P from count = true ->
  forall z, from <= z < from + Z.of_nat count -> P z = true.
Proof.
  induction count as [|k IH]; intros from H z Hz; [lia|].
  cbn [check_range] in H. apply andb_true_iff in H as [H0 H1].
  destruct (Z.eq_dec z from) as [->|Hne]; [assumption|].
  apply (IH (from + 1) H1). lia.
Qed.

Lemma check_below P (n : Z) :
  check_range P 0 (Z.to_nat n) = true ->
  forall z, 0 <= z < n -> P z = true.
Proof.
  intros H z Hz. apply (check_range_sound P (Z.to_nat n) 0 H). lia.
Qed.

Lemma pad2_shape z : 0 <= z <= 99 -> matches "dd" (pad 2 z) = true.
Proof.
  intros H.
  apply (check_below (fun z => matches "dd" (pad 2 z)) 100); [|lia].
  vm_compute. reflexivity.
Qed.

Lemma pad3_shape z : 0 <= z <= 999 -> matches "ddd" (pad 3 z) = true.
Proof.
  intros H.
  apply (check_below (fun z => matches "ddd" (pad 3 z)) 1000); [|lia].
  vm_compute. reflexivity.
Qed.

Lemma pad4_shape z : 0 <= z <= 9999 -> matches "dddd" (pad 4 z) = true.
Proof.
  intros H.
  apply (check_below (fun z => matches "dddd" (pad 4 z)) 10000); [|lia].
  vm_compute. reflexivity.
Qed.

Lemma pad6_shape z : 0 <= z <= 275760 -> matches "dddddd" (pad 6 z) = true.
Proof.
  intros H.
  apply (check_below (fun z => matches "dddddd" (pad 6 z)) 275761); [|lia].
  vm_compute. reflexivity.
Qed.


End Strings.

(* ===================================================================== *)
(** ** The calendar *)
(* ===================================================================== *)

Section Calendar.

(** [YearFromTime] is the year ECMA-262 defines. *)
Lemma YearFromTime_spec t :
  DayFromYear (YearFromTime t) <= Day t < DayFromYear (YearFromTime t + 1).
Proof.
  unfold YearFromTime. set (d := Day t). clearbody d.
  set (y := 1970 + 400 * d / 146097).
  assert (Hy : y = 1970 + 400 * d / 146097) by reflexivity. clearbody y.
  unfold DayFromYear.
  match goal with |- context [d <? ?a] => destruct (Z.ltb_spec d a) end.
  - replace (y - 1 + 1) with y by lia. split; [|lia].
    Z.to_euclidean_division_equations; lia.
  - match goal with |- context [?a <=? d] => destruct (Z.leb_spec a d) end.
    + split; [lia|]. Z.to_euclidean_division_equations; lia.
    + lia.
Qed.

Lemma DaysInYear_spec y : DaysInYear y = DayFromYear (y + 1) - DayFromYear y.
Proof.
  unfold DaysInYear, DayFromYear.
  destruct (Z.eqb_spec (y mod 4) 0); cbn [negb];
    [destruct (Z.eqb_spec (y mod 100) 0); cbn [negb];
     [destruct (Z.eqb_spec (y mod 400) 0); cbn [negb]|]|];
    Z.to_euclidean_division_equations; lia.
Qed.

Lemma DayWithinYear_range t :
  0 <= DayWithinYear t < 365 + InLeapYear t /\ 0 <= InLeapYear t <= 1.
Proof.
  unfold DayWithinYear, InLeapYear.
  pose proof (YearFromTime_spec t) as H.
  pose proof (DaysInYear_spec (YearFromTime t)) as D.
  assert (DaysInYear (YearFromTime t) = 365
          \/ DaysInYear (YearFromTime t) = 366) as [E|E].
  { unfold DaysInYear.
    repeat match goal with
           | |- context [if ?b then _ else _] => destruct b
           end; auto. }
  - rewrite E in *. cbn. lia.
  - rewrite E in *. cbn. lia.
Qed.

Lemma MonthFromTime_range t : 0 <= MonthFromTime t <= 11.
Proof.
  unfold MonthFromTime.
  repeat match goal with
         | |- context [if ?b then _ else _] => destruct b
         end; lia.
Qed.

Lemma DateFromTime_range t : 1 <= DateFromTime t <= 31.
Proof.
  pose proof (DayWithinYear_range t) as [H L].
  unfold DateFromTime, MonthFromTime.
  set (d := DayWithinYear t) in *. set (l := InLeapYear t) in *.
  clearbody d l.
  repeat match goal with
         | |- context [if ?a <? ?b then _ else _] =>
             destruct (Z.ltb_spec a b)
         end; lia.
Qed.

Lemma HourFromTime_range t : 0 <= HourFromTime t <= 23.
Proof.
  unfold HourFromTime. pose proof (Z.mod_pos_bound (t / msPerHour) 24). lia.
Qed.

Lemma MinFromTime_range t : 0 <= MinFromTime t <= 59.
Proof.
  unfold MinFromTime. pose proof (Z.mod_pos_bound (t / msPerMinute) 60). lia.
Qed.

Lemma SecFromTime_range t : 0 <= SecFromTime t <= 59.
Proof.
  unfold SecFromTime. pose proof (Z.mod_pos_bound (t / msPerSecond) 60). lia.
Qed.

Lemma msFromTime_range t : 0 <= msFromTime t <= 999.
Proof.
  unfold msFromTime, msPerSecond. pose proof (Z.mod_pos_bound t 1000). lia.
Qed.

Lemma YearFromTime_range t :
  Z.abs t <= maxTime -> -271821 <= YearFromTime t <= 275760.
Proof.
  intros Ht. pose proof (YearFromTime_spec t) as H.
  set (y := YearFromTime t) in *. clearbody y.
  unfold Day, msPerDay, maxTime, DayFromYear in *.
  Z.to_euclidean_division_equations; lia.
Qed.

Lemma iso_year_shape y :
  -271821 <= y <= 275760 ->
  matches "dddd" (iso_year y) = true
  \/ matches "+dddddd" (iso_year y) = true
  \/ matches "-dddddd" (iso_year y) = true.
Proof.
  intros H. unfold iso_year.
  destruct (Z.leb_spec 0 y); cbn [andb].
  - destruct (Z.leb_spec y 9999).
    + left. apply pad4_shape. lia.
    + right. left. destruct (Z.ltb_spec y 0); [lia|].
      apply (matches_app "+" "dddddd"); [reflexivity|].
      apply pad6_shape. lia.
  - right. right. destruct (Z.ltb_spec y 0); [|lia].
    apply (matches_app "-" "dddddd"); [reflexivity|].
    apply pad6_shape. lia.
Qed.

(** What [toISOString] writes is an ISO-8601 instant in UTC. *)
Lemma iso_string_shape t :
  Z.abs t <= maxTime -> is_iso_utc (iso_string t) = true.
Proof.
  intros Ht. unfold is_iso_utc, iso_string.
  pose proof (MonthFromTime_range t). pose proof (DateFromTime_range t).
  pose proof (HourFromTime_range t). pose proof (MinFromTime_range t).
  pose proof (SecFromTime_range t). pose proof (msFromTime_range t).
  assert (R : matches "-dd-ddTdd:dd:dd.dddZ"
                ("-" ++ pad 2 (MonthFromTime t + 1) ++ "-"
                 ++ pad 2 (DateFromTime t) ++ "T" ++ pad 2 (HourFromTime t)
                 ++ ":" ++ pad 2 (MinFromTime t) ++ ":"
                 ++ pad 2 (SecFromTime t) ++ "." ++ pad 3 (msFromTime t)
                 ++ "Z") = true).
  { apply (matches_app "-" "dd-ddTdd:dd:dd.dddZ"); [reflexivity|].
    apply (matches_app "dd" "-ddTdd:dd:dd.dddZ"); [apply pad2_shape; lia|].
    apply (matches_app "-" "ddTdd:dd:dd.dddZ"); [reflexivity|].
    apply (matches_app "dd" "Tdd:dd:dd.dddZ"); [apply pad2_shape; lia|].
    apply (matches_app "T" "dd:dd:dd.dddZ"); [reflexivity|].
    apply (matches_app "dd" ":dd:dd.dddZ"); [apply pad2_shape; lia|].
    apply (matches_app ":" "dd:dd.dddZ"); [reflexivity|].
    apply (matches_app "dd" ":dd.dddZ"); [apply pad2_shape; lia|].
    apply (matches_app ":" "dd.dddZ"); [reflexivity|].
    apply (matches_app "dd" ".dddZ"); [apply pad2_shape; lia|].
    apply (matches_app "." "dddZ"); [reflexivity|].
    apply (matches_app "ddd" "Z"); [apply pad3_shape; lia|reflexivity]. }
  destruct (iso_year_shape _ (YearFromTime_range t Ht)) as [Y|[Y|Y]].
  - pose proof (matches_app "dddd" "-dd-ddTdd:dd:dd.dddZ" _ _ Y R) as E.
    change ("dddd" ++ "-dd-ddTdd:dd:dd.dddZ")
      with "dddd-dd-ddTdd:dd:dd.dddZ" in E.
    rewrite E. reflexivity.
  - pose proof (matches_app "+dddddd" "-dd-ddTdd:dd:dd.dddZ" _ _ Y R) as E.
    change ("+dddddd" ++ "-dd-ddTdd:dd:dd.dddZ")
      with "+dddddd-dd-ddTdd:dd:dd.dddZ" in E.
    rewrite E. now rewrite orb_true_r.
  - pose proof (matches_app "-dddddd" "-dd-ddTdd:dd:dd.dddZ" _ _ Y R) as E.
    change ("-dddddd" ++ "-dd-ddTdd:dd:dd.dddZ")
      with "-dddddd-dd-ddTdd:dd:dd.dddZ" in E.
    rewrite E. now rewrite !orb_true_r.
Qed.

End Calendar.

(* ===================================================================== *)
(** ** toFixed and the cells of a row *)
(* ===================================================================== *)

Section Cells.
Context {host : Host}.








(** A measured WindowStat always yields its row. *)
Lemma cells_measured boat stat :
  measured stat = true -> exists row, cells boat stat = Normal row.
Proof.
  unfold measured, cells. intros H.
  repeat (apply andb_true_iff in H as [H ?]).
  destruct (Stat.avg_sog stat); try discriminate.
  destruct (Stat.avg_vmg stat); try discriminate.
  destruct (Stat.avg_heading stat); try discriminate.
  destruct (Stat.heading_std stat); try discriminate.
  destruct (Stat.distance_sailed stat); try discriminate.
  destruct (Stat.height_gain stat); try discriminate.
  simpl. eauto.
Qed.


End Cells.

(* ===================================================================== *)
(** ** Queries *)
(* ===================================================================== *)

Section Queries.
Context {host : Host}.
Import URLSearchParams.

Lemma append_boats_spec ids : forall search,
  append_boats search ids = (search ++ boats_query ids)%list.
Proof.
  unfold append_boats, boats_query.
  induction ids as [|id ids IH]; intros search; simpl.
  - now rewrite List.app_nil_r.
  - rewrite IH. unfold append. now rewrite <- List.app_assoc.
Qed.

Lemma getAll_app a b name :
  getAll (a ++ b)%list name = (getAll a name ++ getAll b name)%list.
Proof. unfold getAll. now rewrite filter_app, map_app. Qed.

Lemma getAll_boats ids :
  getAll (boats_query ids) "boats" = map ToString ids.
Proof.
  unfold getAll, boats_query. induction ids; simpl; congruence.
Qed.

Lemma getAll_boats_other ids name :
  String.eqb "boats" name = false -> getAll (boats_query ids) name = [].
Proof.
  intros H. unfold getAll, boats_query.
  induction ids; cbn [map filter fst snd]; [reflexivity|]. now rewrite H.
Qed.

Lemma has_app a b name : has (a ++ b)%list name = has a name || has b name.
Proof. unfold has. apply existsb_app. Qed.

Lemma has_boats ids name :
  has (boats_query ids) name
  = match ids with [] => false | _ => String.eqb "boats" name end.
Proof.
  unfold has, boats_query. destruct ids as [|i ids]; [reflexivity|].
  cbn [map existsb fst]. destruct (String.eqb "boats" name) eqn:E;
    [reflexivity|].
  cbn [orb]. induction ids; cbn [map existsb fst]; [reflexivity|].
  now rewrite E.
Qed.

Lemma requests_app a b :
  requests (a ++ b) = (requests a ++ requests b)%list.
Proof.
  induction a as [|[] a IH]; simpl; congruence.
Qed.

Lemma downloads_app a b :
  downloads (a ++ b) = (downloads a ++ downloads b)%list.
Proof.
  induction a as [|[] a IH]; simpl; congruence.
Qed.

Lemma alerts_app a b : alerts (a ++ b) = (alerts a ++ alerts b)%list.
Proof.
  induction a as [|[] a IH]; simpl; congruence.
Qed.

Lemma truthy_nonempty s : s <> "" -> truthy (VString s) = true.
Proof.
  intros H. simpl. destruct (String.eqb_spec s ""); [contradiction|reflexivity].
Qed.

Lemma parseable_iso s t : parseable s t -> iso_of s = Normal (iso_string t).
Proof. intros [_ H]. unfold iso_of. now rewrite H. Qed.

Lemma parseable_valid s t : parseable s t -> Z.abs t <= maxTime.
Proof.
  intros [_ H]. simpl in H. destruct (Date_parse s) as [u|]; [|discriminate].
  destruct (Z.leb_spec (Z.abs u) maxTime); [|discriminate].
  now injection H as <-.
Qed.

Lemma parseable_window w ts te :
  parseable (windowStart w) ts -> parseable (windowEnd w) te ->
  window w = Some (iso_string ts, iso_string te).
Proof.
  intros Hs He. unfold window.
  rewrite (truthy_nonempty _ (proj1 Hs)), (truthy_nonempty _ (proj1 He)).
  now rewrite (parseable_iso _ _ Hs), (parseable_iso _ _ He).
Qed.

End Queries.

(* ===================================================================== *)
(** ** Running the client *)
(* ===================================================================== *)

Section Rendering.
Context {host : Host}.

(** The loop over the response: rows are appended one for one, in order,
    until a WindowStat fails to render. *)
Lemma forEach_rows (lookup : Stat.t -> option Boat.t) stats :
  forall w w' c,
    forEach (fun stat =>
               row <- lift (cells (lookup stat) stat) ;; appendRow row)
            stats w = (w', c) ->
    windowStart w' = windowStart w /\ windowEnd w' = windowEnd w
    /\ trace w' = trace w
    /\ exists rows,
        statsTableBody w' = (statsTableBody w ++ rows)%list
        /\ Forall2 (fun stat row => cells (lookup stat) stat = Normal row)
             (firstn (List.length rows) stats) rows
        /\ (c = Normal tt -> List.length rows = List.length stats)
        /\ (forallb measured stats = true -> c = Normal tt).
Proof.
  induction stats as [|stat stats IH]; intros w w' c E.
  - cbn [forEach] in E. run. done_run. repeat split.
    exists []. rewrite List.app_nil_r. repeat split. constructor.
  - cbn [forEach] in E. run.
    destruct (cells (lookup stat) stat) as [row|e] eqn:Ec.
    + apply IH in E. cbn [trace windowStart windowEnd statsTableBody] in E.
      destruct E as (E1 & E2 & E3 & rows & R1 & R2 & R3 & R4).
      repeat split; try assumption.
      exists (row :: rows). rewrite R1, <- List.app_assoc. repeat split.
      * cbn [List.length firstn]. now constructor.
      * intros Hc. cbn [List.length]. now rewrite (R3 Hc).
      * intros Hm. cbn [forallb] in Hm.
        apply andb_true_iff in Hm as [_ Hm]. now apply R4.
    + done_run. repeat split. exists []. rewrite List.app_nil_r. repeat split.
      * constructor.
      * discriminate.
      * intros Hm. cbn [forallb] in Hm.
        apply andb_true_iff in Hm as [Hm _].
        destruct (cells_measured (lookup stat) stat Hm) as [row Hr].
        congruence.
Qed.

Lemma renderStatsTable_rows this stats w w' c :
  UIController.renderStatsTable this stats w = (w', c) ->
  windowStart w' = windowStart w /\ windowEnd w' = windowEnd w
  /\ trace w' = trace w
  /\ Forall2 (fun stat row =>
                cells (AppState.getBoatById (UIController.state this)
                         (Stat.boat_id stat)) stat = Normal row)
       (firstn (List.length (statsTableBody w')) stats) (statsTableBody w')
  /\ (c = Normal tt -> List.length (statsTableBody w') = List.length stats)
  /\ (forallb measured stats = true -> c = Normal tt).
Proof.
  unfold UIController.renderStatsTable. intros E. run.
  apply (forEach_rows
           (fun stat => AppState.getBoatById (UIController.state this)
                          (Stat.boat_id stat))) in E.
  cbn [trace windowStart windowEnd statsTableBody] in E.
  destruct E as (E1 & E2 & E3 & rows & R1 & R2 & R3 & R4).
  cbn [app] in R1. rewrite R1. repeat split; assumption.
Qed.

End Rendering.

Section UIRuns.
Context {host : Host}.
Import URLSearchParams.

Lemma getWindowRange_run w :
  exists r,
    UIController.getWindowRange w = (w, r)
    /\ match r with
       | Normal (Some p) => window w = Some p
       | _ => window w = None
       end.
Proof.
  unfold UIController.getWindowRange, window. run.
  destruct (truthy (VString (windowStart w)));
    destruct (truthy (VString (windowEnd w))); cbn [negb orb andb];
    try (eexists; split; reflexivity).
  destruct (iso_of (windowStart w)) as [s|x];
    [destruct (iso_of (windowEnd w)) as [e|x]|];
    eexists; split; reflexivity.
Qed.

Lemma getStats_search_window sel s e :
  ApiClient.getStats_search
    {| boats := sel; t0 := VString s; t1 := VString e;
       ref := VString "twd"; legId := VUndefined;
       downsample := VUndefined |}
  = (boats_query sel ++ [("t0", s); ("t1", e); ("ref", "twd")])%list.
Proof.
  unfold ApiClient.getStats_search. cbn [boats t0 t1 ref legId truthy nullish].
  rewrite append_boats_spec. unfold append. cbn [app ToString].
  now rewrite <- !List.app_assoc.
Qed.

Lemma downloadCsv_search_window sel s e :
  ApiClient.downloadCsv_search
    {| boats := sel; t0 := VString s; t1 := VString e;
       ref := VUndefined; legId := VUndefined;
       downsample := VUndefined |}
  = (boats_query sel ++ [("t0", s); ("t1", e)])%list.
Proof.
  unfold ApiClient.downloadCsv_search. cbn [boats t0 t1 ref legId truthy].
  rewrite append_boats_spec. unfold append. cbn [app ToString].
  now rewrite <- !List.app_assoc.
Qed.

(** The one request [refreshStats] makes, if any, and nothing else. *)
Lemma refreshStats_effects this w w' c :
  UIController.refreshStats this w = (w', c) ->
  exists fx,
    trace w' = (trace w ++ fx)%list
    /\ requests fx =
         match AppState.getSelectedBoats (UIController.state this),
               window w with
         | (_ :: _) as sel, Some (s, e) =>
             [(ApiClient.baseUrl (UIController.api this) ++ "/stats",
               (boats_query sel ++ [("t0", s); ("t1", e); ("ref", "twd")])%list)]
         | _, _ => []
         end
    /\ alerts fx = [] /\ downloads fx = [].
Proof.
  unfold UIController.refreshStats. intros E. run.
  destruct (getWindowRange_run w) as (r & Er & Hr). rewrite Er in E.
  destruct r as [[[s e]|]|x]; rewrite Hr.
  - destruct (AppState.getSelectedBoats (UIController.state this))
      as [|b sel] eqn:Es.
    + unfold UIController.clearStatsTable in E. run. done_run.
      exists []. now rewrite List.app_nil_r.
    + unfold ApiClient.getStats, ApiClient.request in E. run.
      rewrite getStats_search_window in E.
      destruct (GET_stats _) as [stats| |].
      * apply renderStatsTable_rows in E.
        cbn [trace windowStart windowEnd statsTableBody] in E.
        destruct E as (_ & _ & -> & _). eexists. split; [reflexivity|].
        repeat split.
      * done_run. eexists. split; [reflexivity|]. repeat split.
      * done_run. eexists. split; [reflexivity|]. repeat split.
  - exists []. rewrite List.app_nil_r.
    destruct (AppState.getSelectedBoats (UIController.state this));
      unfold UIController.clearStatsTable in E; run; done_run;
      repeat split.
  - done_run. exists []. rewrite List.app_nil_r.
    destruct (AppState.getSelectedBoats (UIController.state this));
      repeat split.
Qed.

(** A query answered with measured WindowStats fills the table, one row
    for one WindowStat, and completes. *)
Lemma refreshStats_success this w b sel s e stats :
  AppState.getSelectedBoats (UIController.state this) = b :: sel ->
  window w = Some (s, e) ->
  GET_stats (boats_query (b :: sel)
               ++ [("t0", s); ("t1", e); ("ref", "twd")])%list
    = HttpOk stats ->
  forallb measured stats = true ->
  exists w',
    UIController.refreshStats this w = (w', Normal tt)
    /\ trace w' =
         (trace w
          ++ [Fetch (ApiClient.baseUrl (UIController.api this) ++ "/stats")
                (boats_query (b :: sel)
                 ++ [("t0", s); ("t1", e); ("ref", "twd")])])%list
    /\ Forall2 (fun stat row =>
                  cells (AppState.getBoatById (UIController.state this)
                           (Stat.boat_id stat)) stat = Normal row)
         stats (statsTableBody w').
Proof.
  intros Es Hw Hq Hm. unfold UIController.refreshStats. run.
  destruct (getWindowRange_run w) as (r & Er & Hr). rewrite Er.
  destruct r as [[[s' e']|]|x]; try congruence.
  assert (s' = s /\ e' = e) as [-> ->] by (split; congruence).
  rewrite Es. unfold ApiClient.getStats, ApiClient.request. run.
  rewrite getStats_search_window, Hq.
  match goal with
  | |- exists w', ?run = _ /\ _ => destruct run as [w' c] eqn:E
  end.
  apply renderStatsTable_rows in E.
  cbn [trace windowStart windowEnd statsTableBody] in E.
  destruct E as (_ & _ & Et & R & Rl & Rc).
  specialize (Rc Hm). subst c. specialize (Rl eq_refl).
  rewrite Rl, firstn_all in R.
  exists w'. repeat split; assumption.
Qed.

(** The rows [refreshStats] leaves when the server has answered. *)
Lemma refreshStats_response this w w' c b sel s e stats :
  AppState.getSelectedBoats (UIController.state this) = b :: sel ->
  window w = Some (s, e) ->
  GET_stats (boats_query (b :: sel)
               ++ [("t0", s); ("t1", e); ("ref", "twd")])%list
    = HttpOk stats ->
  UIController.refreshStats this w = (w', c) ->
  Forall2 (fun stat row =>
             cells (AppState.getBoatById (UIController.state this)
                      (Stat.boat_id stat)) stat = Normal row)
    (firstn (List.length (statsTableBody w')) stats) (statsTableBody w')
  /\ (c = Normal tt -> List.length (statsTableBody w') = List.length stats).
Proof.
  intros Es Hw Hq. unfold UIController.refreshStats. run.
  destruct (getWindowRange_run w) as (r & Er & Hr). rewrite Er.
  destruct r as [[[s' e']|]|x]; try congruence.
  assert (s' = s /\ e' = e) as [-> ->] by (split; congruence).
  rewrite Es. unfold ApiClient.getStats, ApiClient.request. run.
  rewrite getStats_search_window, Hq. intros E.
  apply renderStatsTable_rows in E.
  cbn [trace windowStart windowEnd statsTableBody] in E.
  destruct E as (_ & _ & _ & R & Rl & _). split; assumption.
Qed.

(** [downloadCsv]: the request, the file saved and the alerts. *)
Lemma downloadCsv_effects this w w' c :
  UIController.downloadCsv this w = (w', c) ->
  exists fx,
    trace w' = (trace w ++ fx)%list
    /\ match AppState.getSelectedBoats (UIController.state this),
             window w with
       | (_ :: _) as sel, Some (s, e) =>
           let q := (boats_query sel ++ [("t0", s); ("t1", e)])%list in
           requests fx =
             [(ApiClient.baseUrl (UIController.api this) ++ "/export/csv", q)]
           /\ downloads fx =
                match GET_export_csv q with
                | HttpOk content => [("window_stats.csv", content)]
                | _ => []
                end
       | _, _ => requests fx = [] /\ downloads fx = []
       end.
Proof.
  unfold UIController.downloadCsv. intros E. run.
  destruct (getWindowRange_run w) as (r & Er & Hr). rewrite Er in E.
  destruct r as [[[s e]|]|x]; rewrite Hr.
  - destruct (AppState.getSelectedBoats (UIController.state this))
      as [|b sel] eqn:Es.
    + done_run. eexists. split; [reflexivity|]. split; reflexivity.
    + unfold ApiClient.downloadCsv in E. run.
      rewrite downloadCsv_search_window in E. cbv zeta.
      destruct (GET_export_csv _) as [content| |];
        done_run; rewrite <- ?List.app_assoc; eexists;
        (split; [reflexivity|]); split; reflexivity.
  - destruct (AppState.getSelectedBoats (UIController.state this));
      done_run; eexists; (split; [reflexivity|]); split; reflexivity.
  - done_run. exists []. rewrite List.app_nil_r. split; [reflexivity|].
    destruct (AppState.getSelectedBoats (UIController.state this));
      split; reflexivity.
Qed.

Lemma truthy_iso_string t : truthy (VString (iso_string t)) = true.
Proof.
  apply truthy_nonempty. intros E. apply (f_equal String.length) in E.
  unfold iso_string in E. rewrite length_append in E. simpl in E. lia.
Qed.

(** With both pickers parseable, [refreshTracks] asks for that window. *)
Lemma refreshTracks_requests this w w' c ts te :
  parseable (windowStart w) ts -> parseable (windowEnd w) te ->
  UIController.refreshTracks this w = (w', c) ->
  exists fx,
    trace w' = (trace w ++ fx)%list
    /\ requests fx =
         match AppState.getSelectedBoats (UIController.state this) with
         | [] => []
         | sel =>
             [(ApiClient.baseUrl (UIController.api this) ++ "/tracks",
               (boats_query sel
                ++ [("t0", iso_string ts); ("t1", iso_string te)])%list)]
         end.
Proof.
  intros Hs He. unfold UIController.refreshTracks. intros E.
  destruct (AppState.getSelectedBoats (UIController.state this))
    as [|b sel] eqn:Es.
  - run. done_run. exists []. now rewrite List.app_nil_r.
  - run. destruct (getWindowRange_run w) as (r & Er & Hr). rewrite Er in E.
    rewrite (parseable_window _ _ _ Hs He) in Hr.
    destruct r as [[[s e]|]|x]; try discriminate.
    injection Hr as <- <-.
    unfold ApiClient.getTracks, ApiClient.request,
      ApiClient.getTracks_search in E.
    cbn [UIController.startIso UIController.endIso boats t0 t1 downsample]
      in E.
    rewrite !truthy_iso_string in E.
    cbn [truthy] in E. rewrite append_boats_spec in E. unfold append in E.
    cbn [app ToString] in E. rewrite <- !List.app_assoc in E.
    cbn [app] in E. run.
    destruct (GET_tracks _) as [tracks| |]; done_run;
      rewrite <- ?List.app_assoc; eexists; (split; [reflexivity|]);
      reflexivity.
Qed.

End UIRuns.

Section LegacyRuns.
Context {host : Host}.
Import URLSearchParams.

Lemma size_zero (sel : JSSet.t) :
  (JSSet.size sel =? 0)%nat = match sel with [] => true | _ => false end.
Proof. destruct sel; reflexivity. Qed.

Lemma window_cases w :
  (truthy (VString (windowStart w)) && truthy (VString (windowEnd w)) = false
   /\ window w = None)
  \/ (truthy (VString (windowStart w)) = true
      /\ truthy (VString (windowEnd w)) = true
      /\ ((exists x, iso_of (windowStart w) = Throw x /\ window w = None)
          \/ (exists s x, iso_of (windowStart w) = Normal s
                          /\ iso_of (windowEnd w) = Throw x
                          /\ window w = None)
          \/ (exists s e, iso_of (windowStart w) = Normal s
                          /\ iso_of (windowEnd w) = Normal e
                          /\ window w = Some (s, e)))).
Proof.
  unfold window.
  destruct (truthy (VString (windowStart w)));
    destruct (truthy (VString (windowEnd w))); cbn [andb]; auto.
  right. repeat split.
  destruct (iso_of (windowStart w)) as [s|x]; [|left; eauto].
  destruct (iso_of (windowEnd w)) as [e|x]; right; [right|left]; eauto.
Qed.

(** The earlier client's [refreshStats]: its request and its rows. *)
Lemma legacy_refreshStats_effects this w w' c :
  Legacy.refreshStats this w = (w', c) ->
  exists fx,
    trace w' = (trace w ++ fx)%list
    /\ requests fx =
         match Legacy.selectedBoats this, window w with
         | (_ :: _) as sel, Some (s, e) =>
             [(Legacy.API_BASE this ++ "/stats",
               (boats_query sel ++ [("t0", s); ("t1", e); ("ref", "twd")])%list)]
         | _, _ => []
         end
    /\ (statsTableBody w' = statsTableBody w
        \/ exists stats,
             Forall2 (fun stat row =>
                        cells (List.find
                                 (fun b => strict_equals (Boat.id b)
                                             (Stat.boat_id stat))
                                 (Legacy.boats this)) stat = Normal row)
               (firstn (List.length (statsTableBody w')) stats)
               (statsTableBody w')).
Proof.
  unfold Legacy.refreshStats, Legacy.boats_params. intros E.
  rewrite size_zero in E. unfold JSSet.to_array in E.
  destruct (Legacy.selectedBoats this) as [|b sel] eqn:Es.
  { run. done_run. exists []. rewrite List.app_nil_r.
    repeat split. now left. }
  run. rewrite <- negb_andb in E.
  destruct (window_cases w)
    as [[T Hw]|(T1 & T2 & [(x & I1 & Hw)|[(s & x & I1 & I2 & Hw)
                                         |(s & e & I1 & I2 & Hw)]])];
    rewrite Hw.
  - rewrite T in E. cbn [negb] in E. done_run.
    exists []. rewrite List.app_nil_r. repeat split. now left.
  - rewrite T1, T2 in E. cbn [negb andb] in E. rewrite I1 in E.
    done_run. exists []. rewrite List.app_nil_r. repeat split. now left.
  - rewrite T1, T2 in E. cbn [negb andb] in E. rewrite I1, I2 in E.
    done_run. exists []. rewrite List.app_nil_r. repeat split. now left.
  - rewrite T1, T2 in E. cbn [negb andb] in E. rewrite I1, I2 in E.
    unfold Legacy.fetchJSON in E. run.
    rewrite append_boats_spec in E. unfold append in E.
    cbn [app ToString] in E. rewrite <- !List.app_assoc in E.
    cbn [app] in E.
    destruct (GET_stats _) as [stats| |].
    + apply (forEach_rows
               (fun stat => List.find
                              (fun b => strict_equals (Boat.id b)
                                          (Stat.boat_id stat))
                              (Legacy.boats this))) in E.
      cbn [trace windowStart windowEnd statsTableBody] in E.
      destruct E as (_ & _ & Et & rows & R1 & R2 & _).
      cbn [app] in R1. rewrite Et, R1.
      eexists. split; [reflexivity|]. split; [reflexivity|].
      right. exists stats. assumption.
    + done_run. eexists. split; [reflexivity|]. split; [reflexivity|].
      now left.
    + done_run. eexists. split; [reflexivity|]. split; [reflexivity|].
      now left.
Qed.

(** The rows the earlier [refreshStats] leaves are those of the response
    it was given, and the table is as it was when there was none. *)
Lemma legacy_refreshStats_response this w w' c :
  Legacy.refreshStats this w = (w', c) ->
  match Legacy.selectedBoats this, window w with
  | (_ :: _) as sel, Some (s, e) =>
      match GET_stats (boats_query sel
                       ++ [("t0", s); ("t1", e); ("ref", "twd")])%list with
      | HttpOk stats =>
          Forall2 (fun stat row =>
                     cells (List.find
                              (fun b => strict_equals (Boat.id b)
                                          (Stat.boat_id stat))
                              (Legacy.boats this)) stat = Normal row)
            (firstn (List.length (statsTableBody w')) stats)
            (statsTableBody w')
          /\ (c = Normal tt ->
              List.length (statsTableBody w') = List.length stats)
      | _ => statsTableBody w' = statsTableBody w
      end
  | _, _ => statsTableBody w' = statsTableBody w
  end.
Proof.
  unfold Legacy.refreshStats, Legacy.boats_params. intros E.
  rewrite size_zero in E. unfold JSSet.to_array in E.
  destruct (Legacy.selectedBoats this) as [|b sel] eqn:Es.
  { run. now done_run. }
  run. rewrite <- negb_andb in E.
  destruct (window_cases w)
    as [[T Hw]|(T1 & T2 & [(x & I1 & Hw)|[(s & x & I1 & I2 & Hw)
                                         |(s & e & I1 & I2 & Hw)]])];
    rewrite Hw.
  - rewrite T in E. cbn [negb] in E. now done_run.
  - rewrite T1, T2 in E. cbn [negb andb] in E. rewrite I1 in E.
    now done_run.
  - rewrite T1, T2 in E. cbn [negb andb] in E. rewrite I1, I2 in E.
    now done_run.
  - rewrite T1, T2 in E. cbn [negb andb] in E. rewrite I1, I2 in E.
    unfold Legacy.fetchJSON in E. run.
    rewrite append_boats_spec in E. unfold append in E.
    cbn [app ToString] in E. rewrite <- !List.app_assoc in E.
    cbn [app] in E.
    destruct (GET_stats _) as [stats| |].
    + apply (forEach_rows
               (fun stat => List.find
                              (fun b => strict_equals (Boat.id b)
                                          (Stat.boat_id stat))
                              (Legacy.boats this))) in E.
      cbn [trace windowStart windowEnd statsTableBody] in E.
      destruct E as (_ & _ & _ & rows & R1 & R2 & R3 & _).
      cbn [app] in R1. rewrite R1. split; assumption.
    + now done_run.
    + now done_run.
Qed.

(** The earlier client's [downloadCSV]. *)
Lemma legacy_downloadCSV_effects this w w' c :
  Legacy.downloadCSV this w = (w', c) ->
  exists fx,
    trace w' = (trace w ++ fx)%list
    /\ match Legacy.selectedBoats this, window w with
       | (_ :: _) as sel, Some (s, e) =>
           let q := (boats_query sel ++ [("t0", s); ("t1", e)])%list in
           requests fx = [(Legacy.API_BASE this ++ "/export/csv", q)]
           /\ downloads fx =
                match GET_export_csv q with
                | HttpOk content => [("window_stats.csv", content)]
                | _ => []
                end
       | _, _ => requests fx = [] /\ downloads fx = []
       end.
Proof.
  unfold Legacy.downloadCSV, Legacy.boats_params. intros E.
  rewrite size_zero in E. unfold JSSet.to_array in E.
  destruct (Legacy.selectedBoats this) as [|b sel] eqn:Es.
  { run. done_run. exists []. rewrite List.app_nil_r. repeat split. }
  run. rewrite <- negb_andb in E.
  destruct (window_cases w)
    as [[T Hw]|(T1 & T2 & [(x & I1 & Hw)|[(s & x & I1 & I2 & Hw)
                                         |(s & e & I1 & I2 & Hw)]])];
    rewrite Hw.
  - rewrite T in E. cbn [negb] in E. done_run.
    exists []. rewrite List.app_nil_r. repeat split.
  - rewrite T1, T2 in E. cbn [negb andb] in E. rewrite I1 in E.
    done_run. exists []. rewrite List.app_nil_r. repeat split.
  - rewrite T1, T2 in E. cbn [negb andb] in E. rewrite I1, I2 in E.
    done_run. exists []. rewrite List.app_nil_r. repeat split.
  - rewrite T1, T2 in E. cbn [negb andb] in E. rewrite I1, I2 in E.
    rewrite append_boats_spec in E. unfold append in E.
    cbn [app ToString] in E. rewrite <- !List.app_assoc in E.
    cbn [app] in E. cbv zeta.
    destruct (GET_export_csv _) as [content| |];
      done_run; rewrite <- ?List.app_assoc; eexists;
      (split; [reflexivity|]); split; reflexivity.
Qed.

(** With both pickers parseable, the earlier [refreshTracks] asks for
    that window. *)
Lemma legacy_refreshTracks_requests this w w' c ts te :
  parseable (windowStart w) ts -> parseable (windowEnd w) te ->
  Legacy.refreshTracks this w = (w', c) ->
  exists fx,
    trace w' = (trace w ++ fx)%list
    /\ requests fx =
         match Legacy.selectedBoats this with
         | [] => []
         | sel =>
             [(Legacy.API_BASE this ++ "/tracks",
               (boats_query sel
                ++ [("t0", iso_string ts); ("t1", iso_string te)])%list)]
         end.
Proof.
  intros Hs He. unfold Legacy.refreshTracks, Legacy.boats_params. intros E.
  rewrite size_zero in E. unfold JSSet.to_array in E.
  destruct (Legacy.selectedBoats this) as [|b sel] eqn:Es.
  { run. done_run. exists []. now rewrite List.app_nil_r. }
  run.
  rewrite (truthy_nonempty _ (proj1 Hs)), (truthy_nonempty _ (proj1 He)) in E.
  rewrite (parseable_iso _ _ Hs), (parseable_iso _ _ He) in E.
  unfold Legacy.fetchJSON in E. run.
  rewrite append_boats_spec in E. unfold append in E.
  cbn [app ToString] in E. rewrite <- !List.app_assoc in E.
  cbn [app] in E.
  destruct (GET_tracks _) as [tracks| |]; done_run;
    rewrite <- ?List.app_assoc; eexists; (split; [reflexivity|]);
    reflexivity.
Qed.

End LegacyRuns.

(* ===================================================================== *)
(** ** The statistics table *)
(* ===================================================================== *)

Section Lists.
Context {A B : Type}.


Lemma nth_error_firstn_Some (l : list A) : forall n i x,
  nth_error (firstn n l) i = Some x -> nth_error l i = Some x.
Proof.
  induction l as [|a l IH]; intros [|n] [|i] x H; simpl in *;
    try discriminate; eauto.
Qed.

Lemma Forall2_each (R : A -> B -> Prop) l rows :
  Forall2 R l rows -> Forall (fun row => exists x, In x l /\ R x row) rows.
Proof.
  induction 1 as [|x row l rows HR _ IH]; constructor.
  - exists x. split; [now left | assumption].
  - eapply Forall_impl; [|exact IH].
    intros r (y & Hy & Hr). exists y. split; [now right | assumption].
Qed.

Lemma Forall2_nth_error (R : A -> B -> Prop) l rows :
  Forall2 R l rows ->
  forall i row, nth_error rows i = Some row ->
                exists x, nth_error l i = Some x /\ R x row.
Proof.
  induction 1 as [|x r l rows HR _ IH]; intros [|i] row H; simpl in *;
    try discriminate.
  - injection H as <-. eauto.
  - eauto.
Qed.
End Lists.

Section Table.
Context {host : Host}.


Lemma legacy_refreshStats_each this w w' c :
  Legacy.refreshStats this w = (w', c) ->
  statsTableBody w' = statsTableBody w
  \/ Forall (fun row =>
               exists stat,
                 cells (List.find
                          (fun b => strict_equals (Boat.id b)
                                      (Stat.boat_id stat))
                          (Legacy.boats this)) stat = Normal row)
            (statsTableBody w').
Proof.
  intros E.
  apply legacy_refreshStats_effects in E as (fx & _ & _ & [U|(stats & R)]);
    [now left | right].
  apply Forall2_each in R. eapply Forall_impl; [|exact R].
  intros row (stat & _ & Hc). now exists stat.
Qed.


End Table.





(* ===================================================================== *)
(** ** The CSV export and the window of a request *)
(* ===================================================================== *)

Section CsvExport.
Context {host : Host}.
Import URLSearchParams.

Lemma window_query_names sel s e :
  sel <> [] ->
  carries ["boats"; "t0"; "t1"]
    (boats_query sel ++ [("t0", s); ("t1", e)])%list = true
  /\ has (boats_query sel ++ [("t0", s); ("t1", e)])%list "ref" = false.
Proof.
  intros Hsel. unfold carries. cbn [forallb].
  rewrite !has_app, !has_boats.
  destruct sel; [contradiction|]. split; reflexivity.
Qed.

Lemma window_query_iso sel ts te extra :
  Z.abs ts <= maxTime -> Z.abs te <= maxTime ->
  getAll extra "t0" = [] -> getAll extra "t1" = [] ->
  iso_window ts te
    (boats_query sel
     ++ [("t0", iso_string ts); ("t1", iso_string te)] ++ extra)%list.
Proof.
  intros Hs He X0 X1. unfold iso_window.
  rewrite !getAll_app, !getAll_boats_other, X0, X1 by reflexivity.
  repeat split; auto using iso_string_shape.
Qed.

End CsvExport.

(** C3 as stated fails: with boats 7, 3 and 5 selected and both pickers
    set, the request of [UIController.downloadCsv] has no [ref]. *)
Lemma csv_request_lacks_ref :
  AppState.getSelectedBoats Sample.state <> []
  /\ parseable (host := Sample.host) (windowStart Sample.page0) 1717236000000
  /\ parseable (host := Sample.host) (windowEnd Sample.page0) 1717236300000
  /\ ~ Forall (fun r => carries ["boats"; "t0"; "t1"; "ref"] (snd r) = true)
         (requests
            (trace (fst (UIController.downloadCsv (host := Sample.host)
                           Sample.ui Sample.page0)))).
Proof.
  split; [discriminate|].
  split; [split; [discriminate | reflexivity]|].
  split; [split; [discriminate | reflexivity]|].
  intros H. inversion H as [|r l Hr _ E]. vm_compute in Hr. discriminate Hr.
Qed.

(** C3, amended.  Every CSV-export request of either client carries the
    three parameters boats, t0 and t1, and no ref; and for a non-empty
    selection and parseable pickers exactly one such request is made. *)
Theorem csv_request_parameters {host : Host} :
  (forall this w w' c,
     UIController.downloadCsv this w = (w', c) ->
     exists fx,
       trace w' = (trace w ++ fx)%list
       /\ Forall (fun r => carries ["boats"; "t0"; "t1"] (snd r) = true
                           /\ URLSearchParams.has (snd r) "ref" = false)
            (requests fx)
       /\ (forall ts te,
             AppState.getSelectedBoats (UIController.state this) <> [] ->
             parseable (windowStart w) ts -> parseable (windowEnd w) te ->
             exists r, requests fx = [r]))
  /\ (forall this w w' c,
        Legacy.downloadCSV this w = (w', c) ->
        exists fx,
          trace w' = (trace w ++ fx)%list
          /\ Forall (fun r => carries ["boats"; "t0"; "t1"] (snd r) = true
                              /\ URLSearchParams.has (snd r) "ref" = false)
               (requests fx)
          /\ (forall ts te,
                Legacy.selectedBoats this <> [] ->
                parseable (windowStart w) ts -> parseable (windowEnd w) te ->
                exists r, requests fx = [r])).
Proof.
  split; intros this w w' c E.
  - apply downloadCsv_effects in E as (fx & Et & H). exists fx.
    split; [assumption|].
    destruct (AppState.getSelectedBoats (UIController.state this))
      as [|b sel] eqn:Es.
    + destruct H as [-> _]. split; [constructor|]. intros ts te N. congruence.
    + destruct (window w) as [[s e]|] eqn:Ew.
      * destruct H as [-> _]. split.
        -- constructor; [|constructor]. apply window_query_names. discriminate.
        -- intros ts te _ _ _. eauto.
      * destruct H as [-> _]. split; [constructor|].
        intros ts te _ Hs He.
        rewrite (parseable_window _ _ _ Hs He) in Ew. discriminate.
  - apply legacy_downloadCSV_effects in E as (fx & Et & H). exists fx.
    split; [assumption|].
    destruct (Legacy.selectedBoats this) as [|b sel] eqn:Es.
    + destruct H as [-> _]. split; [constructor|]. intros ts te N. congruence.
    + destruct (window w) as [[s e]|] eqn:Ew.
      * destruct H as [-> _]. split.
        -- constructor; [|constructor]. apply window_query_names. discriminate.
        -- intros ts te _ _ _. eauto.
      * destruct H as [-> _]. split; [constructor|].
        intros ts te _ Hs He.
        rewrite (parseable_window _ _ _ Hs He) in Ew. discriminate.
Qed.

Lemma csv_request_parameters_witness :
  exists fx,
    trace (fst (UIController.downloadCsv (host := Sample.host)
                  Sample.ui Sample.page0))
    = (trace Sample.page0 ++ fx)%list
    /\ Forall (fun r => carries ["boats"; "t0"; "t1"] (snd r) = true
                        /\ URLSearchParams.has (snd r) "ref" = false)
         (requests fx)
    /\ (forall ts te,
          AppState.getSelectedBoats Sample.state <> [] ->
          parseable (host := Sample.host) (windowStart Sample.page0) ts ->
          parseable (host := Sample.host) (windowEnd Sample.page0) te ->
          exists r, requests fx = [r]).
Proof.
  exact (proj1 (csv_request_parameters (host := Sample.host))
           Sample.ui Sample.page0 _ _ eq_refl).
Defined.

(** C4.  Whatever either client saves on a CSV export, it saves under the
    name [window_stats.csv]; and when the selection is not empty, the
    window is set and the server answers, the file is saved. *)
Theorem csv_download_filename {host : Host} :
  (forall this w w' c,
     UIController.downloadCsv this w = (w', c) ->
     exists fx,
       trace w' = (trace w ++ fx)%list
       /\ Forall (fun d => fst d = "window_stats.csv") (downloads fx)
       /\ (forall s e content,
             AppState.getSelectedBoats (UIController.state this) <> [] ->
             window w = Some (s, e) ->
             GET_export_csv
               (boats_query (AppState.getSelectedBoats (UIController.state this))
                ++ [("t0", s); ("t1", e)])%list = HttpOk content ->
             downloads fx = [("window_stats.csv", content)]))
  /\ (forall this w w' c,
        Legacy.downloadCSV this w = (w', c) ->
        exists fx,
          trace w' = (trace w ++ fx)%list
          /\ Forall (fun d => fst d = "window_stats.csv") (downloads fx)
          /\ (forall s e content,
                Legacy.selectedBoats this <> [] ->
                window w = Some (s, e) ->
                GET_export_csv
                  (boats_query (Legacy.selectedBoats this)
                   ++ [("t0", s); ("t1", e)])%list = HttpOk content ->
                downloads fx = [("window_stats.csv", content)])).
Proof.
  split; intros this w w' c E.
  - apply downloadCsv_effects in E as (fx & Et & H). exists fx.
    split; [assumption|].
    destruct (AppState.getSelectedBoats (UIController.state this))
      as [|b sel] eqn:Es.
    + destruct H as [_ ->]. split; [constructor|]. intros s e k N. congruence.
    + destruct (window w) as [[s e]|] eqn:Ew.
      * cbv zeta in H. destruct H as [_ ->]. split.
        -- destruct (GET_export_csv _); repeat constructor.
        -- intros s' e' k _ [= <- <-] ->. reflexivity.
      * destruct H as [_ ->]. split; [constructor|]. discriminate.
  - apply legacy_downloadCSV_effects in E as (fx & Et & H). exists fx.
    split; [assumption|].
    destruct (Legacy.selectedBoats this) as [|b sel] eqn:Es.
    + destruct H as [_ ->]. split; [constructor|]. intros s e k N. congruence.
    + destruct (window w) as [[s e]|] eqn:Ew.
      * cbv zeta in H. destruct H as [_ ->]. split.
        -- destruct (GET_export_csv _); repeat constructor.
        -- intros s' e' k _ [= <- <-] ->. reflexivity.
      * destruct H as [_ ->]. split; [constructor|]. discriminate.
Qed.

Lemma csv_download_filename_witness :
  exists fx,
    trace (fst (UIController.downloadCsv (host := Sample.host)
                  Sample.ui Sample.page0))
    = (trace Sample.page0 ++ fx)%list
    /\ Forall (fun d => fst d = "window_stats.csv") (downloads fx)
    /\ (forall s e content,
          AppState.getSelectedBoats Sample.state <> [] ->
          window (host := Sample.host) Sample.page0 = Some (s, e) ->
          GET_export_csv (Host := Sample.host)
            (boats_query (host := Sample.host)
               (AppState.getSelectedBoats Sample.state)
             ++ [("t0", s); ("t1", e)])%list = HttpOk content ->
          downloads fx = [("window_stats.csv", content)]).
Proof.
  exact (proj1 (csv_download_filename (host := Sample.host))
           Sample.ui Sample.page0 _ _ eq_refl).
Defined.

(** C5.  With parseable window pickers, every stats, tracks and CSV-export
    request of either client has exactly one [t0] and one [t1], the
    [toISOString] renderings of the two picker values, and these are
    ISO-8601 instants in UTC ([YYYY-MM-DDTHH:mm:ss.sssZ], or with a signed
    six-digit year); with a non-empty selection the request is made. *)
Theorem window_parameters_iso_utc {host : Host} :
  forall w ts te,
    parseable (windowStart w) ts -> parseable (windowEnd w) te ->
    (forall this w' c,
       UIController.refreshStats this w = (w', c)
       \/ UIController.refreshTracks this w = (w', c)
       \/ UIController.downloadCsv this w = (w', c) ->
       exists fx,
         trace w' = (trace w ++ fx)%list
         /\ Forall (fun r => iso_window ts te (snd r)) (requests fx)
         /\ (AppState.getSelectedBoats (UIController.state this) <> [] ->
             requests fx <> []))
    /\ (forall this w' c,
          Legacy.refreshStats this w = (w', c)
          \/ Legacy.refreshTracks this w = (w', c)
          \/ Legacy.downloadCSV this w = (w', c) ->
          exists fx,
            trace w' = (trace w ++ fx)%list
            /\ Forall (fun r => iso_window ts te (snd r)) (requests fx)
            /\ (Legacy.selectedBoats this <> [] -> requests fx <> [])).
Proof.
  intros w ts te Hs He.
  pose proof (parseable_window _ _ _ Hs He) as Hw.
  pose proof (parseable_valid _ _ Hs) as Vs.
  pose proof (parseable_valid _ _ He) as Ve.
  assert (Q0 : forall sel,
            iso_window ts te
              (boats_query sel
               ++ [("t0", iso_string ts); ("t1", iso_string te)])%list).
  { intros sel.
    apply (window_query_iso sel ts te [] Vs Ve); reflexivity. }
  assert (Q1 : forall sel,
            iso_window ts te
              (boats_query sel
               ++ [("t0", iso_string ts); ("t1", iso_string te);
                   ("ref", "twd")])%list).
  { intros sel.
    apply (window_query_iso sel ts te [("ref", "twd")] Vs Ve); reflexivity. }
  split; intros this w' c [E|[E|E]].
  - apply refreshStats_effects in E as (fx & Et & Er & _). exists fx.
    split; [assumption|]. rewrite Er, Hw.
    destruct (AppState.getSelectedBoats (UIController.state this)).
    + split; [constructor | congruence].
    + split; [constructor; [apply Q1 | constructor] | discriminate].
  - apply (refreshTracks_requests _ _ _ _ _ _ Hs He) in E as (fx & Et & Er).
    exists fx. split; [assumption|]. rewrite Er.
    destruct (AppState.getSelectedBoats (UIController.state this)).
    + split; [constructor | congruence].
    + split; [constructor; [apply Q0 | constructor] | discriminate].
  - apply downloadCsv_effects in E as (fx & Et & H). exists fx.
    split; [assumption|]. rewrite Hw in H.
    destruct (AppState.getSelectedBoats (UIController.state this)).
    + destruct H as [-> _]. split; [constructor | congruence].
    + destruct H as [-> _].
      split; [constructor; [apply Q0 | constructor] | discriminate].
  - apply legacy_refreshStats_effects in E as (fx & Et & Er & _). exists fx.
    split; [assumption|]. rewrite Er, Hw.
    destruct (Legacy.selectedBoats this).
    + split; [constructor | congruence].
    + split; [constructor; [apply Q1 | constructor] | discriminate].
  - apply (legacy_refreshTracks_requests _ _ _ _ _ _ Hs He) in E
      as (fx & Et & Er).
    exists fx. split; [assumption|]. rewrite Er.
    destruct (Legacy.selectedBoats this).
    + split; [constructor | congruence].
    + split; [constructor; [apply Q0 | constructor] | discriminate].
  - apply legacy_downloadCSV_effects in E as (fx & Et & H). exists fx.
    split; [assumption|]. rewrite Hw in H.
    destruct (Legacy.selectedBoats this).
    + destruct H as [-> _]. split; [constructor | congruence].
    + destruct H as [-> _].
      split; [constructor; [apply Q0 | constructor] | discriminate].
Qed.

Lemma window_parameters_iso_utc_witness :
  parseable (host := Sample.host) (windowStart Sample.page0) 1717236000000
  /\ parseable (host := Sample.host) (windowEnd Sample.page0) 1717236300000
  /\ exists fx,
       trace (fst (UIController.refreshTracks (host := Sample.host)
                     Sample.ui Sample.page0))
       = (trace Sample.page0 ++ fx)%list
       /\ Forall (fun r => iso_window
                             1717236000000 1717236300000 (snd r))
            (requests fx)
       /\ (AppState.getSelectedBoats Sample.state <> [] -> requests fx <> []).
Proof.
  assert (Hs : parseable (host := Sample.host) (windowStart Sample.page0)
                 1717236000000)
    by (split; [discriminate | reflexivity]).
  assert (He : parseable (host := Sample.host) (windowEnd Sample.page0)
                 1717236300000)
    by (split; [discriminate | reflexivity]).
  split; [exact Hs|]. split; [exact He|].
  exact (proj1 (window_parameters_iso_utc (host := Sample.host)
                  Sample.page0 1717236000000 1717236300000 Hs He)
           Sample.ui _ _ (or_intror (or_introl eq_refl))).
Defined.

(* ===================================================================== *)
(** ** Partial results and order *)
(* ===================================================================== *)


(** When every WindowStat returned has Numbers for its six measures and
    the stats query answers for only some of the selected boats,
    [renderStatsTable] puts exactly one row into the table for each
    WindowStat returned, in order, and none for the boats left out;
    [refreshStats] completes normally and raises no alert. *)
Theorem partial_stats_rendered {host : Host} :
  forall this,
    (forall stats w,
       forallb measured stats = true ->
       exists w',
         UIController.renderStatsTable this stats w = (w', Normal tt)
         /\ List.length (statsTableBody w') = List.length stats
         /\ Forall2 (fun stat row =>
                       cells (AppState.getBoatById (UIController.state this)
                                (Stat.boat_id stat)) stat = Normal row)
              stats (statsTableBody w')
         /\ trace w' = trace w)
    /\ (forall w b sel s e stats,
          AppState.getSelectedBoats (UIController.state this) = b :: sel ->
          window w = Some (s, e) ->
          GET_stats (boats_query (b :: sel)
                     ++ [("t0", s); ("t1", e); ("ref", "twd")])%list
            = HttpOk stats ->
          forallb measured stats = true ->
          exists w',
            UIController.refreshStats this w = (w', Normal tt)
            /\ List.length (statsTableBody w') = List.length stats
            /\ Forall2 (fun stat row =>
                          cells (AppState.getBoatById (UIController.state this)
                                   (Stat.boat_id stat)) stat = Normal row)
                 stats (statsTableBody w')
            /\ alerts (trace w') = alerts (trace w)).
Proof.
  intros this. split.
  - intros stats w Hm.
    destruct (UIController.renderStatsTable this stats w) as [w' c] eqn:E.
    apply renderStatsTable_rows in E as (_ & _ & Et & R & Rl & Rc).
    specialize (Rc Hm). subst c. specialize (Rl eq_refl).
    rewrite Rl, firstn_all in R. exists w'. repeat split; assumption.
  - intros w b sel s e stats Es Hw Hq Hm.
    destruct (refreshStats_success this w b sel s e stats Es Hw Hq Hm)
      as (w' & E & Et & R).
    exists w'. repeat split; try assumption.
    + symmetry. exact (Forall2_length R).
    + rewrite Et, alerts_app. cbn [alerts]. apply List.app_nil_r.
Qed.

Lemma partial_stats_rendered_witness :
  AppState.getSelectedBoats Sample.state = [num 7; num 3; num 5]
  /\ forallb measured Sample.stats = true
  /\ exists w',
       UIController.refreshStats (host := Sample.host) Sample.ui Sample.page0
       = (w', Normal tt)
       /\ List.length (statsTableBody w') = 2%nat
       /\ Forall2 (fun stat row =>
                     cells (host := Sample.host)
                       (AppState.getBoatById Sample.state (Stat.boat_id stat))
                       stat = Normal row)
            Sample.stats (statsTableBody w')
       /\ alerts (trace w') = [].
Proof.
  split; [reflexivity|]. split; [reflexivity|].
  exact (proj2 (partial_stats_rendered (host := Sample.host) Sample.ui)
           Sample.page0 (num 7) [num 3; num 5]
           "2024-06-01T10:00:00.000Z" "2024-06-01T10:05:00.000Z" Sample.stats
           eq_refl eq_refl eq_refl eq_refl).
Defined.

(** C7.  Row i of the table is rendered from element i of the response,
    in [renderStatsTable] and in [refreshStats] of both clients once the
    server has answered.  [ApiClient.getStats] sends one request, with the
    query built from its params, and [refreshStats] of either client, with
    boats selected and the window set, sends exactly one stats request; the
    [boats] entries of every stats request are the selected boat ids in the
    order [getSelectedBoats] lists them, which is the order in which the
    boats were ticked: ticking appends a boat that is not selected and
    leaves the rest in place, unticking removes it and leaves the rest in
    place. *)
Theorem stats_order_preserved {host : Host} :
  forall this,
    (forall stats w w' c,
       UIController.renderStatsTable this stats w = (w', c) ->
       (forall i row,
          nth_error (statsTableBody w') i = Some row ->
          exists stat,
            nth_error stats i = Some stat
            /\ cells (AppState.getBoatById (UIController.state this)
                        (Stat.boat_id stat)) stat = Normal row)
       /\ (c = Normal tt ->
           List.length (statsTableBody w') = List.length stats))
    /\ (forall p,
          URLSearchParams.getAll (ApiClient.getStats_search p) "boats"
          = map ToString (boats p))
    /\ (forall api p w,
          ApiClient.getStats api p w
          = ({| windowStart := windowStart w; windowEnd := windowEnd w;
                statsTableBody := statsTableBody w;
                trace := (trace w
                          ++ [Fetch (ApiClient.baseUrl api ++ "/stats")
                                (ApiClient.getStats_search p)])%list |},
             match GET_stats (ApiClient.getStats_search p) with
             | HttpOk body => Normal body
             | HttpError detail => Throw (Error detail)
             | NetworkError => Throw TypeError
             end))
    /\ (forall w w' c,
          UIController.refreshStats this w = (w', c) ->
          exists fx,
            trace w' = (trace w ++ fx)%list
            /\ Forall (fun r =>
                         URLSearchParams.getAll (snd r) "boats"
                         = map ToString
                             (AppState.getSelectedBoats (UIController.state this)))
                 (requests fx)
            /\ requests fx
               = match AppState.getSelectedBoats (UIController.state this),
                       window w with
                 | (_ :: _) as sel, Some (s, e) =>
                     [(ApiClient.baseUrl (UIController.api this) ++ "/stats",
                       (boats_query sel
                        ++ [("t0", s); ("t1", e); ("ref", "twd")])%list)]
                 | _, _ => []
                 end
            /\ (forall b sel s e stats,
                  AppState.getSelectedBoats (UIController.state this)
                  = b :: sel ->
                  window w = Some (s, e) ->
                  GET_stats (boats_query (b :: sel)
                             ++ [("t0", s); ("t1", e); ("ref", "twd")])%list
                  = HttpOk stats ->
                  (forall i row,
                     nth_error (statsTableBody w') i = Some row ->
                     exists stat,
                       nth_error stats i = Some stat
                       /\ cells (AppState.getBoatById
                                   (UIController.state this)
                                   (Stat.boat_id stat)) stat = Normal row)
                  /\ (c = Normal tt ->
                      List.length (statsTableBody w') = List.length stats)))
    /\ (forall old w w' c,
          Legacy.refreshStats old w = (w', c) ->
          exists fx,
            trace w' = (trace w ++ fx)%list
            /\ Forall (fun r =>
                         URLSearchParams.getAll (snd r) "boats"
                         = map ToString (Legacy.selectedBoats old))
                 (requests fx)
            /\ requests fx
               = match Legacy.selectedBoats old, window w with
                 | (_ :: _) as sel, Some (s, e) =>
                     [(Legacy.API_BASE old ++ "/stats",
                       (boats_query sel
                        ++ [("t0", s); ("t1", e); ("ref", "twd")])%list)]
                 | _, _ => []
                 end
            /\ (forall b sel s e stats,
                  Legacy.selectedBoats old = b :: sel ->
                  window w = Some (s, e) ->
                  GET_stats (boats_query (b :: sel)
                             ++ [("t0", s); ("t1", e); ("ref", "twd")])%list
                  = HttpOk stats ->
                  (forall i row,
                     nth_error (statsTableBody w') i = Some row ->
                     exists stat,
                       nth_error stats i = Some stat
                       /\ cells (List.find
                                   (fun b => strict_equals (Boat.id b)
                                               (Stat.boat_id stat))
                                   (Legacy.boats old)) stat = Normal row)
                  /\ (c = Normal tt ->
                      List.length (statsTableBody w') = List.length stats)))
    /\ (forall st boatId,
          AppState.getSelectedBoats (fst (AppState.toggleBoat st boatId true))
          = if JSSet.has (AppState.getSelectedBoats st) boatId
            then AppState.getSelectedBoats st
            else (AppState.getSelectedBoats st ++ [boatId])%list)
    /\ (forall st boatId,
          AppState.getSelectedBoats (fst (AppState.toggleBoat st boatId false))
          = filter (fun x => negb (same_value_zero boatId x))
              (AppState.getSelectedBoats st)).
Proof.
  intros this. split; [|split; [|split; [|split; [|split; [|split]]]]].
  - intros stats w w' c E.
    apply renderStatsTable_rows in E as (_ & _ & _ & R & Rl & _).
    split; [|assumption].
    intros i row Hi.
    destruct (Forall2_nth_error _ _ _ R i row Hi) as (stat & Hs & Hc).
    exists stat. split; [|assumption].
    now apply nth_error_firstn_Some in Hs.
  - intros p. unfold ApiClient.getStats_search.
    rewrite append_boats_spec. cbn [app].
    assert (G : forall q name v,
              String.eqb name "boats" = false ->
              URLSearchParams.getAll (URLSearchParams.append q name v) "boats"
              = URLSearchParams.getAll q "boats").
    { intros q name v Hn. unfold URLSearchParams.append.
      rewrite getAll_app. unfold URLSearchParams.getAll at 2.
      cbn [filter map fst snd]. rewrite Hn. apply List.app_nil_r. }
    destruct (truthy (legId p)); rewrite !G by reflexivity;
      apply getAll_boats.
  - intros api p w. unfold ApiClient.getStats, ApiClient.request. run.
    now destruct (GET_stats (ApiClient.getStats_search p)).
  - intros w w' c E.
    pose proof (refreshStats_effects _ _ _ _ E) as (fx & Et & Er & _).
    exists fx. split; [assumption|]. split; [|split; [exact Er|]].
    + rewrite Er.
      destruct (AppState.getSelectedBoats (UIController.state this))
        as [|b sel]; [constructor|].
      destruct (window w) as [[s e]|]; constructor; [|constructor].
      cbn [snd]. rewrite getAll_app, getAll_boats. apply List.app_nil_r.
    + intros b sel s e stats Es Hw Hq.
      destruct (refreshStats_response _ _ _ _ _ _ _ _ _ Es Hw Hq E)
        as (R & Rl).
      split; [|assumption]. intros i row Hi.
      destruct (Forall2_nth_error _ _ _ R i row Hi) as (stat & Hs & Hc).
      exists stat. split; [|assumption].
      now apply nth_error_firstn_Some in Hs.
  - intros old w w' c E.
    pose proof (legacy_refreshStats_effects _ _ _ _ E) as (fx & Et & Er & _).
    exists fx. split; [assumption|]. split; [|split; [exact Er|]].
    + rewrite Er.
      destruct (Legacy.selectedBoats old) as [|b sel]; [constructor|].
      destruct (window w) as [[s e]|]; constructor; [|constructor].
      cbn [snd]. rewrite getAll_app, getAll_boats. apply List.app_nil_r.
    + intros b sel s e stats Es Hw Hq.
      pose proof (legacy_refreshStats_response _ _ _ _ E) as R.
      rewrite Es, Hw, Hq in R. destruct R as (R & Rl).
      split; [|assumption]. intros i row Hi.
      destruct (Forall2_nth_error _ _ _ R i row Hi) as (stat & Hs & Hc).
      exists stat. split; [|assumption].
      now apply nth_error_firstn_Some in Hs.
  - intros st boatId. unfold AppState.toggleBoat, AppState.getSelectedBoats.
    cbn [fst AppState.selectedBoats JSSet.to_array]. unfold JSSet.add.
    reflexivity.
  - intros st boatId. reflexivity.
Qed.

Lemma stats_order_preserved_witness :
  nth_error
    (statsTableBody
       (fst (UIController.renderStatsTable (host := Sample.host)
               Sample.ui Sample.stats Sample.page0))) 1
  = Some [VString "GBR 49"; VString "5.00"; VString "0.13"; VString "22.5";
          VString "0.0"; VString "1"; VString "0.0"; num 0; num 2]
  /\ exists stat,
       nth_error Sample.stats 1 = Some stat
       /\ cells (host := Sample.host)
            (AppState.getBoatById Sample.state (Stat.boat_id stat)) stat
          = Normal [VString "GBR 49"; VString "5.00"; VString "0.13";
                    VString "22.5"; VString "0.0"; VString "1"; VString "0.0";
                    num 0; num 2].
Proof.
  split; [reflexivity|].
  exact (proj1 (proj1 (stats_order_preserved (host := Sample.host) Sample.ui)
                  Sample.stats Sample.page0 _ _ eq_refl)
           1%nat _ eq_refl).
Defined.

(* ===================================================================== *)
(** ** AppState *)
(* ===================================================================== *)

(** [===] holds of a value and itself, NaN apart. *)
Lemma strict_equals_refl v : v <> VNumber NaN -> strict_equals v v = true.
Proof.
  destruct v as [| |b|[|b|q]|s]; simpl; intros H; try reflexivity.
  - apply Bool.eqb_reflx.
  - now contradiction H.
  - apply Bool.eqb_reflx.
  - apply Qeq_bool_iff. reflexivity.
  - apply String.eqb_refl.
Qed.

(* ===================================================================== *)
(** ** The handlers run *)
(* ===================================================================== *)

Section Handlers.
Variable W : Type.
Variable behave :
  AppState.handler -> AppState.payload -> AppState.t * W ->
  (AppState.t * W) * completion unit.




(** With handlers that return and touch nothing, the methods are those
    of [AppState]: the state it gives, the calls it lists. *)
Lemma quiet_emit event p st w :
  (forall h q s, behave h q s = (s, Normal tt)) ->
  Live.emit behave event p (st, w)
  = ((st, w), AppState.emit st event p, Normal tt).
Proof.
  intros Q. unfold Live.emit, AppState.emit. cbn [fst].
  fold (Live.handlers st event).
  induction (Live.handlers st event) as [|h hs IH]; [reflexivity|].
  cbn [Live.call_each map]. now rewrite Q, IH.
Qed.

Lemma quiet_methods st w :
  (forall h q s, behave h q s = (s, Normal tt)) ->
  (forall rs,
     Live.setRaces behave rs (st, w)
     = ((fst (AppState.setRaces st rs), w), snd (AppState.setRaces st rs),
        Normal tt))
  /\ (forall raceId,
        Live.setSelectedRace behave raceId (st, w)
        = ((fst (AppState.setSelectedRace st raceId), w),
           snd (AppState.setSelectedRace st raceId), Normal tt))
  /\ (forall bs,
        Live.setBoats behave bs (st, w)
        = ((fst (AppState.setBoats st bs), w), snd (AppState.setBoats st bs),
           Normal tt))
  /\ (forall boatId enabled,
        Live.toggleBoat behave boatId enabled (st, w)
        = ((fst (AppState.toggleBoat st boatId enabled), w),
           snd (AppState.toggleBoat st boatId enabled), Normal tt)).
Proof.
  intros Q. split; [|split; [|split]].
  - intros rs. unfold Live.setRaces, AppState.setRaces. cbn [fst snd].
    now rewrite quiet_emit.
  - intros raceId. unfold Live.setSelectedRace, AppState.setSelectedRace.
    destruct (strict_equals (AppState.selectedRaceId st) raceId);
      [reflexivity|].
    cbn [fst snd]. unfold Live.and_next. rewrite quiet_emit by assumption.
    cbn [fst]. now rewrite quiet_emit.
  - intros bs. unfold Live.setBoats, AppState.setBoats. cbn [fst snd].
    unfold Live.and_next. rewrite quiet_emit by assumption.
    cbn [fst]. now rewrite quiet_emit.
  - intros boatId enabled. unfold Live.toggleBoat, AppState.toggleBoat.
    cbn [fst snd]. now rewrite quiet_emit.
Qed.


End Handlers.




(** C9.  [setSelectedRace] with an id that is [===] the selected one
    changes no field of the state and calls no handler; so does the call
    with the selected id itself, whatever it is, NaN apart (which no caller
    passes).  It returns before it emits, so whatever the registered
    handlers would do, none of them runs. *)
Theorem setSelectedRace_same_id :
  forall this,
    (forall raceId,
       strict_equals (AppState.selectedRaceId this) raceId = true ->
       AppState.setSelectedRace this raceId = (this, []))
    /\ (AppState.selectedRaceId this <> VNumber NaN ->
        AppState.setSelectedRace this (AppState.selectedRaceId this)
        = (this, []))
    /\ (forall (W : Type)
               (behave : AppState.handler -> AppState.payload ->
                         AppState.t * W -> (AppState.t * W) * completion unit)
               (w : W) raceId,
          strict_equals (AppState.selectedRaceId this) raceId = true ->
          Live.setSelectedRace behave raceId (this, w)
          = ((this, w), [], Normal tt)).
Proof.
  intros this. split; [|split].
  - intros raceId H. unfold AppState.setSelectedRace. now rewrite H.
  - intros H. unfold AppState.setSelectedRace.
    now rewrite (strict_equals_refl _ H).
  - intros W behave w raceId H. unfold Live.setSelectedRace. now rewrite H.
Qed.

Lemma setSelectedRace_same_id_witness :
  strict_equals (AppState.selectedRaceId Sample.state) (num 1) = true
  /\ AppState.setSelectedRace Sample.state (num 1) = (Sample.state, []).
Proof.
  split; [reflexivity|].
  exact (proj1 (setSelectedRace_same_id Sample.state) (num 1) eq_refl).
Defined.

(* ===================================================================== *)
(** ** formatDateTimeLocal *)
(* ===================================================================== *)

Section Format.
Context {host : Host}.



End Format.




(* ===================================================================== *)
(** ** More of AppState *)
(* ===================================================================== *)

Section Values.

Lemma number_equal_sym a b : number_equal a b = number_equal b a.
Proof.
  destruct a as [|s|p], b as [|t|q]; simpl; try reflexivity.
  - destruct s, t; reflexivity.
  - destruct (Qeq_bool p q) eqn:E, (Qeq_bool q p) eqn:F; try reflexivity.
    + apply Qeq_bool_iff in E. symmetry in E. apply Qeq_bool_iff in E.
      congruence.
    + apply Qeq_bool_iff in F. symmetry in F. apply Qeq_bool_iff in F.
      congruence.
Qed.

Lemma number_equal_trans a b c :
  number_equal a b = true -> number_equal b c = true ->
  number_equal a c = true.
Proof.
  destruct a as [|s|p], b as [|t|q], c as [|u|r]; simpl; try discriminate.
  - destruct s, t, u; simpl; congruence.
  - intros H1 H2. apply Qeq_bool_iff in H1, H2. apply Qeq_bool_iff.
    now rewrite H1.
Qed.

Lemma strict_equals_sym a b : strict_equals a b = strict_equals b a.
Proof.
  destruct a as [| |x|x|x], b as [| |y|y|y]; simpl; try reflexivity.
  - destruct x, y; reflexivity.
  - apply number_equal_sym.
  - apply String.eqb_sym.
Qed.

Lemma strict_equals_trans a b c :
  strict_equals a b = true -> strict_equals b c = true ->
  strict_equals a c = true.
Proof.
  destruct a as [| |x|x|x], b as [| |y|y|y], c as [| |z|z|z]; simpl;
    try discriminate; try reflexivity.
  - destruct x, y, z; simpl; congruence.
  - apply number_equal_trans.
  - intros H1 H2. apply String.eqb_eq in H1, H2. apply String.eqb_eq.
    congruence.
Qed.

Lemma same_value_zero_refl v : same_value_zero v v = true.
Proof.
  destruct v as [| |b|[|b|q]|s]; simpl; try reflexivity.
  - apply Bool.eqb_reflx.
  - apply Bool.eqb_reflx.
  - apply Qeq_bool_iff. reflexivity.
  - apply String.eqb_refl.
Qed.

Lemma same_value_zero_sym a b : same_value_zero a b = same_value_zero b a.
Proof.
  destruct a as [| |x|[|x|x]|x], b as [| |y|[|y|y]|y]; simpl;
    try reflexivity.
  - destruct x, y; reflexivity.
  - destruct x, y; reflexivity.
  - apply (number_equal_sym (Finite x) (Finite y)).
  - apply String.eqb_sym.
Qed.

Lemma same_value_zero_trans a b c :
  same_value_zero a b = true -> same_value_zero b c = true ->
  same_value_zero a c = true.
Proof.
  destruct a as [| |x|[|x|x]|x], b as [| |y|[|y|y]|y],
    c as [| |z|[|z|z]|z]; simpl; try discriminate; try reflexivity.
  - destruct x, y, z; simpl; congruence.
  - destruct x, y, z; simpl; congruence.
  - apply (number_equal_trans (Finite x) (Finite y) (Finite z)).
  - intros H1 H2. apply String.eqb_eq in H1, H2. apply String.eqb_eq.
    congruence.
Qed.

(** Values that are the same are the same to every third one. *)
Lemma same_value_zero_congr a b c :
  same_value_zero a b = true -> same_value_zero a c = same_value_zero b c.
Proof.
  intros H. destruct (same_value_zero a c) eqn:E, (same_value_zero b c) eqn:F;
    try reflexivity.
  - rewrite same_value_zero_sym in H.
    now rewrite (same_value_zero_trans _ _ _ H E) in F.
  - now rewrite (same_value_zero_trans _ _ _ H F) in E.
Qed.

End Values.

Section Sets.
Local Open Scope list_scope.

Lemma set_has_app (s t : JSSet.t) v : JSSet.has (s ++ t) v = JSSet.has s v || JSSet.has t v.
Proof. unfold JSSet.has. apply existsb_app. Qed.

Lemma has_filter s v w :
  same_value_zero v w = false ->
  JSSet.has (filter (fun x => negb (same_value_zero v x)) s) w = JSSet.has s w.
Proof.
  intros H. unfold JSSet.has. induction s as [|x s IH]; [reflexivity|].
  cbn [filter existsb].
  destruct (same_value_zero v x) eqn:E; cbn [negb existsb]; rewrite IH.
  - pose proof (same_value_zero_congr v x w E) as C. rewrite H in C.
    now rewrite (same_value_zero_sym w x), <- C.
  - reflexivity.
Qed.

Lemma has_delete s v : JSSet.has (JSSet.delete s v) v = false.
Proof.
  unfold JSSet.has, JSSet.delete. induction s as [|x s IH]; [reflexivity|].
  cbn [filter]. destruct (same_value_zero v x) eqn:E; cbn [negb existsb].
  - exact IH.
  - now rewrite E, IH.
Qed.

Lemma has_congr s v w :
  same_value_zero v w = true -> JSSet.has s v = JSSet.has s w.
Proof.
  intros H. unfold JSSet.has. induction s as [|x s IH]; [reflexivity|].
  cbn [existsb]. now rewrite IH, (same_value_zero_congr _ _ x H).
Qed.


Lemma distinct_app_one s v :
  distinct s = true -> JSSet.has s v = false -> distinct (s ++ [v]) = true.
Proof.
  induction s as [|x s IH]; intros D H; [reflexivity|].
  cbn [distinct app] in *. apply andb_true_iff in D as [D1 D2].
  unfold JSSet.has in H. cbn [existsb] in H.
  apply orb_false_iff in H as [H1 H2].
  rewrite <- app_comm_cons. cbn [distinct].
  rewrite set_has_app, IH by assumption.
  apply negb_true_iff in D1. rewrite D1. unfold JSSet.has. cbn [existsb].
  now rewrite same_value_zero_sym, H1.
Qed.

Lemma distinct_delete s v : distinct s = true -> distinct (JSSet.delete s v) = true.
Proof.
  unfold JSSet.delete. induction s as [|x s IH]; intros D; [reflexivity|].
  cbn [distinct filter] in *. apply andb_true_iff in D as [D1 D2].
  destruct (same_value_zero v x) eqn:E; cbn [negb]; [now apply IH|].
  cbn [distinct]. rewrite IH by assumption.
  rewrite has_filter by assumption. now rewrite D1.
Qed.

Lemma distinct_add s v : distinct s = true -> distinct (JSSet.add s v) = true.
Proof.
  intros D. unfold JSSet.add. destruct (JSSet.has s v) eqn:H; [assumption|].
  now apply distinct_app_one.
Qed.

End Sets.

(** X1.  Every state the methods of [AppState] lead to from a new one
    lists no boat twice in its selection, however boats are ticked and
    unticked and races and boats are loaded. *)
Theorem selection_never_repeats :
  forall st, reachable st -> distinct (AppState.getSelectedBoats st) = true.
Proof.
  induction 1 as [|st event h _ IH|st rs _ IH|st raceId _ IH|st bs _ IH
                 |st boatId enabled _ IH]; try reflexivity; try exact IH.
  - unfold AppState.setSelectedRace.
    destruct (strict_equals (AppState.selectedRaceId st) raceId);
      [exact IH | reflexivity].
  - unfold AppState.toggleBoat, AppState.getSelectedBoats, JSSet.to_array
      in *.
    cbn [fst AppState.selectedBoats] in *.
    destruct enabled; [now apply distinct_add | now apply distinct_delete].
Qed.

Lemma selection_never_repeats_witness :
  reachable Sample.state
  /\ distinct (AppState.getSelectedBoats Sample.state) = true.
Proof.
  assert (R : reachable Sample.state).
  { unfold Sample.state. repeat constructor. }
  split; [exact R|]. exact (selection_never_repeats Sample.state R).
Defined.




Section Lookup.

Lemma find_unique {A : Type} (key : A -> value) (l : list A) :
  ids_unique (map key l) = true ->
  forall a, In a l ->
            List.find (fun x => strict_equals (key x) (key a)) l = Some a.
Proof.
  induction l as [|x l IH]; intros U a Hin; [contradiction|].
  cbn [map ids_unique] in U.
  apply andb_true_iff in U as [U U3]. apply andb_true_iff in U as [U1 U2].
  cbn [List.find]. destruct Hin as [->|Hin].
  - now rewrite U1.
  - destruct (strict_equals (key x) (key a)) eqn:E.
    + exfalso. apply negb_true_iff in U2.
      assert (X : existsb (fun y => strict_equals y (key x)) (map key l) = true).
      { apply existsb_exists. exists (key a). split.
        - now apply in_map.
        - now rewrite strict_equals_sym. }
      congruence.
    + now apply IH.
Qed.

End Lookup.

(** X4.  After [setBoats] a boat is found by its id: [getBoatById] gives
    the first loaded boat whose id is [===] the one asked for, and null
    exactly when there is none; when the loaded ids are pairwise different
    every loaded boat is found under its own id.  [setRaces] and
    [getRaceById] likewise. *)
Theorem loaded_found_by_id :
  forall st,
    (forall bs id,
       let st' := fst (AppState.setBoats st bs) in
       (forall b, AppState.getBoatById st' id = Some b ->
                  In b bs /\ strict_equals (Boat.id b) id = true)
       /\ (AppState.getBoatById st' id = None <->
           forall b, In b bs -> strict_equals (Boat.id b) id = false)
       /\ (ids_unique (map Boat.id bs) = true ->
           forall b, In b bs -> AppState.getBoatById st' (Boat.id b) = Some b))
    /\ (forall rs id,
          let st' := fst (AppState.setRaces st rs) in
          (forall r, AppState.getRaceById st' id = Some r ->
                     In r rs /\ strict_equals (Race.id r) id = true)
          /\ (AppState.getRaceById st' id = None <->
              forall r, In r rs -> strict_equals (Race.id r) id = false)
          /\ (ids_unique (map Race.id rs) = true ->
              forall r, In r rs ->
                        AppState.getRaceById st' (Race.id r) = Some r)).
Proof.
  intros st. split.
  - intros bs id. cbv zeta. unfold AppState.getBoatById, find_or_null.
    cbn [fst AppState.setBoats AppState.boats]. split; [|split].
    + intros b H. apply find_some in H. exact H.
    + split.
      * intros H b Hin. exact (find_none _ _ H b Hin).
      * intros H. destruct (List.find _ bs) as [b|] eqn:E; [|reflexivity].
        apply find_some in E as [Hin Hb]. rewrite (H b Hin) in Hb.
        discriminate.
    + intros U b Hin. now apply (find_unique Boat.id).
  - intros rs id. cbv zeta. unfold AppState.getRaceById, find_or_null.
    cbn [fst AppState.setRaces AppState.races]. split; [|split].
    + intros r H. apply find_some in H. exact H.
    + split.
      * intros H r Hin. exact (find_none _ _ H r Hin).
      * intros H. destruct (List.find _ rs) as [r|] eqn:E; [|reflexivity].
        apply find_some in E as [Hin Hr]. rewrite (H r Hin) in Hr.
        discriminate.
    + intros U r Hin. now apply (find_unique Race.id).
Qed.

Lemma loaded_found_by_id_witness :
  ids_unique (map Boat.id Sample.boats) = true
  /\ AppState.getBoatById (fst (AppState.setBoats AppState.constructor
                                  Sample.boats)) (num 5)
     = Some {| Boat.id := num 5; Boat.sail_no := VString "NZL 7";
               Boat.label_color := VString "#ff7f0e" |}.
Proof.
  split; [reflexivity|].
  exact (proj2 (proj2 (proj1 (loaded_found_by_id AppState.constructor)
                         Sample.boats (num 5))) eq_refl
           {| Boat.id := num 5; Boat.sail_no := VString "NZL 7";
              Boat.label_color := VString "#ff7f0e" |}
           (or_intror (or_introl eq_refl))).
Defined.

(* ===================================================================== *)
(** ** Edges of the statistics and the export *)
(* ===================================================================== *)

Section Edges.
Context {host : Host}.

Lemma truthy_empty s : truthy (VString s) = false <-> s = "".
Proof.
  simpl. destruct (String.eqb_spec s ""); split; intros H;
    try discriminate; try reflexivity; congruence.
Qed.

Lemma window_throws w :
  windowStart w <> "" -> windowEnd w <> "" -> window w = None ->
  snd (UIController.getWindowRange w) = Throw RangeError.
Proof.
  intros Hs He Hw. unfold UIController.getWindowRange, window in *. run.
  rewrite (truthy_nonempty _ Hs), (truthy_nonempty _ He) in *.
  cbn [negb orb andb] in *. unfold iso_of, toISOString in *.
  destruct (new_Date (VString (windowStart w))); [|reflexivity].
  destruct (new_Date (VString (windowEnd w))); [discriminate|reflexivity].
Qed.

Lemma getWindowRange_page w : fst (UIController.getWindowRange w) = w.
Proof.
  destruct (getWindowRange_run w) as (r & E & _). now rewrite E.
Qed.

Lemma window_empty w :
  windowStart w = "" \/ windowEnd w = "" ->
  UIController.getWindowRange w = (w, Normal None).
Proof.
  intros H. unfold UIController.getWindowRange. run.
  destruct H as [H|H]; apply truthy_empty in H; rewrite H; cbn [negb orb];
    [reflexivity|].
  now rewrite orb_true_r.
Qed.

Lemma window_some w p :
  window w = Some p -> UIController.getWindowRange w = (w, Normal (Some p)).
Proof.
  intros H. destruct (getWindowRange_run w) as (r & E & Hr). rewrite E.
  destruct r as [[q|]|x]; congruence.
Qed.

Lemma unmeasured_throws boat stat :
  measured stat = false -> cells boat stat = Throw TypeError.
Proof.
  unfold measured, cells, and_then, toFixed. intros H.
  destruct (Stat.avg_sog stat); try reflexivity.
  destruct (Stat.avg_vmg stat); try reflexivity.
  destruct (Stat.avg_heading stat); try reflexivity.
  destruct (Stat.heading_std stat); try reflexivity.
  destruct (Stat.distance_sailed stat); try reflexivity.
  destruct (Stat.height_gain stat); try reflexivity.
  discriminate H.
Qed.

Lemma forEach_aborts (lookup : Stat.t -> option Boat.t) good bad rest :
  forallb measured good = true -> measured bad = false ->
  forall w,
  exists rows,
    forEach (fun stat =>
               row <- lift (cells (lookup stat) stat) ;; appendRow row)
            (good ++ bad :: rest)%list w
    = ({| windowStart := windowStart w; windowEnd := windowEnd w;
          statsTableBody := (statsTableBody w ++ rows)%list;
          trace := trace w |}, Throw TypeError)
    /\ Forall2 (fun stat row => cells (lookup stat) stat = Normal row)
         good rows.
Proof.
  intros Hg Hb. induction good as [|g good IH]; intros w.
  - exists []. cbn [List.app forEach]. run.
    rewrite (unmeasured_throws (lookup bad) bad Hb).
    rewrite List.app_nil_r. split; [now destruct w | constructor].
  - cbn [forallb] in Hg. apply andb_true_iff in Hg as [Hg1 Hg2].
    destruct (cells_measured (lookup g) g Hg1) as [row Hr].
    cbn [List.app forEach]. run. rewrite Hr. run.
    destruct (IH Hg2
                {| windowStart := windowStart w; windowEnd := windowEnd w;
                   statsTableBody := (statsTableBody w ++ [row])%list;
                   trace := trace w |}) as (rows & E & F).
    exists (row :: rows). cbn [windowStart windowEnd statsTableBody trace] in E.
    rewrite E, <- List.app_assoc. split; [reflexivity | now constructor].
Qed.

End Edges.

(** X5.  [refreshStats] with a picker left empty, or with no boat
    selected, empties the statistics table and makes no request; with both
    pickers filled and one of them not a date it fails with a RangeError
    before it looks at the selection, and leaves the table as it was. *)
Theorem refreshStats_without_window {host : Host} :
  forall this w,
    (windowStart w = "" \/ windowEnd w = "" ->
     UIController.refreshStats this w = (cleared w, Normal tt))
    /\ (forall p,
          AppState.getSelectedBoats (UIController.state this) = [] ->
          window w = Some p ->
          UIController.refreshStats this w = (cleared w, Normal tt))
    /\ (windowStart w <> "" -> windowEnd w <> "" -> window w = None ->
        UIController.refreshStats this w = (w, Throw RangeError)).
Proof.
  intros this w. unfold UIController.refreshStats. split; [|split].
  - intros H. run. rewrite (window_empty w H).
    now destruct (AppState.getSelectedBoats (UIController.state this)).
  - intros p Hs Hw. run. rewrite (window_some w p Hw), Hs. now destruct p.
  - intros Hs He Hw. run.
    pose proof (window_throws w Hs He Hw) as T.
    pose proof (getWindowRange_page w) as P.
    destruct (UIController.getWindowRange w) as [w1 r]. cbn [fst snd] in *.
    now subst.
Qed.

Lemma refreshStats_without_window_witness :
  windowEnd {| windowStart := "2024-06-01T12:00"; windowEnd := "";
               statsTableBody := [[VString "stale"]]; trace := [] |} = ""
  /\ UIController.refreshStats (host := Sample.host) Sample.ui
       {| windowStart := "2024-06-01T12:00"; windowEnd := "";
          statsTableBody := [[VString "stale"]]; trace := [] |}
     = ({| windowStart := "2024-06-01T12:00"; windowEnd := "";
           statsTableBody := []; trace := [] |}, Normal tt).
Proof.
  split; [reflexivity|].
  exact (proj1 (refreshStats_without_window (host := Sample.host) Sample.ui
                  {| windowStart := "2024-06-01T12:00"; windowEnd := "";
                     statsTableBody := [[VString "stale"]]; trace := [] |})
           (or_intror eq_refl)).
Defined.

(** X6.  When the response holds a WindowStat one of whose six measures is
    not a Number (null, say), [renderStatsTable] fails with a TypeError at
    the first such entry: the table then holds the rows of the entries
    before it and nothing else, the entries after it are not rendered. *)
Theorem renderStatsTable_stops_at_unmeasured {host : Host} :
  forall this good bad rest w,
    forallb measured good = true -> measured bad = false ->
    exists rows,
      UIController.renderStatsTable this (good ++ bad :: rest)%list w
      = ({| windowStart := windowStart w; windowEnd := windowEnd w;
            statsTableBody := rows; trace := trace w |}, Throw TypeError)
      /\ Forall2 (fun stat row =>
                    cells (AppState.getBoatById (UIController.state this)
                             (Stat.boat_id stat)) stat = Normal row)
           good rows.
Proof.
  intros this good bad rest w Hg Hb. unfold UIController.renderStatsTable.
  run.
  destruct (forEach_aborts
              (fun stat => AppState.getBoatById (UIController.state this)
                             (Stat.boat_id stat))
              good bad rest Hg Hb
              {| windowStart := windowStart w; windowEnd := windowEnd w;
                 statsTableBody := []; trace := trace w |})
    as (rows & E & F).
  exists rows. split; [exact E | exact F].
Qed.

Lemma renderStatsTable_stops_at_unmeasured_witness :
  forallb measured [Sample.stat 7 (25 # 4) (-33 # 8) (625 # 2) (29 # 4)
                      (1975 # 2) (-193 # 16) 3 0] = true
  /\ measured {| Stat.boat_id := num 3; Stat.avg_sog := num 5;
                 Stat.avg_vmg := VNull; Stat.avg_heading := num 20;
                 Stat.heading_std := num 1; Stat.distance_sailed := num 10;
                 Stat.height_gain := VNull; Stat.tack_count := num 0;
                 Stat.gybe_count := num 0 |} = false
  /\ exists rows,
       UIController.renderStatsTable (host := Sample.host) Sample.ui
         ([Sample.stat 7 (25 # 4) (-33 # 8) (625 # 2) (29 # 4)
             (1975 # 2) (-193 # 16) 3 0]
          ++ {| Stat.boat_id := num 3; Stat.avg_sog := num 5;
                Stat.avg_vmg := VNull; Stat.avg_heading := num 20;
                Stat.heading_std := num 1; Stat.distance_sailed := num 10;
                Stat.height_gain := VNull; Stat.tack_count := num 0;
                Stat.gybe_count := num 0 |} :: Sample.stats)%list
         Sample.page0
       = ({| windowStart := windowStart Sample.page0;
             windowEnd := windowEnd Sample.page0;
             statsTableBody := rows; trace := trace Sample.page0 |},
          Throw TypeError)
       /\ Forall2 (fun stat row =>
                     cells (host := Sample.host)
                       (AppState.getBoatById Sample.state (Stat.boat_id stat))
                       stat = Normal row)
            [Sample.stat 7 (25 # 4) (-33 # 8) (625 # 2) (29 # 4)
               (1975 # 2) (-193 # 16) 3 0] rows.
Proof.
  split; [reflexivity|]. split; [reflexivity|].
  exact (renderStatsTable_stops_at_unmeasured (host := Sample.host) Sample.ui
           [Sample.stat 7 (25 # 4) (-33 # 8) (625 # 2) (29 # 4)
              (1975 # 2) (-193 # 16) 3 0]
           {| Stat.boat_id := num 3; Stat.avg_sog := num 5;
              Stat.avg_vmg := VNull; Stat.avg_heading := num 20;
              Stat.heading_std := num 1; Stat.distance_sailed := num 10;
              Stat.height_gain := VNull; Stat.tack_count := num 0;
              Stat.gybe_count := num 0 |}
           Sample.stats Sample.page0 eq_refl eq_refl).
Defined.

(** X7.  [UIController.downloadCsv] reports every failure by exactly one
    alert and completes: with a picker empty or no boat selected it
    asks to select boats and a window and makes no request; when the server
    refuses, the alert says "Failed to download CSV" whatever detail the
    server gave; when the request itself fails, the alert carries the
    error's message.  No file is saved in any of these cases.  Only a
    picker that is filled but not a date makes it fail, with a RangeError
    and no alert. *)
Theorem downloadCsv_reports_failure {host : Host} :
  forall this w,
    let sel := AppState.getSelectedBoats (UIController.state this) in
    let url := ApiClient.baseUrl (UIController.api this) ++ "/export/csv" in
    (windowStart w = "" \/ windowEnd w = "" ->
     UIController.downloadCsv this w
     = (after w [Alert "Select boats and a valid time window first"],
        Normal tt))
    /\ (forall p,
          sel = [] -> window w = Some p ->
          UIController.downloadCsv this w
          = (after w [Alert "Select boats and a valid time window first"],
             Normal tt))
    /\ (forall s e detail,
          sel <> [] -> window w = Some (s, e) ->
          GET_export_csv (boats_query sel ++ [("t0", s); ("t1", e)])%list
          = HttpError detail ->
          UIController.downloadCsv this w
          = (after w [Fetch url
                        (boats_query sel ++ [("t0", s); ("t1", e)])%list;
                      Alert "Failed to download CSV"], Normal tt))
    /\ (forall s e,
          sel <> [] -> window w = Some (s, e) ->
          GET_export_csv (boats_query sel ++ [("t0", s); ("t1", e)])%list
          = NetworkError ->
          UIController.downloadCsv this w
          = (after w [Fetch url
                        (boats_query sel ++ [("t0", s); ("t1", e)])%list;
                      Alert (builtin_message TypeError)], Normal tt))
    /\ (windowStart w <> "" -> windowEnd w <> "" -> window w = None ->
        UIController.downloadCsv this w = (w, Throw RangeError)).
Proof.
  intros this w sel url. unfold UIController.downloadCsv. fold sel.
  split; [|split; [|split; [|split]]].
  - intros H. run. rewrite (window_empty w H). now destruct sel.
  - intros p Hs Hw. run. rewrite (window_some w p Hw), Hs. now destruct p.
  - intros s e detail Hs Hw Hq. run. rewrite (window_some w _ Hw).
    destruct sel as [|b sel'] eqn:Es; [contradiction|].
    unfold ApiClient.downloadCsv. run.
    rewrite downloadCsv_search_window, Hq. run. unfold after, message.
    now rewrite <- List.app_assoc.
  - intros s e Hs Hw Hq. run. rewrite (window_some w _ Hw).
    destruct sel as [|b sel'] eqn:Es; [contradiction|].
    unfold ApiClient.downloadCsv. run.
    rewrite downloadCsv_search_window, Hq. run. unfold after, message.
    now rewrite <- List.app_assoc.
  - intros Hs He Hw. run.
    pose proof (window_throws w Hs He Hw) as T.
    pose proof (getWindowRange_page w) as P.
    destruct (UIController.getWindowRange w) as [w1 r]. cbn [fst snd] in *.
    now subst.
Qed.

Lemma downloadCsv_reports_failure_witness :
  AppState.getSelectedBoats Sample.state <> []
  /\ window (host := Sample.offline) Sample.page0
     = Some ("2024-06-01T10:00:00.000Z", "2024-06-01T10:05:00.000Z")
  /\ UIController.downloadCsv (host := Sample.offline) Sample.ui Sample.page0
     = (after Sample.page0
          [Fetch "/api/export/csv"
             [("boats", "7"); ("boats", "3"); ("boats", "5");
              ("t0", "2024-06-01T10:00:00.000Z");
              ("t1", "2024-06-01T10:05:00.000Z")];
           Alert "Failed to download CSV"], Normal tt).
Proof.
  split; [discriminate|]. split; [reflexivity|].
  exact (proj1 (proj2 (proj2 (downloadCsv_reports_failure
                                (host := Sample.offline)
                                Sample.ui Sample.page0)))
           "2024-06-01T10:00:00.000Z" "2024-06-01T10:05:00.000Z"
           "Service Unavailable"
           ltac:(discriminate) eq_refl eq_refl).
Defined.

(** X8.  The earlier [downloadCSV] is silent where the later one speaks:
    with no boat selected or a picker empty it returns without an alert or
    a request; a refusal of the server is alerted as "Failed to download
    CSV"; a request that itself fails is not caught: the function fails
    with the TypeError and alerts nothing. *)
Theorem legacy_downloadCSV_failures {host : Host} :
  forall this w,
    let sel := Legacy.selectedBoats this in
    let url := Legacy.API_BASE this ++ "/export/csv" in
    (sel = [] -> Legacy.downloadCSV this w = (w, Normal tt))
    /\ (windowStart w = "" \/ windowEnd w = "" ->
        Legacy.downloadCSV this w = (w, Normal tt))
    /\ (forall s e detail,
          sel <> [] -> window w = Some (s, e) ->
          GET_export_csv (boats_query sel ++ [("t0", s); ("t1", e)])%list
          = HttpError detail ->
          Legacy.downloadCSV this w
          = (after w [Fetch url
                        (boats_query sel ++ [("t0", s); ("t1", e)])%list;
                      Alert "Failed to download CSV"], Normal tt))
    /\ (forall s e,
          sel <> [] -> window w = Some (s, e) ->
          GET_export_csv (boats_query sel ++ [("t0", s); ("t1", e)])%list
          = NetworkError ->
          Legacy.downloadCSV this w
          = (after w [Fetch url
                        (boats_query sel ++ [("t0", s); ("t1", e)])%list],
             Throw TypeError)).
Proof.
  intros this w sel url.
  assert (W : forall s e, window w = Some (s, e) ->
                truthy (VString (windowStart w)) = true
                /\ truthy (VString (windowEnd w)) = true
                /\ iso_of (windowStart w) = Normal s
                /\ iso_of (windowEnd w) = Normal e).
  { intros s e Hw. unfold window in Hw.
    destruct (truthy (VString (windowStart w))); [|discriminate].
    destruct (truthy (VString (windowEnd w))); [|discriminate].
    cbn [andb] in Hw.
    destruct (iso_of (windowStart w)); [|discriminate].
    destruct (iso_of (windowEnd w)); [|discriminate].
    injection Hw as -> ->. repeat split. }
  unfold Legacy.downloadCSV, Legacy.boats_params, JSSet.to_array.
  rewrite size_zero. fold sel. split; [|split; [|split]].
  - intros ->. reflexivity.
  - intros H. destruct sel; [reflexivity|]. run.
    destruct H as [H|H]; apply truthy_empty in H; rewrite H; cbn [negb orb];
      [reflexivity|].
    now rewrite orb_true_r.
  - intros s e detail Hs Hw Hq. destruct sel as [|b sel'] eqn:Es;
      [contradiction|].
    destruct (W s e Hw) as (T1 & T2 & I1 & I2). run.
    rewrite T1, T2, I1, I2. cbn [negb orb].
    rewrite append_boats_spec. unfold URLSearchParams.append.
    cbn [List.app ToString]. rewrite <- !List.app_assoc. cbn [List.app] in *.
    rewrite Hq. run. unfold after. rewrite <- ?List.app_assoc. reflexivity.
  - intros s e Hs Hw Hq. destruct sel as [|b sel'] eqn:Es;
      [contradiction|].
    destruct (W s e Hw) as (T1 & T2 & I1 & I2). run.
    rewrite T1, T2, I1, I2. cbn [negb orb].
    rewrite append_boats_spec. unfold URLSearchParams.append.
    cbn [List.app ToString]. rewrite <- !List.app_assoc. cbn [List.app] in *.
    rewrite Hq. run. unfold after. rewrite <- ?List.app_assoc. reflexivity.
Qed.

Lemma legacy_downloadCSV_failures_witness :
  Legacy.selectedBoats Sample.legacy <> []
  /\ Legacy.downloadCSV (host := Sample.offline) Sample.legacy Sample.page0
     = (after Sample.page0
          [Fetch "http://localhost:8000/export/csv"
             [("boats", "7"); ("boats", "3"); ("boats", "5");
              ("t0", "2024-06-01T10:00:00.000Z");
              ("t1", "2024-06-01T10:05:00.000Z")];
           Alert "Failed to download CSV"], Normal tt).
Proof.
  split; [discriminate|].
  exact (proj1 (proj2 (proj2 (legacy_downloadCSV_failures
                                (host := Sample.offline)
                                Sample.legacy Sample.page0)))
           "2024-06-01T10:00:00.000Z" "2024-06-01T10:05:00.000Z"
           "Service Unavailable"
           ltac:(discriminate) eq_refl eq_refl).
Defined.

(* ===================================================================== *)
(** ** The queries of the API client *)
(* ===================================================================== *)

Section Searches.
Context {host : Host}.
Import URLSearchParams.

Lemma getAll_one q name v more :
  String.eqb "boats" name = false ->
  (forall n, In n (map fst more) -> String.eqb n name = false) ->
  forall ids pre,
    (forall n, In n (map fst pre) -> String.eqb n name = false) ->
    q = (boats_query ids ++ pre ++ (name, v) :: more)%list ->
    getAll q name = [v].
Proof.
  intros Hb Hm ids pre Hp ->. rewrite !getAll_app.
  rewrite (getAll_boats_other ids name Hb).
  assert (E : forall l, (forall n, In n (map fst l) ->
                           String.eqb n name = false) -> getAll l name = []).
  { induction l as [|[n x] l IH]; intros Hl; [reflexivity|].
    unfold getAll in *. cbn [filter fst map].
    rewrite (Hl n (or_introl eq_refl)). apply IH.
    intros m Hin. apply Hl. now right. }
  rewrite (E pre Hp). unfold getAll at 1. cbn [filter fst map snd List.app].
  rewrite String.eqb_refl. cbn [map snd]. fold (getAll more name).
  now rewrite (E more Hm).
Qed.

End Searches.

(** X9.  What the three query builders of [ApiClient] send for params
    whose [boats] is an array, as it is in every call the client makes.
    [getStats] always sends t0, t1 and exactly one ref, which is twd only
    when the caller's ref is undefined or null (an empty ref is sent
    empty), and legId when it is truthy; [downloadCsv] always sends t0 and
    t1 and sends ref only when it is truthy; [getTracks] sends each of t0,
    t1 and downsample only when truthy.  So a missing t0 goes out as the
    text undefined in the first two and is left out in the third.  The
    boats come first in all three, one entry each, in the order given, each
    id written as [String] writes it. *)
Theorem search_parameters {host : Host} :
  forall p,
    let bs := boats_query (boats p) in
    let opt := fun (name : string) (v : value) =>
                 if truthy v then [(name, ToString v)] else [] in
    ApiClient.getStats_search p
    = (bs ++ [("t0", ToString (t0 p)); ("t1", ToString (t1 p));
              ("ref", match ref p with
                      | VUndefined | VNull => "twd"
                      | v => ToString v
                      end)]
          ++ opt "legId" (legId p))%list
    /\ ApiClient.downloadCsv_search p
       = (bs ++ [("t0", ToString (t0 p)); ("t1", ToString (t1 p))]
             ++ opt "ref" (ref p))%list
    /\ ApiClient.getTracks_search p
       = (bs ++ opt "t0" (t0 p) ++ opt "t1" (t1 p)
             ++ opt "downsample" (downsample p))%list
    /\ List.length (URLSearchParams.getAll (ApiClient.getStats_search p) "ref")
       = 1%nat
    /\ (ref p = VString "" ->
        URLSearchParams.getAll (ApiClient.getStats_search p) "ref" = [""]
        /\ URLSearchParams.has (ApiClient.downloadCsv_search p) "ref" = false)
    /\ (t0 p = VUndefined ->
        URLSearchParams.getAll (ApiClient.getStats_search p) "t0"
        = ["undefined"]
        /\ URLSearchParams.getAll (ApiClient.downloadCsv_search p) "t0"
           = ["undefined"]
        /\ URLSearchParams.has (ApiClient.getTracks_search p) "t0" = false).
Proof.
  intros p bs opt.
  assert (S : ApiClient.getStats_search p
              = (bs ++ [("t0", ToString (t0 p)); ("t1", ToString (t1 p));
                        ("ref", match ref p with
                                | VUndefined | VNull => "twd"
                                | v => ToString v
                                end)]
                    ++ opt "legId" (legId p))%list).
  { unfold ApiClient.getStats_search, opt. rewrite append_boats_spec.
    unfold URLSearchParams.append. cbn [List.app].
    assert (R : ToString (nullish (ref p) (VString "twd"))
                = match ref p with
                  | VUndefined | VNull => "twd"
                  | v => ToString v
                  end) by now destruct (ref p).
    rewrite R. destruct (truthy (legId p));
      rewrite <- ?List.app_assoc; cbn [List.app];
      rewrite ?List.app_nil_r; reflexivity. }
  assert (D : ApiClient.downloadCsv_search p
              = (bs ++ [("t0", ToString (t0 p)); ("t1", ToString (t1 p))]
                    ++ opt "ref" (ref p))%list).
  { unfold ApiClient.downloadCsv_search, opt. rewrite append_boats_spec.
    unfold URLSearchParams.append. cbn [List.app].
    destruct (truthy (ref p));
      rewrite <- ?List.app_assoc; cbn [List.app];
      rewrite ?List.app_nil_r; reflexivity. }
  assert (T : ApiClient.getTracks_search p
              = (bs ++ opt "t0" (t0 p) ++ opt "t1" (t1 p)
                    ++ opt "downsample" (downsample p))%list).
  { unfold ApiClient.getTracks_search, opt. rewrite append_boats_spec.
    unfold URLSearchParams.append. cbn [List.app].
    destruct (truthy (t0 p)), (truthy (t1 p)), (truthy (downsample p));
      rewrite <- ?List.app_assoc; cbn [List.app];
      rewrite ?List.app_nil_r; reflexivity. }
  assert (G : forall q name v pre more,
            String.eqb "boats" name = false ->
            (forall n, In n (map fst pre) -> String.eqb n name = false) ->
            (forall n, In n (map fst more) -> String.eqb n name = false) ->
            q = (bs ++ pre ++ (name, v) :: more)%list ->
            URLSearchParams.getAll q name = [v]).
  { intros q name v pre more Hb Hp Hm E.
    exact (getAll_one q name v more Hb Hm (boats p) pre Hp E). }
  assert (Sref : exists v,
            URLSearchParams.getAll (ApiClient.getStats_search p) "ref" = [v]
            /\ (ref p = VString "" -> v = "")).
  { eexists. split.
    - apply (G _ "ref" _ [("t0", ToString (t0 p)); ("t1", ToString (t1 p))]
               (opt "legId" (legId p))); try reflexivity.
      + intros n [<-|[<-|[]]]; reflexivity.
      + unfold opt. destruct (truthy (legId p)); intros n; cbn [map fst In];
          [intros [<-|[]]; reflexivity | intros []].
      + rewrite S. reflexivity.
    - intros ->. reflexivity. }
  destruct Sref as (v & Ev & Hv).
  split; [exact S|]. split; [exact D|]. split; [exact T|].
  split; [now rewrite Ev|]. split.
  - intros Hr. split; [now rewrite Ev, (Hv Hr)|].
    rewrite D. unfold opt. rewrite Hr. cbn [truthy String.eqb negb].
    rewrite List.app_nil_r. rewrite has_app. unfold bs. rewrite has_boats.
    destruct (boats p); reflexivity.
  - intros Ht. split; [|split].
    + rewrite <- (f_equal ToString Ht : ToString (t0 p) = "undefined").
      apply (G _ "t0" _ [] (("t1", ToString (t1 p))
                             :: ("ref", match ref p with
                                        | VUndefined | VNull => "twd"
                                        | v => ToString v
                                        end) :: opt "legId" (legId p)));
        try reflexivity.
      * intros n [].
      * unfold opt. destruct (truthy (legId p)); intros n; cbn [map fst In];
          intuition (subst; reflexivity).
      * rewrite S. reflexivity.
    + rewrite <- (f_equal ToString Ht : ToString (t0 p) = "undefined").
      apply (G _ "t0" _ [] (("t1", ToString (t1 p)) :: opt "ref" (ref p)));
        try reflexivity.
      * intros n [].
      * unfold opt. destruct (truthy (ref p)); intros n; cbn [map fst In];
          intuition (subst; reflexivity).
      * rewrite D. reflexivity.
    + rewrite T. unfold opt. rewrite Ht. cbn [truthy List.app].
      rewrite !has_app. unfold bs. rewrite has_boats.
      destruct (boats p), (truthy (t1 p)), (truthy (downsample p));
        reflexivity.
Qed.

(* ===================================================================== *)
(** ** The tracks request and the pickers *)
(* ===================================================================== *)

Section TrackRuns.
Context {host : Host}.

Lemma request_run {A : Type} this (endpoint : query -> response A) path q w :
  exists c,
    ApiClient.request this endpoint path q w
    = (after w [Fetch (ApiClient.baseUrl this ++ path) q], c).
Proof.
  unfold ApiClient.request. run. unfold after.
  destruct (endpoint q); eexists; reflexivity.
Qed.

Lemma after_after w fx gx : after (after w fx) gx = after w (fx ++ gx)%list.
Proof. unfold after. cbn [windowStart windowEnd statsTableBody trace].
  now rewrite List.app_assoc. Qed.

Lemma tracks_run (url : string) (q : query) w :
  exists fx c,
    (tracks <- Legacy.fetchJSON GET_tracks url q ;;
     perform (UpdateTracks tracks)) w = (after w fx, c)
    /\ requests fx = [(url, q)].
Proof.
  unfold Legacy.fetchJSON. run.
  destruct (GET_tracks q) as [tracks|d|].
  - exists [Fetch url q; UpdateTracks tracks], (Normal tt). unfold after.
    run. cbn [requests]. now rewrite <- List.app_assoc.
  - exists [Fetch url q], (Throw (Error d)). now unfold after.
  - exists [Fetch url q], (Throw TypeError). now unfold after.
Qed.

End TrackRuns.

(** X10.  [UIController.refreshTracks] asks for a window only when both
    pickers are set: with no boat selected it makes no request and does not
    read the pickers; with boats selected and either picker empty its one
    request carries the boats alone, whatever the other picker holds. *)
Theorem refreshTracks_needs_both_pickers {host : Host} :
  forall this w,
    let sel := AppState.getSelectedBoats (UIController.state this) in
    (sel = [] -> UIController.refreshTracks this w = (w, Normal tt))
    /\ (sel <> [] -> windowStart w = "" \/ windowEnd w = "" ->
        exists fx c,
          UIController.refreshTracks this w = (after w fx, c)
          /\ requests fx
             = [(ApiClient.baseUrl (UIController.api this) ++ "/tracks",
                 boats_query sel)]).
Proof.
  intros this w sel. unfold UIController.refreshTracks. fold sel. split.
  - intros ->. reflexivity.
  - intros Hs He. destruct sel as [|b sel'] eqn:Es; [contradiction|].
    run. rewrite (window_empty w He).
    cbn [UIController.startIso UIController.endIso truthy].
    unfold ApiClient.getTracks, ApiClient.getTracks_search.
    cbn [boats t0 t1 downsample truthy]. rewrite append_boats_spec.
    cbn [List.app]. unfold ApiClient.request. run.
    destruct (GET_tracks (boats_query (b :: sel'))) as [tracks|d|].
    + exists [Fetch (ApiClient.baseUrl (UIController.api this) ++ "/tracks")
                (boats_query (b :: sel')); UpdateTracks tracks], (Normal tt).
      unfold after. run. cbn [requests]. now rewrite <- List.app_assoc.
    + eexists [_], _. unfold after. run. split; reflexivity.
    + eexists [_], _. unfold after. run. split; reflexivity.
Qed.

Lemma refreshTracks_needs_both_pickers_witness :
  AppState.getSelectedBoats Sample.state <> []
  /\ exists fx c,
       UIController.refreshTracks (host := Sample.host) Sample.ui
         {| windowStart := "2024-06-01T12:00"; windowEnd := "";
            statsTableBody := []; trace := [] |}
       = (after {| windowStart := "2024-06-01T12:00"; windowEnd := "";
                   statsTableBody := []; trace := [] |} fx, c)
       /\ requests fx
          = [("/api/tracks", [("boats", "7"); ("boats", "3"); ("boats", "5")])].
Proof.
  split; [discriminate|].
  exact (proj2 (refreshTracks_needs_both_pickers (host := Sample.host)
                  Sample.ui
                  {| windowStart := "2024-06-01T12:00"; windowEnd := "";
                     statsTableBody := []; trace := [] |})
           ltac:(discriminate) (or_intror eq_refl)).
Defined.

(** X11.  The earlier [refreshTracks] sends each end of the window on its
    own: with boats selected, a start picker that holds a date and an empty
    end picker give a request with the boats and t0 only, and the other way
    round t1 only; with both empty the boats alone.  With no boat selected
    there is no request. *)
Theorem legacy_refreshTracks_either_picker {host : Host} :
  forall this w,
    let sel := Legacy.selectedBoats this in
    let url := Legacy.API_BASE this ++ "/tracks" in
    (sel = [] -> Legacy.refreshTracks this w = (w, Normal tt))
    /\ (forall ts,
          sel <> [] -> parseable (windowStart w) ts -> windowEnd w = "" ->
          exists fx c,
            Legacy.refreshTracks this w = (after w fx, c)
            /\ requests fx
               = [(url, (boats_query sel ++ [("t0", iso_string ts)])%list)])
    /\ (forall te,
          sel <> [] -> windowStart w = "" -> parseable (windowEnd w) te ->
          exists fx c,
            Legacy.refreshTracks this w = (after w fx, c)
            /\ requests fx
               = [(url, (boats_query sel ++ [("t1", iso_string te)])%list)])
    /\ (sel <> [] -> windowStart w = "" -> windowEnd w = "" ->
        exists fx c,
          Legacy.refreshTracks this w = (after w fx, c)
          /\ requests fx = [(url, boats_query sel)]).
Proof.
  intros this w sel url.
  unfold Legacy.refreshTracks, Legacy.boats_params, JSSet.to_array.
  rewrite size_zero. fold sel. fold url. split; [|split; [|split]].
  - intros ->. reflexivity.
  - intros ts Hs Hp He. destruct sel as [|b sel'] eqn:Es; [contradiction|].
    rewrite append_boats_spec. cbn [List.app].
    unfold bind at 1 2 3 4. unfold read at 1 2.
    rewrite (truthy_nonempty _ (proj1 Hp)), He.
    cbn [truthy String.eqb negb]. unfold bind at 1, lift, ret.
    rewrite (parseable_iso _ _ Hp). unfold URLSearchParams.append.
    cbn [ToString]. apply tracks_run.
  - intros te Hs Hp He. destruct sel as [|b sel'] eqn:Es; [contradiction|].
    rewrite append_boats_spec. cbn [List.app].
    unfold bind at 1 2 3 4. unfold read at 1 2.
    rewrite (truthy_nonempty _ (proj1 He)), Hp.
    cbn [truthy String.eqb negb]. unfold bind at 1, lift, ret.
    rewrite (parseable_iso _ _ He). unfold URLSearchParams.append.
    cbn [ToString]. apply tracks_run.
  - intros Hs Hp He. destruct sel as [|b sel'] eqn:Es; [contradiction|].
    rewrite append_boats_spec. cbn [List.app].
    unfold bind at 1 2 3 4. unfold read at 1 2. rewrite Hp, He.
    cbn [truthy String.eqb negb]. unfold ret. apply tracks_run.
Qed.

Lemma legacy_refreshTracks_either_picker_witness :
  Legacy.selectedBoats Sample.legacy <> []
  /\ parseable (host := Sample.host) "2024-06-01T12:00" 1717236000000
  /\ iso_string 1717236000000 = "2024-06-01T10:00:00.000Z"
  /\ exists fx c,
       Legacy.refreshTracks (host := Sample.host) Sample.legacy
         {| windowStart := "2024-06-01T12:00"; windowEnd := "";
            statsTableBody := []; trace := [] |}
       = (after {| windowStart := "2024-06-01T12:00"; windowEnd := "";
                   statsTableBody := []; trace := [] |} fx, c)
       /\ requests fx
          = [(Legacy.API_BASE Sample.legacy ++ "/tracks",
              (boats_query (host := Sample.host)
                 (Legacy.selectedBoats Sample.legacy)
               ++ [("t0", iso_string 1717236000000)])%list)].
Proof.
  assert (Hp : parseable (host := Sample.host) "2024-06-01T12:00"
                 1717236000000)
    by (split; [discriminate | vm_compute; reflexivity]).
  split; [discriminate|]. split; [exact Hp|].
  split; [vm_compute; reflexivity|].
  exact (proj1 (proj2 (legacy_refreshTracks_either_picker
                         (host := Sample.host) Sample.legacy
                         {| windowStart := "2024-06-01T12:00";
                            windowEnd := "";
                            statsTableBody := []; trace := [] |}))
           1717236000000 ltac:(discriminate) Hp eq_refl).
Defined.

(* ===================================================================== *)
(** ** Filling the pickers *)
(* ===================================================================== *)

Section Filling.
Context {host : Host}.

Lemma truncate_inject z : truncate (inject_Z z) = z.
Proof. unfold truncate, inject_Z. cbn [Qnum Qden]. apply Z.quot_1_r. Qed.

Lemma later_valid t ms :
  Z.abs (t + ms) <= maxTime -> later t ms = Some (t + ms).
Proof.
  intros H. unfold later, TimeClip.
  assert (B : Qle_bool (Qabs (inject_Z (t + ms))) (inject_Z maxTime) = true).
  { apply Qle_bool_iff. apply Qabs_Qle_condition.
    rewrite <- inject_Z_opp, <- !Zle_Qle. lia. }
  now rewrite B, truncate_inject.
Qed.

Lemma later_invalid t ms :
  maxTime < Z.abs (t + ms) -> later t ms = None.
Proof.
  intros H. unfold later, TimeClip.
  destruct (Qle_bool (Qabs (inject_Z (t + ms))) (inject_Z maxTime)) eqn:B;
    [|reflexivity].
  apply Qle_bool_iff in B. apply Qabs_Qle_condition in B.
  rewrite <- inject_Z_opp, <- !Zle_Qle in B. lia.
Qed.

Lemma format_iso t :
  Z.abs t <= maxTime -> reads_back t ->
  formatDateTimeLocal (VString (iso_string t)) = local_minute t.
Proof.
  intros Hv Hr. unfold formatDateTimeLocal.
  rewrite truthy_iso_string. cbn [negb new_Date]. rewrite Hr.
  destruct (Z.leb_spec (Z.abs t) maxTime); [reflexivity | lia].
Qed.

Lemma new_Date_valid v t : new_Date v = Some t -> Z.abs t <= maxTime.
Proof.
  destruct v as [| |[|]|n|s]; cbn [new_Date]; intros H;
    try discriminate; try (injection H as <-; unfold maxTime; lia).
  - unfold TimeClip in H. destruct n as [| |q]; try discriminate.
    destruct (Qle_bool (Qabs q) (inject_Z maxTime)) eqn:B; [|discriminate].
    injection H as <-. apply Qle_bool_iff in B.
    apply Qabs_Qle_condition in B. destruct B as [B1 B2].
    destruct q as [n d]. unfold truncate, Qle, inject_Z in *.
    cbn [Qnum Qden Qopp] in *. unfold maxTime in *.
    assert (Hd : 0 < Z.pos d) by lia.
    destruct (Z.le_ge_cases 0 n) as [Hn|Hn].
    + rewrite Z.quot_div_nonneg by lia.
      pose proof (Z.div_le_upper_bound n (Z.pos d) 8640000000000000 Hd).
      pose proof (Z.div_pos n (Z.pos d) Hn Hd). lia.
    + replace n with (- (- n)) by lia. rewrite Z.quot_opp_l by lia.
      rewrite Z.quot_div_nonneg by lia.
      pose proof (Z.div_le_upper_bound (- n) (Z.pos d) 8640000000000000 Hd).
      pose proof (Z.div_pos (- n) (Z.pos d) ltac:(lia) Hd). lia.
  - destruct (Date_parse s) as [u|]; [|discriminate].
    destruct (Z.leb_spec (Z.abs u) maxTime); [|discriminate].
    now injection H as <-.
Qed.

End Filling.

(** X12.  [prefillWindow] sets the two pickers to the start of the race
    and to five minutes later, both as local date and time to the minute,
    and [initWindowDefaults] to now and ten minutes later, on a host whose
    [Date.parse] reads the two ISO strings back.  A race id that no loaded
    race has leaves the pickers alone; a race whose start time is no date
    makes [prefillWindow] fail with a RangeError before it writes
    anything; a start within five minutes of the last representable
    instant writes the start picker and then fails. *)
Theorem prefillWindow_sets_window {host : Host} :
  forall this raceId w,
    (AppState.getRaceById (UIController.state this) raceId = None ->
     prefillWindow this raceId w = (w, Normal tt))
    /\ (forall race,
          AppState.getRaceById (UIController.state this) raceId = Some race ->
          new_Date (Race.start_time race) = None ->
          prefillWindow this raceId w = (w, Throw RangeError))
    /\ (forall race t,
          AppState.getRaceById (UIController.state this) raceId = Some race ->
          new_Date (Race.start_time race) = Some t ->
          reads_back t ->
          (t + 300000 <= maxTime -> reads_back (t + 300000) ->
           prefillWindow this raceId w
           = ({| windowStart := local_minute t;
                 windowEnd := local_minute (t + 300000);
                 statsTableBody := statsTableBody w; trace := trace w |},
              Normal tt))
          /\ (maxTime < t + 300000 ->
              prefillWindow this raceId w
              = ({| windowStart := local_minute t;
                    windowEnd := windowEnd w;
                    statsTableBody := statsTableBody w; trace := trace w |},
                 Throw RangeError)))
    /\ (forall now,
          Z.abs now <= maxTime -> now + 600000 <= maxTime ->
          reads_back now -> reads_back (now + 600000) ->
          initWindowDefaults now w
          = ({| windowStart := local_minute now;
                windowEnd := local_minute (now + 600000);
                statsTableBody := statsTableBody w; trace := trace w |},
             Normal tt)).
Proof.
  intros this raceId w. unfold prefillWindow, initWindowDefaults.
  split; [|split; [|split]].
  - intros ->. reflexivity.
  - intros race -> ->. unfold fill. run. cbn [toISOString]. reflexivity.
  - intros race t -> Hd Hr. rewrite Hd.
    pose proof (new_Date_valid (Race.start_time race) t Hd) as Hv.
    unfold fill. run. cbn [toISOString]. rewrite (format_iso t Hv Hr).
    split.
    + intros Hm Hr'. rewrite (later_valid t (5 * 60 * 1000)) by lia.
      cbn [toISOString]. run.
      replace (t + 5 * 60 * 1000) with (t + 300000) by lia.
      rewrite (format_iso (t + 300000)) by (assumption || lia).
      reflexivity.
    + intros Hm. rewrite (later_invalid t (5 * 60 * 1000)) by lia.
      reflexivity.
  - intros now Hv Hm Hr Hr'. unfold fill. run. cbn [toISOString].
    rewrite (format_iso now Hv Hr).
    rewrite (later_valid now (10 * 60 * 1000)) by lia.
    cbn [toISOString]. run.
    replace (now + 10 * 60 * 1000) with (now + 600000) by lia.
    rewrite (format_iso (now + 600000)) by (assumption || lia).
    reflexivity.
Qed.


Lemma prefillWindow_sets_window_witness :
  AppState.getRaceById
    (fst (AppState.setRaces Sample.state
            [{| Race.id := num 1; Race.name := VString "Opening race";
                Race.start_time := VString "2024-06-01T10:00:00.000Z" |}]))
    (num 1)
  = Some {| Race.id := num 1; Race.name := VString "Opening race";
            Race.start_time := VString "2024-06-01T10:00:00.000Z" |}
  /\ new_Date (host := Sample.host) (VString "2024-06-01T10:00:00.000Z")
     = Some 1717236000000
  /\ reads_back (host := Sample.host) 1717236000000
  /\ reads_back (host := Sample.host) (1717236000000 + 300000)
  /\ prefillWindow (host := Sample.host)
       {| UIController.api := {| ApiClient.baseUrl := "/api" |};
          UIController.state :=
            fst (AppState.setRaces Sample.state
                   [{| Race.id := num 1; Race.name := VString "Opening race";
                       Race.start_time :=
                         VString "2024-06-01T10:00:00.000Z" |}]) |}
       (num 1) Sample.page0
     = ({| windowStart := local_minute (host := Sample.host) 1717236000000;
           windowEnd :=
             local_minute (host := Sample.host) (1717236000000 + 300000);
           statsTableBody := statsTableBody Sample.page0;
           trace := trace Sample.page0 |}, Normal tt)
  /\ local_minute (host := Sample.host) 1717236000000 = "2024-06-01T12:00"
  /\ local_minute (host := Sample.host) (1717236000000 + 300000)
     = "2024-06-01T12:05".
Proof.
  assert (G : AppState.getRaceById
                (fst (AppState.setRaces Sample.state
                        [{| Race.id := num 1;
                            Race.name := VString "Opening race";
                            Race.start_time :=
                              VString "2024-06-01T10:00:00.000Z" |}]))
                (num 1)
              = Some {| Race.id := num 1; Race.name := VString "Opening race";
                        Race.start_time :=
                          VString "2024-06-01T10:00:00.000Z" |})
    by (vm_compute; reflexivity).
  assert (D : new_Date (host := Sample.host)
                (VString "2024-06-01T10:00:00.000Z") = Some 1717236000000)
    by (vm_compute; reflexivity).
  assert (R1 : reads_back (host := Sample.host) 1717236000000)
    by (vm_compute; reflexivity).
  assert (R2 : reads_back (host := Sample.host) (1717236000000 + 300000))
    by (vm_compute; reflexivity).
  split; [exact G|]. split; [exact D|]. split; [exact R1|].
  split; [exact R2|]. split; [|split; vm_compute; reflexivity].
  refine (proj1 (proj1 (proj2 (proj2
            (prefillWindow_sets_window (host := Sample.host)
               {| UIController.api := {| ApiClient.baseUrl := "/api" |};
                  UIController.state :=
                    fst (AppState.setRaces Sample.state
                           [{| Race.id := num 1;
                               Race.name := VString "Opening race";
                               Race.start_time :=
                                 VString "2024-06-01T10:00:00.000Z" |}]) |}
               (num 1) Sample.page0)))
            {| Race.id := num 1; Race.name := VString "Opening race";
               Race.start_time := VString "2024-06-01T10:00:00.000Z" |}
            1717236000000 G D R1) _ R2).
  unfold maxTime. lia.
Defined.

(** X13.  The [formatDateTimeLocal] of the earlier client lacks the test
    for an invalid date: for a value that is truthy and no date (any text
    [Date.parse] rejects) it returns NaN-NaN-NaNTNaN:NaN where the one of
    [utils.js] returns the empty string; for every other value the two
    return the same string. *)
Theorem legacy_formatDateTimeLocal_invalid {host : Host} :
  forall value,
    (truthy value = true -> new_Date value = None ->
     Main.formatDateTimeLocal value = "NaN-NaN-NaNTNaN:NaN"
     /\ formatDateTimeLocal value = "")
    /\ (truthy value = false \/ new_Date value <> None ->
        Main.formatDateTimeLocal value = formatDateTimeLocal value).
Proof.
  intros value. unfold Main.formatDateTimeLocal, formatDateTimeLocal. split.
  - intros -> ->. split; reflexivity.
  - intros [->|H]; [reflexivity|].
    destruct (negb (truthy value)); [reflexivity|].
    destruct (new_Date value); [reflexivity | contradiction].
Qed.

Lemma legacy_formatDateTimeLocal_invalid_witness :
  truthy (VString "tomorrow") = true
  /\ new_Date (host := Sample.host) (VString "tomorrow") = None
  /\ Main.formatDateTimeLocal (host := Sample.host) (VString "tomorrow")
     = "NaN-NaN-NaNTNaN:NaN"
  /\ formatDateTimeLocal (host := Sample.host) (VString "tomorrow") = "".
Proof.
  split; [reflexivity|]. split; [reflexivity|].
  exact (proj1 (legacy_formatDateTimeLocal_invalid (host := Sample.host)
                  (VString "tomorrow")) eq_refl eq_refl).
Defined.

(* ===================================================================== *)
(** ** The map view *)
(* ===================================================================== *)

Section Maps.
Variable V : Type.
Implicit Types (m : ValueMap.t V) (k : value).
Local Open Scope list_scope.

Lemma keys_delete m k :
  ValueMap.keys (ValueMap.delete m k) = JSSet.delete (ValueMap.keys m) k.
Proof.
  unfold ValueMap.keys, ValueMap.delete, JSSet.delete.
  induction m as [|[k' v] m IH]; [reflexivity|].
  cbn [filter map fst]. destruct (same_value_zero k k'); cbn [negb map fst];
    now rewrite IH.
Qed.

Lemma get_absent m k :
  ValueMap.get m k = None <-> JSSet.has (ValueMap.keys m) k = false.
Proof.
  unfold ValueMap.get, ValueMap.keys, JSSet.has.
  induction m as [|[k' v] m IH]; [split; reflexivity|].
  cbn [find map fst existsb]. destruct (same_value_zero k k'); cbn [orb].
  - split; discriminate.
  - exact IH.
Qed.

Lemma get_In m k v : ValueMap.get m k = Some v -> In v (map snd m).
Proof.
  unfold ValueMap.get. induction m as [|[k' v'] m IH]; [discriminate|].
  cbn [find map fst snd]. destruct (same_value_zero k k').
  - intros H. injection H as <-. now left.
  - intros H. right. now apply IH.
Qed.

Lemma delete_unknown m k :
  JSSet.has (ValueMap.keys m) k = false -> ValueMap.delete m k = m.
Proof.
  unfold ValueMap.delete, ValueMap.keys, JSSet.has.
  induction m as [|[k' v] m IH]; [reflexivity|].
  cbn [filter map fst existsb]. intros H.
  apply orb_false_iff in H as [H1 H2]. rewrite H1. cbn [negb].
  now rewrite IH.
Qed.

Lemma get_delete_same m k : ValueMap.get (ValueMap.delete m k) k = None.
Proof.
  apply get_absent. rewrite keys_delete. apply has_delete.
Qed.

Lemma get_delete_other m k k' :
  same_value_zero k' k = false ->
  ValueMap.get (ValueMap.delete m k') k = ValueMap.get m k.
Proof.
  intros H. unfold ValueMap.get, ValueMap.delete.
  induction m as [|[k1 v] m IH]; [reflexivity|].
  cbn [filter find fst]. destruct (same_value_zero k' k1) eqn:E1;
    cbn [negb find fst].
  - destruct (same_value_zero k k1) eqn:E; [|exact IH].
    rewrite (same_value_zero_congr k' k1 k E1) in H.
    rewrite same_value_zero_sym in H. congruence.
  - destruct (same_value_zero k k1); [reflexivity | exact IH].
Qed.

Lemma set_absent m k v :
  JSSet.has (ValueMap.keys m) k = false -> ValueMap.set m k v = m ++ [(k, v)].
Proof.
  unfold ValueMap.keys, JSSet.has.
  induction m as [|[k' v'] m IH]; [reflexivity|].
  cbn [map fst existsb ValueMap.set]. intros H.
  apply orb_false_iff in H as [H1 H2]. rewrite H1.
  rewrite <- app_comm_cons. now rewrite IH.
Qed.

Lemma get_snoc m k v k' :
  ValueMap.get (m ++ [(k, v)]) k'
  = match ValueMap.get m k' with
    | Some x => Some x
    | None => if same_value_zero k' k then Some v else None
    end.
Proof.
  unfold ValueMap.get. induction m as [|[k1 v1] m IH].
  - cbn [List.app find fst snd]. now destruct (same_value_zero k' k).
  - rewrite <- app_comm_cons. cbn [find fst].
    destruct (same_value_zero k' k1); [reflexivity | exact IH].
Qed.

Lemma filter_keys_includes m (active : list value) k :
  ValueMap.get (filter (fun e => includes active (fst e)) m) k
  = if includes active k then ValueMap.get m k else None.
Proof.
  unfold ValueMap.get. induction m as [|[k1 v1] m IH].
  - now destruct (includes active k).
  - cbn [filter find fst].
    destruct (includes active k1) eqn:A; cbn [find fst].
    + destruct (same_value_zero k k1) eqn:E; [|exact IH].
      unfold includes in *.
      fold (JSSet.has active k). fold (JSSet.has active k1) in A.
      now rewrite (has_congr active k k1 E), A.
    + destruct (same_value_zero k k1) eqn:E; [|exact IH].
      unfold includes in *.
      fold (JSSet.has active k). fold (JSSet.has active k1) in A.
      rewrite (has_congr active k k1 E), A.
      rewrite IH. fold (JSSet.has active k).
      now rewrite (has_congr active k k1 E), A.
Qed.

End Maps.

Section Layers.
Import MapView.
Local Open Scope list_scope.

Lemma get_congr {V : Type} (m : ValueMap.t V) k k' :
  same_value_zero k k' = true -> ValueMap.get m k = ValueMap.get m k'.
Proof.
  intros H. unfold ValueMap.get. induction m as [|[k1 v] m IH];
    [reflexivity|].
  cbn [find fst]. rewrite (same_value_zero_congr k k' k1 H).
  destruct (same_value_zero k' k1); [reflexivity | exact IH].
Qed.

Lemma get_entry {V : Type} (m : ValueMap.t V) k v :
  ValueMap.get m k = Some v ->
  exists k', In (k', v) m /\ same_value_zero k k' = true.
Proof.
  unfold ValueMap.get.
  destruct (find (fun e => same_value_zero k (fst e)) m) as [[k' v']|] eqn:F;
    [|discriminate].
  intros H. injection H as ->. apply find_some in F as [Hin Hk].
  now exists k'.
Qed.

Lemma filter_all {A : Type} (p : A -> bool) (l : list A) :
  (forall x, In x l -> p x = true) -> filter p l = l.
Proof.
  induction l as [|a l IH]; intros H; [reflexivity|].
  cbn [filter]. rewrite (H a (or_introl eq_refl)). f_equal. apply IH.
  intros x Hx. apply H. now right.
Qed.

(** Where no two elements have the same image, elements with the same
    image are the same. *)
Lemma NoDup_map_eq {A B : Type} (f : A -> B) (l : list A) a b :
  NoDup (map f l) -> In a l -> In b l -> f a = f b -> a = b.
Proof.
  induction l as [|x l IH]; intros N Ha Hb E; [destruct Ha|].
  cbn [map] in N. inversion N as [|y r Hy Hr]; subst.
  destruct Ha as [<-|Ha], Hb as [<-|Hb].
  - reflexivity.
  - exfalso. apply Hy. rewrite E. now apply in_map.
  - exfalso. apply Hy. rewrite <- E. now apply in_map.
  - now apply IH.
Qed.

Lemma NoDup_filter_map {A B : Type} (f : A -> B) (p : A -> bool) l :
  NoDup (map f l) -> NoDup (map f (filter p l)).
Proof.
  induction l as [|a l IH]; intros N; [constructor|].
  cbn [map filter] in *. inversion N as [|y r Hy Hr]; subst.
  destruct (p a); [|now apply IH]. cbn [map]. constructor; [|now apply IH].
  intros Hin. apply Hy. apply in_map_iff in Hin as (x & Ex & Hx).
  apply filter_In in Hx as [Hx _]. apply in_map_iff. now exists x.
Qed.

Lemma map_snd_delete {V : Type} (m : ValueMap.t V) k v :
  In v (map snd (ValueMap.delete m k)) ->
  exists k', In (k', v) m /\ same_value_zero k k' = false.
Proof.
  intros H. apply in_map_iff in H as ([k' v'] & E & H). cbn [snd] in E.
  subst v'. unfold ValueMap.delete in H. apply filter_In in H as [H1 H2].
  cbn [fst] in H2. apply negb_true_iff in H2. now exists k'.
Qed.

Lemma remove_matches (m : ValueMap.t polyline) k l :
  distinct (ValueMap.keys m) = true ->
  NoDup (map ident (map snd m)) ->
  ValueMap.get m k = Some l ->
  filter (fun x => negb (ident x =? ident l)%nat) (map snd m)
  = map snd (ValueMap.delete m k).
Proof.
  induction m as [|[k1 p1] m IH]; intros D N G; [discriminate|].
  unfold ValueMap.keys in D. cbn [map fst snd distinct] in *.
  apply andb_true_iff in D as [D1 D2]. apply negb_true_iff in D1.
  inversion N as [|i r Hi Hr]; subst.
  unfold ValueMap.get in G. cbn [find fst] in G.
  unfold ValueMap.delete. cbn [filter fst].
  destruct (same_value_zero k k1) eqn:E.
  - cbn [snd] in G. injection G as <-. rewrite Nat.eqb_refl. cbn [negb].
    fold (ValueMap.delete m k). rewrite delete_unknown.
    + apply filter_all. intros x Hx. apply negb_true_iff.
      apply Nat.eqb_neq. intros Heq. apply Hi. rewrite <- Heq.
      now apply in_map.
    + now rewrite (has_congr _ k k1 E).
  - fold (ValueMap.get m k) in G. cbn [negb map snd].
    assert (Hne : (ident p1 =? ident l)%nat = false).
    { apply Nat.eqb_neq. intros Heq. apply Hi. rewrite Heq.
      apply in_map. exact (get_In _ m k l G). }
    rewrite Hne. cbn [negb]. f_equal. now apply IH.
Qed.

(** A polyline of another entry than the one of [k] is another object
    than the polyline of [k]. *)
Lemma other_entry (m : ValueMap.t polyline) k l k' p :
  NoDup (map ident (map snd m)) ->
  ValueMap.get m k = Some l ->
  In (k', p) m -> same_value_zero k k' = false ->
  ident p <> ident l.
Proof.
  intros N G Hin Hk E.
  destruct (get_entry m k l G) as (k1 & Hin1 & Hk1).
  rewrite map_map in N.
  assert (Q : (k', p) = (k1, l)).
  { apply (NoDup_map_eq (fun e => ident (snd e)) m); assumption. }
  injection Q as -> ->. congruence.
Qed.

(** Taking the layer of a boat off the map and out of [layers]. *)
Lemma forget_consistent this k l :
  consistent this -> ValueMap.get (layers this) k = Some l ->
  consistent (delete_layer (removeLayer this l) k).
Proof.
  intros (N & F & D & NL & I) G. unfold consistent, delete_layer, removeLayer.
  cbn [layers on_map created]. repeat split.
  - revert N. generalize (on_map this). intros o N.
    now apply NoDup_filter_map.
  - apply Forall_forall. intros x Hx. apply filter_In in Hx as [Hx _].
    revert x Hx. now apply Forall_forall.
  - rewrite keys_delete. now apply distinct_delete.
  - unfold ValueMap.delete. rewrite map_map in *.
    now apply (NoDup_filter_map (fun e => ident (snd e))).
  - intros p Hp. destruct (map_snd_delete _ k p Hp) as (k' & Hin & Hk).
    apply filter_In. split.
    + apply I. apply in_map_iff. now exists (k', p).
    + apply negb_true_iff. apply Nat.eqb_neq.
      exact (other_entry (layers this) k l k' p NL G Hin Hk).
Qed.

Lemma forget_tidy this k l :
  consistent this -> tidy this -> ValueMap.get (layers this) k = Some l ->
  tidy (delete_layer (removeLayer this l) k).
Proof.
  intros (N & F & D & NL & I) T G. unfold tidy, delete_layer, removeLayer in *.
  cbn [layers on_map]. rewrite T. now apply remove_matches.
Qed.

Lemma absent_delete this k :
  ValueMap.get (layers this) k = None -> delete_layer this k = this.
Proof.
  intros G. unfold delete_layer.
  rewrite delete_unknown by now apply get_absent. now destruct this.
Qed.

Lemma forgotten_consistent this k :
  consistent this -> consistent (forgotten this k).
Proof.
  intros C. unfold forgotten.
  destruct (ValueMap.get (layers this) k) as [l|] eqn:G; [|exact C].
  now apply forget_consistent.
Qed.

Lemma forgotten_tidy this k :
  consistent this -> tidy this -> tidy (forgotten this k).
Proof.
  intros C T. unfold forgotten.
  destruct (ValueMap.get (layers this) k) as [l|] eqn:G; [|exact T].
  now apply forget_tidy.
Qed.

Lemma forgotten_layers this k :
  layers (forgotten this k) = ValueMap.delete (layers this) k.
Proof.
  unfold forgotten.
  destruct (ValueMap.get (layers this) k) as [l|] eqn:G; [reflexivity|].
  symmetry. apply delete_unknown. now apply get_absent.
Qed.

Lemma forgotten_absent this k :
  ValueMap.get (layers (forgotten this k)) k = None.
Proof. rewrite forgotten_layers. apply get_delete_same. Qed.

Lemma forgotten_created this k : created (forgotten this k) = created this.
Proof.
  unfold forgotten. now destruct (ValueMap.get (layers this) k).
Qed.

Lemma forgotten_fits this k : fits (forgotten this k) = fits this.
Proof.
  unfold forgotten. now destruct (ValueMap.get (layers this) k).
Qed.

(** What [forgotten] takes off the map is the polyline of [k]. *)
Lemma forgotten_on_map this k p :
  consistent this ->
  (In p (on_map (forgotten this k))
   <-> In p (on_map this) /\ ValueMap.get (layers this) k <> Some p).
Proof.
  intros (N & F & D & NL & I). unfold forgotten.
  destruct (ValueMap.get (layers this) k) as [l|] eqn:G.
  - cbn [delete_layer removeLayer on_map].
    assert (Hl : In l (on_map this)).
    { apply I. exact (get_In _ _ k l G). }
    rewrite filter_In, negb_true_iff, Nat.eqb_neq. split.
    + intros [Hp Hne]. split; [assumption|]. intros Q. injection Q as ->.
      now apply Hne.
    + intros [Hp Hne]. split; [assumption|]. intros E. apply Hne.
      f_equal. symmetry.
      exact (NoDup_map_eq ident (on_map this) p l N Hp Hl E).
  - split; [intros Hp; split; [assumption | discriminate] | now intros [Hp _]].
Qed.

Lemma clear_step this k :
  delete_layer (match ValueMap.get (layers this) k with
                | Some layer => removeLayer this layer
                | None => this
                end) k
  = forgotten this k.
Proof.
  unfold forgotten.
  destruct (ValueMap.get (layers this) k) as [l|] eqn:G; [reflexivity|].
  now apply absent_delete.
Qed.

Lemma fresh_ident this :
  consistent this ->
  ~ In (created this) (map ident (on_map this)).
Proof.
  intros (N & F & _) Hi. apply in_map_iff in Hi as (p & Ep & Hp).
  rewrite Forall_forall in F. specialize (F p Hp). lia.
Qed.

Lemma placed_consistent this boat track :
  consistent this -> consistent (placed this boat track).
Proof.
  intros C. pose proof (fresh_ident this C) as Fr.
  destruct C as (N & F & D & NL & I). unfold consistent, placed.
  cbn [layers on_map created]. repeat split; try assumption.
  - rewrite map_app. cbn [map polyline_of ident].
    apply NoDup_app; [assumption | repeat constructor; intros [] |].
    intros i Hi [<-|[]]. now apply Fr.
  - apply Forall_app. split.
    + eapply Forall_impl; [|exact F]. cbn beta. intros p Hp. lia.
    + constructor; [cbn [polyline_of ident]; lia | constructor].
  - intros p Hp. apply in_or_app. left. now apply I.
Qed.

(** The polyline the map has taken is in no entry of [layers]. *)
Lemma placed_stray this boat track :
  consistent this ->
  In (polyline_of this boat track) (on_map (placed this boat track))
  /\ forall k,
       ValueMap.get (layers (placed this boat track)) k
       <> Some (polyline_of this boat track).
Proof.
  intros C. pose proof (fresh_ident this C) as Fr.
  destruct C as (N & F & D & NL & I). split.
  - unfold placed. cbn [on_map]. apply in_or_app. right. now left.
  - intros k G. unfold placed in G. cbn [layers] in G.
    apply get_In in G. apply I in G. apply Fr.
    apply in_map_iff. now exists (polyline_of this boat track).
Qed.

Lemma with_track_consistent this boat track :
  consistent this ->
  ValueMap.get (layers this) (Track.boat_id track) = None ->
  consistent (with_track this boat track).
Proof.
  intros C G. pose proof (fresh_ident this C) as Fr.
  destruct C as (N & F & D & NL & I). unfold consistent, with_track.
  cbn [layers on_map created]. repeat split.
  - rewrite map_app. cbn [map polyline_of ident].
    apply NoDup_app; [assumption | repeat constructor; intros [] |].
    intros i Hi [<-|[]]. now apply Fr.
  - apply Forall_app. split.
    + eapply Forall_impl; [|exact F]. cbn beta. intros p Hp. lia.
    + constructor; [cbn [polyline_of ident]; lia | constructor].
  - unfold ValueMap.keys in *. rewrite map_app. cbn [map fst].
    apply distinct_app_one; [assumption|]. now apply get_absent.
  - rewrite !map_app. cbn [map snd polyline_of ident].
    apply NoDup_app; [assumption | repeat constructor; intros [] |].
    intros i Hi [<-|[]]. apply Fr.
    apply in_map_iff in Hi as (p & Ep & Hp). apply in_map_iff.
    exists p. split; [assumption | now apply I].
  - rewrite map_app. cbn [map snd]. intros p Hp.
    apply in_app_or in Hp as [Hp|Hp]; apply in_or_app;
      [left; now apply I | now right].
Qed.

Lemma with_track_tidy this boat track :
  tidy this -> tidy (with_track this boat track).
Proof.
  unfold tidy, with_track. cbn [layers on_map]. intros ->.
  now rewrite map_app.
Qed.

Section Drawing.
Context {leaflet : Leaflet}.

Lemma draw_spec boatLookup this b track :
  draw boatLookup (this, b) track
  = let f := forgotten this (Track.boat_id track) in
    match coordinates track with
    | [] => ((f, b), Normal tt)
    | _ :: _ =>
        match polyline_error (coordinates track) with
        | Some e => ((f, b), Throw e)
        | None =>
            match addTo_error (coordinates track) with
            | Some e =>
                ((placed f (boatLookup (Track.boat_id track)) track, b),
                 Throw e)
            | None =>
                ((with_track f (boatLookup (Track.boat_id track)) track,
                  Some (match b with
                        | Some x => x ++ coordinates track
                        | None => coordinates track
                        end)), Normal tt)
            end
        end
    end.
Proof.
  unfold draw. fold (coordinates track).
  fold (forgotten this (Track.boat_id track)). cbn zeta.
  destruct (coordinates track) as [|ll lls] eqn:Ec; [reflexivity|].
  destruct (polyline_error (ll :: lls)); [reflexivity|].
  destruct (addTo_error (ll :: lls)).
  - unfold placed, polyline_of, track_color. now rewrite Ec.
  - unfold with_track, polyline_of, track_color. rewrite Ec.
    cbn [layers on_map created fits].
    rewrite set_absent
      by (apply get_absent; apply forgotten_absent).
    reflexivity.
Qed.

Lemma draw_consistent boatLookup this b track :
  consistent this ->
  consistent (fst (fst (draw boatLookup (this, b) track))).
Proof.
  intros C. rewrite draw_spec. cbn zeta.
  pose proof (forgotten_consistent this (Track.boat_id track) C) as Cf.
  destruct (coordinates track); [exact Cf|].
  destruct (polyline_error _); [exact Cf|].
  destruct (addTo_error _); cbn [fst].
  - now apply placed_consistent.
  - apply with_track_consistent; [exact Cf | apply forgotten_absent].
Qed.

Lemma draw_tidy boatLookup this b track this' b' :
  consistent this -> tidy this ->
  draw boatLookup (this, b) track = ((this', b'), Normal tt) ->
  tidy this'.
Proof.
  intros C T. rewrite draw_spec. cbn zeta.
  pose proof (forgotten_tidy this (Track.boat_id track) C T) as Tf.
  destruct (coordinates track); [intros H; now injection H as <- _|].
  destruct (polyline_error _); [discriminate|].
  destruct (addTo_error _); [discriminate|].
  intros H. injection H as <- _. now apply with_track_tidy.
Qed.

Lemma each_app {S A : Type} (f : S -> A -> S * completion unit) l1 l2 :
  forall s,
    each f s (l1 ++ l2)
    = match each f s l1 with
      | (s', Normal _) => each f s' l2
      | (s', Throw e) => (s', Throw e)
      end.
Proof.
  induction l1 as [|a l1 IH]; intros s; [reflexivity|].
  rewrite <- app_comm_cons. cbn [each].
  destruct (f s a) as [s' [u|e]]; [apply IH | reflexivity].
Qed.

Lemma each_consistent boatLookup tracks :
  forall this b,
    consistent this ->
    consistent (fst (fst (each (draw boatLookup) (this, b) tracks))).
Proof.
  induction tracks as [|track tracks IH]; intros this b C; [exact C|].
  cbn [each]. pose proof (draw_consistent boatLookup this b track C) as Cd.
  destruct (draw boatLookup (this, b) track) as [[this' b'] [u|e]];
    cbn [fst] in Cd; [now apply IH | exact Cd].
Qed.

Lemma each_tidy boatLookup tracks :
  forall this b this' b',
    consistent this -> tidy this ->
    each (draw boatLookup) (this, b) tracks = ((this', b'), Normal tt) ->
    tidy this'.
Proof.
  induction tracks as [|track tracks IH]; intros this b this' b' C T E.
  - cbn [each] in E. now injection E as <- _.
  - cbn [each] in E.
    pose proof (draw_consistent boatLookup this b track C) as Cd.
    destruct (draw boatLookup (this, b) track) as [[this1 b1] [[]|e]] eqn:D;
      [|discriminate].
    cbn [fst] in Cd.
    exact (IH this1 b1 this' b' Cd
             (draw_tidy boatLookup this b track this1 b1 C T D) E).
Qed.

Lemma updateTracks_layers this tracks boatLookup :
  layers (fst (updateTracks this tracks boatLookup))
  = layers (fst (fst (each (draw boatLookup) (this, None) tracks)))
  /\ on_map (fst (updateTracks this tracks boatLookup))
     = on_map (fst (fst (each (draw boatLookup) (this, None) tracks)))
  /\ created (fst (updateTracks this tracks boatLookup))
     = created (fst (fst (each (draw boatLookup) (this, None) tracks))).
Proof.
  unfold updateTracks.
  destruct (each (draw boatLookup) (this, None) tracks)
    as [[this' [b|]] [u|e]]; repeat split.
Qed.

Lemma updateTracks_consistent this tracks boatLookup :
  consistent this -> consistent (fst (updateTracks this tracks boatLookup)).
Proof.
  intros C. pose proof (each_consistent boatLookup tracks this None C) as E.
  destruct (updateTracks_layers this tracks boatLookup) as (L & O & K).
  unfold consistent in *. now rewrite L, O, K.
Qed.

Lemma updateTracks_returned this tracks boatLookup :
  snd (updateTracks this tracks boatLookup) = Normal tt ->
  exists s, each (draw boatLookup) (this, None) tracks = (s, Normal tt).
Proof.
  unfold updateTracks.
  destruct (each (draw boatLookup) (this, None) tracks)
    as [[this' [b|]] [[]|e]]; cbn [snd]; intros H;
    try discriminate; eexists; reflexivity.
Qed.

Lemma updateTracks_tidy this tracks boatLookup :
  consistent this -> tidy this ->
  snd (updateTracks this tracks boatLookup) = Normal tt ->
  tidy (fst (updateTracks this tracks boatLookup)).
Proof.
  intros C T R. destruct (updateTracks_returned _ _ _ R) as ([this' b'] & E).
  destruct (updateTracks_layers this tracks boatLookup) as (L & O & _).
  unfold tidy. rewrite L, O, E. cbn [fst].
  exact (each_tidy boatLookup tracks this None this' b' C T E).
Qed.

End Drawing.

Lemma clear_fold_consistent active ks :
  forall this,
    consistent this ->
    consistent
      (fold_left
         (fun this boatId =>
            if negb (includes active boatId) then
              delete_layer (match ValueMap.get (layers this) boatId with
                            | Some layer => removeLayer this layer
                            | None => this
                            end) boatId
            else this) ks this).
Proof.
  induction ks as [|k ks IH]; intros this C; [exact C|].
  cbn [fold_left]. apply IH.
  destruct (negb (includes active k)); [|exact C].
  rewrite clear_step. now apply forgotten_consistent.
Qed.

Lemma clearMissing_consistent this active :
  consistent this -> consistent (clearMissing this active).
Proof. apply clear_fold_consistent. Qed.

Lemma clear_fold_tidy active ks :
  forall this,
    consistent this -> tidy this ->
    tidy
      (fold_left
         (fun this boatId =>
            if negb (includes active boatId) then
              delete_layer (match ValueMap.get (layers this) boatId with
                            | Some layer => removeLayer this layer
                            | None => this
                            end) boatId
            else this) ks this).
Proof.
  induction ks as [|k ks IH]; intros this C T; [exact T|].
  cbn [fold_left].
  destruct (negb (includes active k)); [|now apply IH].
  rewrite clear_step.
  apply IH; [now apply forgotten_consistent | now apply forgotten_tidy].
Qed.

Lemma clearMissing_tidy this active :
  consistent this -> tidy this -> tidy (clearMissing this active).
Proof. apply clear_fold_tidy. Qed.

Lemma drawn_consistent {leaflet : Leaflet} mv : drawn mv -> consistent mv.
Proof.
  induction 1 as [|mv tracks boatLookup _ IH|mv active _ IH].
  - repeat split; try constructor. intros p [].
  - now apply updateTracks_consistent.
  - now apply clearMissing_consistent.
Qed.

Lemma undisturbed_drawn {leaflet : Leaflet} mv : undisturbed mv -> drawn mv.
Proof.
  induction 1; [apply drawn_new | now apply drawn_update
                | now apply drawn_clear].
Qed.

Lemma undisturbed_tidy {leaflet : Leaflet} mv : undisturbed mv -> tidy mv.
Proof.
  induction 1 as [|mv tracks boatLookup U IH R|mv active U IH].
  - reflexivity.
  - apply updateTracks_tidy; [|assumption|assumption].
    apply drawn_consistent. now apply undisturbed_drawn.
  - apply clearMissing_tidy; [|assumption].
    apply drawn_consistent. now apply undisturbed_drawn.
Qed.

Lemma get_of_In (m : ValueMap.t polyline) k p :
  distinct (ValueMap.keys m) = true -> In (k, p) m ->
  ValueMap.get m k = Some p.
Proof.
  unfold ValueMap.get, ValueMap.keys.
  induction m as [|[k1 p1] m IH]; intros D H; [destruct H|].
  cbn [map fst distinct find] in *.
  apply andb_true_iff in D as [D1 D2]. apply negb_true_iff in D1.
  destruct H as [H|H].
  - injection H as -> ->. now rewrite same_value_zero_refl.
  - destruct (same_value_zero k k1) eqn:E; [|now apply IH].
    exfalso. rewrite <- (has_congr _ k k1 E) in D1.
    unfold JSSet.has in D1.
    assert (T : existsb (same_value_zero k) (map fst m) = true).
    { apply existsb_exists. exists k. split.
      - apply in_map_iff. now exists (k, p).
      - apply same_value_zero_refl. }
    congruence.
Qed.

End Layers.

Section Clearing.
Import MapView.
Local Open Scope list_scope.

Lemma filter_filter_and {A : Type} (p q : A -> bool) (l : list A) :
  filter p (filter q l) = filter (fun x => q x && p x) l.
Proof.
  induction l as [|a l IH]; [reflexivity|]. cbn [filter].
  destruct (q a); cbn [andb filter]; [|exact IH].
  destruct (p a); now rewrite IH.
Qed.

Lemma includes_cons k ks v :
  includes (k :: ks) v = same_value_zero v k || includes ks v.
Proof. reflexivity. Qed.

Lemma includes_congr l v w :
  same_value_zero v w = true -> includes l v = includes l w.
Proof. apply has_congr. Qed.

Lemma clear_fold_layers active ks :
  forall this,
    let after_ :=
      fold_left
        (fun this boatId =>
           if negb (includes active boatId) then
             delete_layer (match ValueMap.get (layers this) boatId with
                           | Some layer => removeLayer this layer
                           | None => this
                           end) boatId
           else this) ks this in
    layers after_
    = filter (fun e => includes active (fst e) || negb (includes ks (fst e)))
        (layers this)
    /\ created after_ = created this /\ fits after_ = fits this.
Proof.
  induction ks as [|k ks IH]; intros this.
  - cbn [fold_left includes existsb negb]. split; [|split; reflexivity].
    symmetry. apply filter_all. intros x _. apply orb_true_r.
  - cbn [fold_left]. cbn zeta in *.
    destruct (includes active k) eqn:A; cbn [negb].
    + destruct (IH this) as (L & C & F). rewrite L.
      split; [|split; assumption].
      apply filter_ext. intros [k1 p1]. cbn [fst]. rewrite includes_cons.
      destruct (same_value_zero k1 k) eqn:E; [|reflexivity].
      rewrite (includes_congr active k1 k E), A. reflexivity.
    + rewrite clear_step.
      destruct (IH (forgotten this k)) as (L & C & F). rewrite L, C, F.
      rewrite forgotten_layers, forgotten_created, forgotten_fits.
      split; [|split; reflexivity].
      unfold ValueMap.delete. rewrite filter_filter_and.
      apply filter_ext. intros [k1 p1]. cbn [fst]. rewrite includes_cons.
      rewrite (same_value_zero_sym k k1).
      destruct (same_value_zero k1 k) eqn:E; cbn [negb andb orb];
        [|reflexivity].
      rewrite (includes_congr active k1 k E), A. reflexivity.
Qed.

Lemma clearMissing_layers this active :
  layers (clearMissing this active)
  = filter (fun e => includes active (fst e)) (layers this)
  /\ created (clearMissing this active) = created this
  /\ fits (clearMissing this active) = fits this.
Proof.
  unfold clearMissing.
  destruct (clear_fold_layers active (ValueMap.keys (layers this)) this)
    as (L & C & F).
  cbn zeta in L. rewrite L. split; [|split; assumption].
  apply filter_ext_in. intros [k1 p1] Hin. cbn [fst].
  assert (I : includes (ValueMap.keys (layers this)) k1 = true).
  { apply existsb_exists. exists k1. split.
    - unfold ValueMap.keys. apply in_map_iff. now exists (k1, p1).
    - apply same_value_zero_refl. }
  rewrite I. cbn [negb]. apply orb_false_r.
Qed.

(** What the loop of [clearMissing] takes off the map: the polylines of
    the keys it visits that are not active, and no other layer. *)
Lemma clear_fold_on_map active ks :
  forall this p,
    consistent this ->
    (In p (on_map
             (fold_left
                (fun this boatId =>
                   if negb (includes active boatId) then
                     delete_layer
                       (match ValueMap.get (layers this) boatId with
                        | Some layer => removeLayer this layer
                        | None => this
                        end) boatId
                   else this) ks this))
     <-> In p (on_map this)
         /\ forall k,
              includes ks k = true -> includes active k = false ->
              ValueMap.get (layers this) k <> Some p).
Proof.
  induction ks as [|k0 ks IH]; intros this p C.
  - cbn [fold_left]. split; [|now intros [H _]].
    intros H. split; [assumption|]. intros k Hk. discriminate Hk.
  - cbn [fold_left]. destruct (includes active k0) eqn:A; cbn [negb].
    + rewrite (IH this p C). split; intros [Hp H]; (split; [assumption|]).
      * intros k Hk Ha. rewrite includes_cons in Hk.
        destruct (same_value_zero k k0) eqn:E.
        -- rewrite (includes_congr active k k0 E) in Ha. congruence.
        -- apply H; assumption.
      * intros k Hk Ha. apply H; [|assumption].
        rewrite includes_cons, Hk. apply orb_true_r.
    + rewrite clear_step.
      rewrite (IH (forgotten this k0) p (forgotten_consistent this k0 C)).
      rewrite (forgotten_on_map this k0 p C).
      assert (G : forall k,
                ValueMap.get (layers (forgotten this k0)) k
                = if same_value_zero k k0 then None
                  else ValueMap.get (layers this) k).
      { intros k. rewrite forgotten_layers.
        destruct (same_value_zero k k0) eqn:E.
        - rewrite (get_congr _ k k0 E). apply get_delete_same.
        - apply get_delete_other. now rewrite same_value_zero_sym. }
      split.
      * intros [[Hp H0] H]. split; [assumption|].
        intros k Hk Ha. rewrite includes_cons in Hk.
        destruct (same_value_zero k k0) eqn:E.
        -- now rewrite (get_congr _ k k0 E).
        -- specialize (H k Hk Ha). now rewrite G, E in H.
      * intros [Hp H]. split; [split; [assumption|]|].
        -- apply H; [|assumption].
           rewrite includes_cons, same_value_zero_refl. reflexivity.
        -- intros k Hk Ha. rewrite G.
           destruct (same_value_zero k k0) eqn:E; [discriminate|].
           apply H; [|assumption].
           rewrite includes_cons, Hk. apply orb_true_r.
Qed.

Lemma clearMissing_on_map this active p :
  consistent this ->
  (In p (on_map (clearMissing this active))
   <-> In p (on_map this)
       /\ forall k,
            ValueMap.get (layers this) k = Some p ->
            includes active k = true).
Proof.
  intros C. unfold clearMissing. rewrite (clear_fold_on_map _ _ _ p C).
  split; intros [Hp H]; (split; [assumption|]).
  - intros k G. destruct (includes active k) eqn:A; [reflexivity|].
    exfalso. apply (H k); [|exact A|exact G].
    destruct (includes (ValueMap.keys (layers this)) k) eqn:I;
      [reflexivity|].
    apply get_absent in I. congruence.
  - intros k _ A G. specialize (H k G). congruence.
Qed.

End Clearing.

Section Tracing.
Import MapView.
Context {leaflet : Leaflet}.
Local Open Scope list_scope.

Lemma draw_get_other boatLookup this b track k :
  same_value_zero (Track.boat_id track) k = false ->
  ValueMap.get (layers (fst (fst (draw boatLookup (this, b) track)))) k
  = ValueMap.get (layers this) k.
Proof.
  intros H. rewrite draw_spec. cbn zeta.
  assert (F : ValueMap.get (layers (forgotten this (Track.boat_id track))) k
              = ValueMap.get (layers this) k).
  { rewrite forgotten_layers. now apply get_delete_other. }
  destruct (coordinates track); [exact F|].
  destruct (polyline_error _); [exact F|].
  destruct (addTo_error _); cbn [fst]; [exact F|].
  unfold with_track. cbn [layers]. rewrite get_snoc, F.
  rewrite same_value_zero_sym, H.
  now destruct (ValueMap.get (layers this) k).
Qed.

Lemma each_get_other boatLookup tracks k :
  includes (map Track.boat_id tracks) k = false ->
  forall this b,
    ValueMap.get
      (layers (fst (fst (each (draw boatLookup) (this, b) tracks)))) k
    = ValueMap.get (layers this) k.
Proof.
  induction tracks as [|track tracks IH]; intros H this b; [reflexivity|].
  cbn [map] in H. rewrite includes_cons in H.
  apply orb_false_iff in H as [H1 H2]. rewrite same_value_zero_sym in H1.
  cbn [each].
  pose proof (draw_get_other boatLookup this b track k H1) as D.
  destruct (draw boatLookup (this, b) track) as [[this' b'] [u|e]];
    cbn [fst] in *; [|exact D].
  now rewrite IH.
Qed.

Lemma draw_get_same boatLookup this b track this' b' :
  draw boatLookup (this, b) track = ((this', b'), Normal tt) ->
  match coordinates track with
  | [] => ValueMap.get (layers this') (Track.boat_id track) = None
  | _ :: _ =>
      ValueMap.get (layers this') (Track.boat_id track)
      = Some {| ident := created (forgotten this (Track.boat_id track));
                latlngs := coordinates track;
                color := track_color (boatLookup (Track.boat_id track));
                weight := 3 |}
  end.
Proof.
  rewrite draw_spec. cbn zeta.
  destruct (coordinates track) as [|ll lls] eqn:Ec.
  - intros H. injection H as <- _. apply forgotten_absent.
  - destruct (polyline_error _); [discriminate|].
    destruct (addTo_error _); [discriminate|].
    intros H. injection H as <- _. unfold with_track. cbn [layers].
    rewrite get_snoc, forgotten_absent, same_value_zero_refl.
    unfold polyline_of. now rewrite Ec.
Qed.

Lemma has_points_coordinates track :
  has_points track
  = match coordinates track with [] => false | _ :: _ => true end.
Proof.
  unfold has_points, coordinates. now destruct (Track.points track).
Qed.

(** How the loop ends: the points it has added to the bounds when it
    returns; the track Leaflet threw for when it does not, and the
    polyline the map is left with when it was [addTo] that threw. *)
Lemma each_outcome boatLookup tracks :
  forall this b this' b' c,
    consistent this ->
    each (draw boatLookup) (this, b) tracks = ((this', b'), c) ->
    fits this' = fits this
    /\ match c with
       | Normal _ =>
           b' = match List.concat (map coordinates tracks) with
                | [] => b
                | _ :: _ =>
                    Some (match b with Some x => x | None => [] end
                          ++ List.concat (map coordinates tracks))
                end
           /\ created this'
              = (created this + List.length (filter has_points tracks))%nat
       | Throw e =>
           exists track,
             In track tracks
             /\ (polyline_error (coordinates track) = Some e
                 \/ (addTo_error (coordinates track) = Some e
                     /\ exists p,
                          In p (on_map this')
                          /\ latlngs p = coordinates track
                          /\ forall k,
                               ValueMap.get (layers this') k <> Some p))
       end.
Proof.
  induction tracks as [|track tracks IH]; intros this b this' b' c C E.
  - cbn [each] in E. injection E as <- <- <-. cbn [map List.concat filter].
    repeat split. cbn [List.length]. lia.
  - cbn [each] in E. rewrite draw_spec in E. cbn zeta in E.
    cbn [map List.concat filter]. rewrite has_points_coordinates.
    pose proof (forgotten_consistent this (Track.boat_id track) C) as Cf.
    destruct (coordinates track) as [|c0 cs0] eqn:Ec.
    + apply IH in E as (F & R); [|exact Cf]. rewrite forgotten_fits in F.
      split; [exact F|]. destruct c as [u|e].
      * cbn [List.app]. rewrite forgotten_created in R. exact R.
      * destruct R as (t & Ht & Hp). exists t. split; [now right | exact Hp].
    + destruct (polyline_error (c0 :: cs0)) as [e|] eqn:Ee.
      * injection E as <- <- <-. rewrite forgotten_fits.
        split; [reflexivity|]. exists track.
        split; [now left | left; now rewrite Ec].
      * destruct (addTo_error (c0 :: cs0)) as [e|] eqn:Ea.
        -- injection E as <- <- <-. cbn [placed fits].
           rewrite forgotten_fits. split; [reflexivity|]. exists track.
           split; [now left | right]. rewrite Ec. split; [exact Ea|].
           destruct (placed_stray (forgotten this (Track.boat_id track))
                       (boatLookup (Track.boat_id track)) track Cf)
             as (S1 & S2).
           eexists. split; [exact S1|]. split; [|exact S2].
           cbn [polyline_of latlngs]. exact Ec.
        -- apply IH in E as (F & R);
             [|apply with_track_consistent;
               [exact Cf | apply forgotten_absent]].
           unfold with_track in F, R.
           cbn [fits created] in F, R. rewrite forgotten_fits in F.
           rewrite forgotten_created in R.
           split; [exact F|]. destruct c as [u|e].
           ++ destruct R as (R1 & R2). split.
              ** rewrite R1.
                 generalize (List.concat (map coordinates tracks)).
                 intros rest. clear.
                 destruct rest, b; cbn [List.app];
                   rewrite ?List.app_nil_r, <- ?List.app_assoc; reflexivity.
              ** cbn [List.length]. lia.
           ++ destruct R as (t & Ht & Hp). exists t.
              split; [now right | exact Hp].
Qed.

End Tracing.

(** X14.  Whatever tracks the map view has been given and whatever
    selections it has been cleared for, the calls that Leaflet made fail
    included, every polyline that [layers] holds is a layer of the map, no
    two entries of [layers] have the same boat id and no polyline is on the
    map twice.  As long as every [updateTracks] has returned, the layers of
    the map are exactly the polylines [layers] holds, entry by entry. *)
Theorem map_shows_layers {leaflet : Leaflet} :
  (forall mv,
     drawn mv ->
     (forall k p,
        ValueMap.get (MapView.layers mv) k = Some p ->
        In p (MapView.on_map mv))
     /\ distinct (ValueMap.keys (MapView.layers mv)) = true
     /\ NoDup (map MapView.ident (MapView.on_map mv)))
  /\ (forall mv,
        undisturbed mv ->
        MapView.on_map mv = map snd (MapView.layers mv)
        /\ (forall p,
              In p (MapView.on_map mv)
              <-> exists k, ValueMap.get (MapView.layers mv) k = Some p)).
Proof.
  split.
  - intros mv H. destruct (drawn_consistent mv H) as (N & F & D & NL & I).
    split; [|split; assumption].
    intros k p G. apply I. exact (get_In _ _ k p G).
  - intros mv U. pose proof (undisturbed_tidy mv U) as T.
    destruct (drawn_consistent mv (undisturbed_drawn mv U))
      as (N & F & D & NL & I).
    split; [exact T|]. intros p. rewrite T. split.
    + intros Hin. apply in_map_iff in Hin as ([k q] & E & Hin).
      cbn [snd] in E. subst q. exists k. now apply get_of_In.
    + intros [k G]. exact (get_In _ _ k p G).
Qed.

Lemma map_shows_layers_witness :
  undisturbed (leaflet := SampleMap.leaflet)
    (MapView.clearMissing SampleMap.view [num 5; num 3])
  /\ MapView.on_map (MapView.clearMissing SampleMap.view [num 5; num 3])
     = map snd
         (MapView.layers (MapView.clearMissing SampleMap.view [num 5; num 3]))
  /\ List.length
       (MapView.on_map (MapView.clearMissing SampleMap.view [num 5; num 3]))
     = 1%nat.
Proof.
  assert (H : undisturbed (leaflet := SampleMap.leaflet)
                (MapView.clearMissing SampleMap.view [num 5; num 3])).
  { apply undisturbed_clear. unfold SampleMap.view.
    apply undisturbed_update; [apply undisturbed_new|].
    vm_compute. reflexivity. }
  split; [exact H|].
  split; [|vm_compute; reflexivity].
  exact (proj1 (proj2 (map_shows_layers (leaflet := SampleMap.leaflet)) _ H)).
Defined.

(** X15.  [clearMissing] keeps the layers of the boats in the list it is
    given, each with the polyline it had and in the order they had, and
    takes every other entry out of [layers] and its polyline off the map.
    A polyline stays on the map unless it is the polyline of an entry
    taken out, so one that is on the map without an entry stays there;
    when the map showed the polylines of [layers] and no other, it does so
    afterwards.  [clearMissing] creates nothing and does not call
    [fitBounds]. *)
Theorem clearMissing_keeps_active {leaflet : Leaflet} :
  forall mv activeBoatIds,
    drawn mv ->
    let mv' := MapView.clearMissing mv activeBoatIds in
    MapView.layers mv'
    = filter (fun e => includes activeBoatIds (fst e)) (MapView.layers mv)
    /\ (forall p,
          In p (MapView.on_map mv')
          <-> In p (MapView.on_map mv)
              /\ forall k,
                   ValueMap.get (MapView.layers mv) k = Some p ->
                   includes activeBoatIds k = true)
    /\ (MapView.on_map mv = map snd (MapView.layers mv) ->
        MapView.on_map mv' = map snd (MapView.layers mv'))
    /\ (forall k,
          ValueMap.get (MapView.layers mv') k
          = if includes activeBoatIds k
            then ValueMap.get (MapView.layers mv) k else None)
    /\ MapView.created mv' = MapView.created mv
    /\ MapView.fits mv' = MapView.fits mv.
Proof.
  intros mv active H mv'. pose proof (drawn_consistent mv H) as C.
  destruct (clearMissing_layers mv active) as (L & Cr & F).
  fold mv' in L, Cr, F. split; [exact L|]. split; [|split; [|split]].
  - intros p. now apply clearMissing_on_map.
  - intros T. exact (clearMissing_tidy mv active C T).
  - intros k. rewrite L. apply filter_keys_includes.
  - split; assumption.
Qed.

Lemma clearMissing_keeps_active_witness :
  drawn (leaflet := SampleMap.leaflet) SampleMap.view
  /\ MapView.layers (MapView.clearMissing SampleMap.view [num 5; num 3])
     = filter (fun e => includes [num 5; num 3] (fst e))
         (MapView.layers SampleMap.view)
  /\ map fst (MapView.layers SampleMap.view) = [num 7; num 5]
  /\ map fst (MapView.layers
                (MapView.clearMissing SampleMap.view [num 5; num 3]))
     = [num 5].
Proof.
  assert (H : drawn (leaflet := SampleMap.leaflet) SampleMap.view).
  { unfold SampleMap.view. apply drawn_update. apply drawn_new. }
  split; [exact H|].
  split; [|split; vm_compute; reflexivity].
  exact (proj1 (clearMissing_keeps_active (leaflet := SampleMap.leaflet)
                  SampleMap.view [num 5; num 3] H)).
Defined.

(** X16.  After [updateTracks] has returned, a boat that the response has
    no track for keeps the layer it had, if it had one; a boat that the
    response has tracks for has the polyline of its last track, with that
    track's coordinates, three pixels wide, in the boat's label colour or,
    when the boat is not known or has no colour, in #1f77b4, and this
    polyline is on the map; when its last track has no points it has no
    layer. *)
Theorem updateTracks_draws_last_track {leaflet : Leaflet} :
  forall mv tracks boatLookup mv',
    drawn mv ->
    MapView.updateTracks mv tracks boatLookup = (mv', Normal tt) ->
    (forall k,
       includes (map Track.boat_id tracks) k = false ->
       ValueMap.get (MapView.layers mv') k
       = ValueMap.get (MapView.layers mv) k)
    /\ (forall pre track post,
          tracks = (pre ++ track :: post)%list ->
          includes (map Track.boat_id post) (Track.boat_id track) = false ->
          match coordinates track with
          | [] =>
              ValueMap.get (MapView.layers mv') (Track.boat_id track) = None
          | _ :: _ =>
              exists p,
                ValueMap.get (MapView.layers mv') (Track.boat_id track)
                = Some p
                /\ In p (MapView.on_map mv')
                /\ MapView.latlngs p = coordinates track
                /\ MapView.color p
                   = track_color (boatLookup (Track.boat_id track))
                /\ truthy (MapView.color p) = true
                /\ MapView.weight p = 3
          end).
Proof.
  intros mv tracks boatLookup mv' H E.
  pose proof (updateTracks_consistent mv tracks boatLookup
                (drawn_consistent mv H)) as (_ & _ & _ & _ & I).
  destruct (updateTracks_layers mv tracks boatLookup) as (L & _).
  rewrite E in I, L. cbn [fst] in I, L.
  assert (N : exists s, MapView.each (MapView.draw boatLookup) (mv, None)
                          tracks = (s, Normal tt)).
  { apply updateTracks_returned. now rewrite E. }
  destruct N as (s & N). rewrite N in L. split.
  - intros k Hk. rewrite L.
    pose proof (each_get_other boatLookup tracks k Hk mv None) as G.
    now rewrite N in G.
  - intros pre track post -> Hp. rewrite each_app in N.
    destruct (MapView.each (MapView.draw boatLookup) (mv, None) pre)
      as [[this1 b1] [u1|e1]]; [|discriminate].
    cbn [MapView.each] in N.
    destruct (MapView.draw boatLookup (this1, b1) track)
      as [[this2 b2] [[]|e2]] eqn:D; [|discriminate].
    pose proof (each_get_other boatLookup post (Track.boat_id track) Hp
                  this2 b2) as G.
    rewrite N in G. rewrite L, G.
    pose proof (draw_get_same boatLookup this1 b1 track this2 b2 D) as S.
    destruct (coordinates track) as [|c0 cs0]; [exact S|].
    eexists. split; [exact S|]. cbn [MapView.latlngs MapView.color
                                     MapView.weight].
    split.
    + apply I. rewrite L. apply (get_In _ _ (Track.boat_id track)).
      now rewrite G.
    + repeat split. unfold track_color, or_else.
      destruct (truthy (match boatLookup (Track.boat_id track) with
                        | Some b => Boat.label_color b
                        | None => VUndefined
                        end)) eqn:T; [exact T | reflexivity].
Qed.

Lemma updateTracks_draws_last_track_witness :
  drawn (leaflet := SampleMap.leaflet) MapView.constructor
  /\ MapView.updateTracks (leaflet := SampleMap.leaflet) MapView.constructor
       SampleMap.tracks (AppState.getBoatById Sample.state)
     = (SampleMap.view, Normal tt)
  /\ (forall k,
        includes (map Track.boat_id SampleMap.tracks) k = false ->
        ValueMap.get (MapView.layers SampleMap.view) k
        = ValueMap.get (MapView.layers MapView.constructor) k)
  /\ map (fun e => (fst e, MapView.color (snd e)))
       (MapView.layers SampleMap.view)
     = [(num 7, VString "#2ca02c"); (num 5, VString "#ff7f0e")].
Proof.
  assert (E : MapView.updateTracks (leaflet := SampleMap.leaflet)
                MapView.constructor SampleMap.tracks
                (AppState.getBoatById Sample.state)
              = (SampleMap.view, Normal tt)) by (vm_compute; reflexivity).
  split; [apply drawn_new|]. split; [exact E|].
  split; [|vm_compute; reflexivity].
  exact (proj1 (updateTracks_draws_last_track (leaflet := SampleMap.leaflet)
                  MapView.constructor SampleMap.tracks
                  (AppState.getBoatById Sample.state) SampleMap.view
                  (drawn_new (leaflet := SampleMap.leaflet)) E)).
Defined.

(** X17.  When [updateTracks] returns it has made one polyline for each
    track with points and, if there was one, has called [fitBounds] once,
    with the bounds of the points of the tracks of this response (the
    layers left from before do not count); when no track has points it does
    not call [fitBounds].  When it throws, either [fitBounds] threw, called
    as said, or Leaflet threw for the coordinates of one of the tracks and
    [fitBounds] was not called: [L.polyline] threw, or [addTo] did, and
    then the polyline made for that track is left on the map with no entry
    in [layers]. *)
Theorem updateTracks_fits_new_tracks {leaflet : Leaflet} :
  forall mv tracks boatLookup,
    drawn mv ->
    match MapView.updateTracks mv tracks boatLookup with
    | (mv', Normal _) =>
        MapView.fits mv'
        = (MapView.fits mv
           ++ match List.concat (map coordinates tracks) with
              | [] => []
              | _ :: _ => [List.concat (map coordinates tracks)]
              end)%list
        /\ MapView.created mv'
           = (MapView.created mv
              + List.length (filter has_points tracks))%nat
    | (mv', Throw e) =>
        (fitBounds_error (List.concat (map coordinates tracks)) = Some e
         /\ MapView.fits mv'
            = (MapView.fits mv ++ [List.concat (map coordinates tracks)])%list
         /\ MapView.created mv'
            = (MapView.created mv
               + List.length (filter has_points tracks))%nat)
        \/ (MapView.fits mv' = MapView.fits mv
            /\ exists track,
                 In track tracks
                 /\ (polyline_error (coordinates track) = Some e
                     \/ (addTo_error (coordinates track) = Some e
                         /\ exists p,
                              In p (MapView.on_map mv')
                              /\ MapView.latlngs p = coordinates track
                              /\ forall k,
                                   ValueMap.get (MapView.layers mv') k
                                   <> Some p)))
    end.
Proof.
  intros mv tracks boatLookup H. unfold MapView.updateTracks.
  destruct (MapView.each (MapView.draw boatLookup) (mv, None) tracks)
    as [[this' b'] c] eqn:E.
  apply each_outcome in E as (F & R); [|now apply drawn_consistent].
  destruct c as [u|e].
  - destruct R as (R1 & R2).
    destruct (List.concat (map coordinates tracks)) as [|x xs] eqn:Ec;
      subst b'; cbn [List.app].
    + cbn [MapView.fits MapView.created]. rewrite List.app_nil_r.
      now split.
    + destruct (fitBounds_error (x :: xs)) as [e|] eqn:Ef;
        cbn [MapView.fits MapView.created].
      * left. rewrite F. repeat split; assumption.
      * rewrite F. now split.
  - destruct b'; right; cbn [MapView.fits MapView.on_map MapView.layers];
      (split; [exact F | exact R]).
Qed.

Lemma updateTracks_fits_new_tracks_witness :
  drawn (leaflet := SampleMap.leaflet) SampleMap.view
  /\ snd (MapView.updateTracks (leaflet := SampleMap.leaflet) SampleMap.view
            SampleMap.adrift (AppState.getBoatById Sample.state))
     = Throw (Error "Invalid LatLng object: (NaN, NaN)")
  /\ map fst
       (MapView.layers
          (fst (MapView.updateTracks (leaflet := SampleMap.leaflet)
                  SampleMap.view SampleMap.adrift
                  (AppState.getBoatById Sample.state))))
     = [num 7]
  /\ map MapView.ident
       (MapView.on_map
          (fst (MapView.updateTracks (leaflet := SampleMap.leaflet)
                  SampleMap.view SampleMap.adrift
                  (AppState.getBoatById Sample.state))))
     = [0%nat; 2%nat]
  /\ match MapView.updateTracks (leaflet := SampleMap.leaflet) SampleMap.view
             SampleMap.adrift (AppState.getBoatById Sample.state) with
     | (mv', Normal _) =>
         MapView.fits mv'
         = (MapView.fits SampleMap.view
            ++ match List.concat (map coordinates SampleMap.adrift) with
               | [] => []
               | _ :: _ => [List.concat (map coordinates SampleMap.adrift)]
               end)%list
         /\ MapView.created mv'
            = (MapView.created SampleMap.view
               + List.length (filter has_points SampleMap.adrift))%nat
     | (mv', Throw e) =>
         (fitBounds_error (Leaflet := SampleMap.leaflet)
            (List.concat (map coordinates SampleMap.adrift))
          = Some e
          /\ MapView.fits mv'
             = (MapView.fits SampleMap.view
                ++ [List.concat (map coordinates SampleMap.adrift)])%list
          /\ MapView.created mv'
             = (MapView.created SampleMap.view
                + List.length (filter has_points SampleMap.adrift))%nat)
         \/ (MapView.fits mv' = MapView.fits SampleMap.view
             /\ exists track,
                  In track SampleMap.adrift
                  /\ (polyline_error (Leaflet := SampleMap.leaflet)
                        (coordinates track) = Some e
                      \/ (addTo_error (Leaflet := SampleMap.leaflet)
                             (coordinates track) = Some e
                          /\ exists p,
                               In p (MapView.on_map mv')
                               /\ MapView.latlngs p = coordinates track
                               /\ forall k,
                                    ValueMap.get (MapView.layers mv') k
                                    <> Some p)))
     end.
Proof.
  assert (H : drawn (leaflet := SampleMap.leaflet) SampleMap.view).
  { unfold SampleMap.view. apply drawn_update. apply drawn_new. }
  split; [exact H|]. split; [vm_compute; reflexivity|].
  split; [vm_compute; reflexivity|]. split; [vm_compute; reflexivity|].
  exact (updateTracks_fits_new_tracks (leaflet := SampleMap.leaflet)
           SampleMap.view SampleMap.adrift
           (AppState.getBoatById Sample.state) H).
Defined.

(* ===================================================================== *)
(** ** The statistics when the request fails *)
(* ===================================================================== *)

(** X18.  When the statistics request of [UIController.refreshStats] is
    refused by the server or fails, the function fails with the server's
    detail as an [Error], or with the TypeError of [fetch], after the one
    request: the table is not touched, the rows of the window before stay
    on display. *)
Theorem refreshStats_failure_keeps_rows {host : Host} :
  forall this w s e,
    let sel := AppState.getSelectedBoats (UIController.state this) in
    let url := ApiClient.baseUrl (UIController.api this) ++ "/stats" in
    let q := (boats_query sel ++ [("t0", s); ("t1", e); ("ref", "twd")])%list in
    sel <> [] -> window w = Some (s, e) ->
    (forall detail,
       GET_stats q = HttpError detail ->
       UIController.refreshStats this w
       = (after w [Fetch url q], Throw (Error detail)))
    /\ (GET_stats q = NetworkError ->
        UIController.refreshStats this w
        = (after w [Fetch url q], Throw TypeError)).
Proof.
  intros this w s e sel url q Hs Hw.
  unfold UIController.refreshStats. fold sel.
  destruct sel as [|b sel'] eqn:Es; [contradiction|].
  split.
  - intros detail Hq. run. rewrite (window_some w _ Hw).
    unfold ApiClient.getStats, ApiClient.request. run.
    rewrite getStats_search_window. fold q. now rewrite Hq.
  - intros Hq. run. rewrite (window_some w _ Hw).
    unfold ApiClient.getStats, ApiClient.request. run.
    rewrite getStats_search_window. fold q. now rewrite Hq.
Qed.

Lemma refreshStats_failure_keeps_rows_witness :
  AppState.getSelectedBoats Sample.state <> []
  /\ window (host := Sample.offline) Sample.page0
     = Some ("2024-06-01T10:00:00.000Z", "2024-06-01T10:05:00.000Z")
  /\ UIController.refreshStats (host := Sample.offline) Sample.ui Sample.page0
     = (after Sample.page0
          [Fetch (ApiClient.baseUrl (UIController.api Sample.ui) ++ "/stats")
             (boats_query (host := Sample.offline)
                (AppState.getSelectedBoats (UIController.state Sample.ui))
              ++ [("t0", "2024-06-01T10:00:00.000Z");
                  ("t1", "2024-06-01T10:05:00.000Z"); ("ref", "twd")])%list],
        Throw (Error "Service Unavailable"))
  /\ statsTableBody
       (fst (UIController.refreshStats (host := Sample.offline) Sample.ui
               Sample.page0))
     = [[VString "stale"]].
Proof.
  assert (W : window (host := Sample.offline) Sample.page0
              = Some ("2024-06-01T10:00:00.000Z", "2024-06-01T10:05:00.000Z"))
    by (vm_compute; reflexivity).
  split; [discriminate|]. split; [exact W|].
  split; [|vm_compute; reflexivity].
  exact (proj1 (refreshStats_failure_keeps_rows (host := Sample.offline)
                  Sample.ui Sample.page0
                  "2024-06-01T10:00:00.000Z" "2024-06-01T10:05:00.000Z"
                  ltac:(discriminate) W)
           "Service Unavailable" eq_refl).
Defined.

(** X19.  The earlier [refreshStats] leaves the page as it is, old rows
    included, when no boat is selected or a picker is empty (the later one
    empties the table); it fails with a RangeError and without a request
    when a picker holds no date; and when the request is refused or fails
    it fails after the one request with the table untouched. *)
Theorem legacy_refreshStats_edges {host : Host} :
  forall this w,
    let sel := Legacy.selectedBoats this in
    let url := Legacy.API_BASE this ++ "/stats" in
    (sel = [] -> Legacy.refreshStats this w = (w, Normal tt))
    /\ (windowStart w = "" \/ windowEnd w = "" ->
        Legacy.refreshStats this w = (w, Normal tt))
    /\ (sel <> [] -> windowStart w <> "" -> windowEnd w <> "" ->
        window w = None ->
        Legacy.refreshStats this w = (w, Throw RangeError))
    /\ (forall s e,
          sel <> [] -> window w = Some (s, e) ->
          let q := (boats_query sel
                    ++ [("t0", s); ("t1", e); ("ref", "twd")])%list in
          (forall detail,
             GET_stats q = HttpError detail ->
             Legacy.refreshStats this w
             = (after w [Fetch url q], Throw (Error detail)))
          /\ (GET_stats q = NetworkError ->
              Legacy.refreshStats this w
              = (after w [Fetch url q], Throw TypeError))).
Proof.
  intros this w sel url.
  unfold Legacy.refreshStats, Legacy.boats_params, Legacy.fetchJSON,
    JSSet.to_array.
  rewrite size_zero. fold sel. split; [|split; [|split]].
  - intros ->. reflexivity.
  - intros H. destruct sel; [reflexivity|]. run.
    destruct H as [H|H]; apply truthy_empty in H; rewrite H; cbn [negb orb];
      [reflexivity|].
    now rewrite orb_true_r.
  - intros Hs H1 H2 Hw. destruct sel as [|b sel'] eqn:Es; [contradiction|].
    run. unfold window in Hw.
    rewrite (truthy_nonempty _ H1), (truthy_nonempty _ H2) in *.
    cbn [negb orb andb] in *. unfold iso_of, toISOString in *.
    destruct (new_Date (VString (windowStart w))); [|reflexivity].
    destruct (new_Date (VString (windowEnd w))); [discriminate|reflexivity].
  - intros s e Hs Hw. destruct sel as [|b sel'] eqn:Es; [contradiction|].
    set (q := (boats_query (b :: sel')
               ++ [("t0", s); ("t1", e); ("ref", "twd")])%list).
    assert (W : truthy (VString (windowStart w)) = true
                /\ truthy (VString (windowEnd w)) = true
                /\ iso_of (windowStart w) = Normal s
                /\ iso_of (windowEnd w) = Normal e).
    { unfold window in Hw.
      destruct (truthy (VString (windowStart w))); [|discriminate].
      destruct (truthy (VString (windowEnd w))); [|discriminate].
      cbn [andb] in Hw.
      destruct (iso_of (windowStart w)); [|discriminate].
      destruct (iso_of (windowEnd w)); [|discriminate].
      injection Hw as -> ->. repeat split. }
    destruct W as (T1 & T2 & I1 & I2).
    assert (Q : URLSearchParams.append
                  (URLSearchParams.append
                     (URLSearchParams.append
                        (URLSearchParams.append_boats [] (b :: sel'))
                        "t0" (VString s)) "t1" (VString e))
                  "ref" (VString "twd") = q).
    { rewrite append_boats_spec. unfold URLSearchParams.append, q.
      cbn [List.app ToString]. now rewrite <- !List.app_assoc. }
    split.
    + intros detail Hq. run. rewrite T1, T2, I1, I2. cbn [negb orb].
      rewrite Q, Hq. reflexivity.
    + intros Hq. run. rewrite T1, T2, I1, I2. cbn [negb orb].
      rewrite Q, Hq. reflexivity.
Qed.

Lemma legacy_refreshStats_edges_witness :
  Legacy.selectedBoats Sample.legacy <> []
  /\ window (host := Sample.offline) Sample.page0
     = Some ("2024-06-01T10:00:00.000Z", "2024-06-01T10:05:00.000Z")
  /\ Legacy.refreshStats (host := Sample.offline) Sample.legacy Sample.page0
     = (after Sample.page0
          [Fetch (Legacy.API_BASE Sample.legacy ++ "/stats")
             (boats_query (host := Sample.offline)
                (Legacy.selectedBoats Sample.legacy)
              ++ [("t0", "2024-06-01T10:00:00.000Z");
                  ("t1", "2024-06-01T10:05:00.000Z"); ("ref", "twd")])%list],
        Throw (Error "Service Unavailable")).
Proof.
  assert (W : window (host := Sample.offline) Sample.page0
              = Some ("2024-06-01T10:00:00.000Z", "2024-06-01T10:05:00.000Z"))
    by (vm_compute; reflexivity).
  split; [discriminate|]. split; [exact W|].
  exact (proj1 (proj2 (proj2 (proj2 (legacy_refreshStats_edges
                                       (host := Sample.offline)
                                       Sample.legacy Sample.page0)))
                  "2024-06-01T10:00:00.000Z" "2024-06-01T10:05:00.000Z"
                  ltac:(discriminate) W)
           "Service Unavailable" eq_refl).
Defined.
